(** * RANSAC wall detection: point-cloud construction and plane fitting

    A shallow embedding of the two native plane estimators of the
    repository,

      - [findPlanesRansac]     (app/src/main/cpp/ransac.cpp), and
      - [detect_walls_ransac]  (android/app/src/main/cpp/ransac.cpp),

    together with the properties of the point-cloud builder and of the
    RANSAC loop that the specification states about them.

    Modelling conventions.

    - A C++ [float] is an IEEE-754 binary32 value: a [spec_float] handled
      with the operations of the standard library's [SpecFloat] at precision
      24 and maximal exponent 128 (round to nearest, ties to even, one
      rounding per source operation).
    - A C++ [int] is a [Z]; a [size_t] index is a [nat]; the conversion
      [static_cast<size_t>] of an [int] wraps modulo [2 ^ 64]. The product
      [width * height] handed to [reserve] is the 32-bit one, reduced modulo
      [2 ^ 32] into the range of [int]. The index [v * width + u] of a cell
      is below [width * height] inside the loops, so it is the [int] of the
      source on every grid of fewer than [2 ^ 31] cells.
    - The values returned by the successive calls [dist(rng)] are an explicit
      input, the list of draws: the generator is seeded from
      [std::random_device] inside the function, so the drawn indices are
      chosen by the environment and not by the caller.
    - A call ends in an [outcome]: a normal return, the [std::length_error]
      of [vector::reserve], an access outside a buffer, or the exhaustion of
      the supplied draws (the retry loops of detect_walls_ransac need not
      end on a finite list of draws).
    - The depth map and the output buffer, which the sources reach through
      bare pointers, are the lists of their cells.
    - Logging is left out; failure of memory allocation is not modelled. *)

From Stdlib Require Import ZArith List Bool Lia.
From Stdlib Require Import Floats.SpecFloat.
Import ListNotations.
Local Open Scope Z_scope.

Set Implicit Arguments.

(** ** IEEE-754 binary32 *)

Module F32.

Definition prec : Z := 24.
Definition emax : Z := 128.

Definition float : Type := spec_float.

Definition add : float -> float -> float := SFadd prec emax.
Definition sub : float -> float -> float := SFsub prec emax.
Definition mul : float -> float -> float := SFmul prec emax.
Definition div : float -> float -> float := SFdiv prec emax.
Definition sqrt : float -> float := SFsqrt prec emax.
Definition opp : float -> float := SFopp.
Definition abs : float -> float := SFabs.

(** [static_cast<float>(n)] for an [int] [n]. *)
Definition of_int (n : Z) : float := binary_normalize prec emax n 0 false.

(** [std::isnan]. *)
Definition is_nan (x : float) : bool :=
  match x with S754_nan => true | _ => false end.

(** Comparison of the real values of two floating-point numbers. It does
    not depend on the format of its operands, so it also compares a
    [float] with a [double] constant, as C++ does after promoting the
    [float] (a promotion that is exact). *)
Definition compare (x y : spec_float) : option comparison :=
  match x, y with
  | S754_finite sx mx ex, S754_finite sy my ey =>
      let e0 := Z.min ex ey in
      Some (Z.compare (cond_Zopp sx (Zpos mx) * 2 ^ (ex - e0))
                      (cond_Zopp sy (Zpos my) * 2 ^ (ey - e0)))
  | _, _ => SFcompare x y
  end.

(** [x < y], false as soon as an operand is NaN. *)
Definition lt (x y : spec_float) : bool :=
  match compare x y with Some Lt => true | _ => false end.

(** [x > y]. *)
Definition gt (x y : spec_float) : bool := lt y x.

Definition eq (x y : spec_float) : bool :=
  match compare x y with Some Eq => true | _ => false end.

Definition zero : float := S754_zero false.
Definition one : float := S754_finite false 8388608 (-23).
Definition nan : float := S754_nan.

(** [std::numeric_limits<float>::epsilon()], that is [2 ^ -23]. *)
Definition epsilon : float := S754_finite false 8388608 (-46).

(** The literals of the two sources. [1e-5] and [1e-6] have no suffix and
    are [double] constants; [0.01f] and [1000.0f] are [float] constants. *)
Definition lit_1000 : float := S754_finite false 16384000 (-14).
Definition lit_0_01 : float := S754_finite false 10737418 (-30).
Definition lit_1e_5 : spec_float := S754_finite false 5902958103587057 (-69).
Definition lit_1e_6 : spec_float := S754_finite false 4722366482869645 (-72).

End F32.

Abbreviation float := F32.float.

Declare Scope f32_scope.
Delimit Scope f32_scope with f32.
Infix "+" := F32.add : f32_scope.
Infix "-" := F32.sub : f32_scope.
Infix "*" := F32.mul : f32_scope.
Infix "/" := F32.div : f32_scope.
Notation "- x" := (F32.opp x) : f32_scope.

(** ** Outcomes and the monad of the random draws *)

Inductive outcome (A : Type) : Type :=
| Done (a : A)      (* normal return *)
| LengthError       (* std::length_error thrown by std::vector::reserve *)
| OutOfBounds       (* access outside a buffer: undefined behaviour *)
| Starved.          (* the supplied draws are exhausted *)

Arguments LengthError {A}.
Arguments OutOfBounds {A}.
Arguments Starved {A}.

Definition obind {A B : Type} (c : outcome A) (k : A -> outcome B) : outcome B :=
  match c with
  | Done a => k a
  | LengthError => LengthError
  | OutOfBounds => OutOfBounds
  | Starved => Starved
  end.

(** A computation that consumes draws of the random index distribution. *)
Definition M (A : Type) : Type := list nat -> outcome (A * list nat).

Definition ret {A : Type} (a : A) : M A := fun ds => Done (a, ds).

Definition bind {A B : Type} (c : M A) (k : A -> M B) : M B :=
  fun ds => obind (c ds) (fun r => k (fst r) (snd r)).

Definition lift {A : Type} (c : outcome A) : M A :=
  fun ds => obind c (fun a => Done (a, ds)).

(** One call [dist(rng)]. *)
Definition draw : M nat :=
  fun ds => match ds with
            | [] => Starved
            | d :: ds' => Done (d, ds')
            end.

Declare Scope monad_scope.
Delimit Scope monad_scope with monad.
Notation "x <- c ;; k" := (bind c (fun x => k))
  (at level 61, c at next level, right associativity) : monad_scope.
Notation "x <~ c ;; k" := (obind c (fun x => k))
  (at level 61, c at next level, right associativity) : monad_scope.
Local Open Scope monad_scope.

(** ** Data *)

(** [struct Point3D { float x, y, z; }] of both sources. *)
Record Point3D : Type := mkPoint3D { p_x : float; p_y : float; p_z : float }.

(** [struct Plane { float a, b, c, d; }] of app/.../ransac.cpp. *)
Record Plane : Type := mkPlane { pl_a : float; pl_b : float; pl_c : float; pl_d : float }.

(** [struct PlaneResult { float A, B, C, D; int numInliers; }] of ransac.h. *)
Record PlaneResult : Type :=
  mkPlaneResult { res_A : float; res_B : float; res_C : float; res_D : float;
                  numInliers : Z }.

(** [RansacPlaneResult] of image_utils.h. *)
Record RansacPlaneResult : Type :=
  mkRansacPlaneResult { out_a : float; out_b : float; out_c : float; out_d : float;
                        inlier_count : Z }.

(** ** Loops and buffers *)

(** [for (int i = i0; ...; ++i) body] run for [n] rounds on a state. *)
Fixpoint for_loop {S : Type} (n : nat) (i : Z) (body : Z -> S -> outcome S) (s : S)
  : outcome S :=
  match n with
  | O => Done s
  | Datatypes.S n' => s' <~ body i s ;; for_loop n' (i + 1) body s'
  end.

(** [for (int i = 0; i < hi; ++i) body]: no round at all when [hi <= 0]. *)
Definition for_int {S : Type} (hi : Z) (body : Z -> S -> outcome S) (s : S) : outcome S :=
  for_loop (Z.to_nat hi) 0 body s.

(** [buf[index]] through a pointer to a buffer of [length buf] cells. *)
Definition read {T : Type} (buf : list T) (index : Z) : outcome T :=
  if index <? 0 then OutOfBounds
  else match nth_error buf (Z.to_nat index) with
       | Some v => Done v
       | None => OutOfBounds
       end.

(** The value of an [int] expression whose mathematical value is [n]: an
    [int] has 32 bits, and a result outside [-2^31, 2^31) comes out reduced
    modulo [2^32] (two's complement). *)
Definition int_of (n : Z) : Z := (n + 2 ^ 31) mod 2 ^ 32 - 2 ^ 31.

(** [a * b] on two [int]s. *)
Definition int_mul (a b : Z) : Z := int_of (a * b).

(** [pointCloud.reserve(n / 4)] for an [int] [n]: the [int] argument is
    converted to [size_type], so a negative one exceeds [max_size()] and the
    call throws; the division of C++ truncates toward zero. *)
Definition reserve (n : Z) : outcome unit :=
  if Z.quot n 4 <? 0 then LengthError else Done tt.

(** ** The point-cloud builder of findPlanesRansac (lines 118-140) *)

Section BuilderApp.
Variables (depthMap : list float) (width height : Z) (fx fy cx cy : float).

Definition cloud_cell_app (v u : Z) (pointCloud : list Point3D)
  : outcome (list Point3D) :=
  let index := v * width + u in
  inverseDepth <~ read depthMap index ;;
  if F32.lt inverseDepth F32.lit_1e_5 then Done pointCloud
  else
    let z := (F32.one / inverseDepth)%f32 in
    if F32.gt z F32.lit_1000 then Done pointCloud
    else
      let x := ((F32.of_int u - cx) * z / fx)%f32 in
      let y := ((F32.of_int v - cy) * z / fy)%f32 in
      Done (pointCloud ++ [mkPoint3D x y z]).

Definition build_cloud_app : outcome (list Point3D) :=
  for_int height (fun v => for_int width (cloud_cell_app v)) [].
End BuilderApp.

(** ** The point-cloud builder of detect_walls_ransac (lines 44-71) *)

Section BuilderAndroid.
Variables (depth_map_data : list float) (width height : Z) (fx fy cx cy : float).

Definition cloud_cell_android (v u : Z) (point_cloud : list Point3D)
  : outcome (list Point3D) :=
  inv_d <~ read depth_map_data (v * width + u) ;;
  if F32.gt inv_d F32.lit_0_01 then
    let Z := (F32.one / inv_d)%f32 in
    let X := ((F32.of_int u - cx) * Z / fx)%f32 in
    let Y := ((F32.of_int v - cy) * Z / fy)%f32 in
    let Y := (- Y)%f32 in
    Done (point_cloud ++ [mkPoint3D X Y Z])
  else Done point_cloud.

Definition build_cloud_android : outcome (list Point3D) :=
  for_int height (fun v => for_int width (cloud_cell_android v)) [].
End BuilderAndroid.

(** ** The RANSAC loop *)

(** The three indices of a sample. *)
Definition triple : Type := (nat * nat * nat)%type.

(** What one round of the RANSAC loop does: it gives up on a collision of
    indices ([continue], findPlanesRansac line 167), gives up on a sample
    that defines no plane ([continue], lines 175 and 123), or scores the
    plane through the sample. *)
Inductive iteration : Type :=
| Collision
| Degenerate (t : triple)
| Scored (t : triple) (pl : Plane) (inliers : Z).

(** [pointCloud[idx]]. *)
Definition at_index (pointCloud : list Point3D) (idx : nat) : outcome Point3D :=
  match nth_error pointCloud idx with
  | Some p => Done p
  | None => OutOfBounds
  end.

(** Step d of both loops: the best model is replaced when the current count
    is greater than the best one. *)
Definition update (best : Plane * Z) (it : iteration) : Plane * Z :=
  match it with
  | Scored _ currentPlane currentInliers =>
      if currentInliers >? snd best then (currentPlane, currentInliers) else best
  | _ => best
  end.

(** [for (int iter = 0; iter < maxIterations; ++iter)] with [n] rounds left. *)
Fixpoint ransac_loop (n : nat) (round : M iteration) (best : Plane * Z) : M (Plane * Z) :=
  match n with
  | O => ret best
  | S n' => it <- round ;; ransac_loop n' round (update best it)
  end.

(** The rounds of the same loop, in order. *)
Fixpoint ransac_trace (n : nat) (round : M iteration) : M (list iteration) :=
  match n with
  | O => ret []
  | S n' => it <- round ;; its <- ransac_trace n' round ;; ret (it :: its)
  end.

(** [static_cast<size_t>(minInliers)] with a [size_t] of 64 bits. (With one
    of 32 bits the modulus is [2 ^ 32]; the size checks decide alike for a
    cloud of fewer than [2 ^ 31] points.) *)
Definition size_t_of_int (n : Z) : Z := n mod 2 ^ 64.

(** [Plane bestPlane = {0.0f, 0.0f, 0.0f, 0.0f}; int maxInliersFound = -1;] *)
Definition no_plane : Plane * Z := (mkPlane F32.zero F32.zero F32.zero F32.zero, -1).

(** ** findPlanesRansac (app/src/main/cpp/ransac.cpp) *)

Definition calculatePlane (p1 p2 p3 : Point3D) : Plane :=
  let v1 := mkPoint3D (p_x p2 - p_x p1)%f32 (p_y p2 - p_y p1)%f32 (p_z p2 - p_z p1)%f32 in
  let v2 := mkPoint3D (p_x p3 - p_x p1)%f32 (p_y p3 - p_y p1)%f32 (p_z p3 - p_z p1)%f32 in
  let a := (p_y v1 * p_z v2 - p_z v1 * p_y v2)%f32 in
  let b := (p_z v1 * p_x v2 - p_x v1 * p_z v2)%f32 in
  let c := (p_x v1 * p_y v2 - p_y v1 * p_x v2)%f32 in
  let length := F32.sqrt (a * a + b * b + c * c)%f32 in
  if F32.gt length (F32.epsilon * F32.of_int 100)%f32 then
    let a := (a / length)%f32 in
    let b := (b / length)%f32 in
    let c := (c / length)%f32 in
    let d := (- (a * p_x p1 + b * p_y p1 + c * p_z p1))%f32 in
    mkPlane a b c d
  else mkPlane F32.nan F32.nan F32.nan F32.nan.

Definition pointPlaneDistance (point : Point3D) (plane : Plane) : float :=
  F32.abs (pl_a plane * p_x point + pl_b plane * p_y point + pl_c plane * p_z point
           + pl_d plane)%f32.

Section EstimatorApp.
Variables (pointCloud : list Point3D) (distanceThreshold : float).
Variables (minInliers maxIterations : Z).

(** Step c, lines 180-185. *)
Definition count_inliers_app (currentPlane : Plane) : Z :=
  fold_left
    (fun currentInliers point =>
       if F32.lt (pointPlaneDistance point currentPlane) distanceThreshold
       then currentInliers + 1 else currentInliers)
    pointCloud 0.

(** Step a, lines 160-168: three draws; a collision ends the round. *)
Definition sample_app : M (option triple) :=
  idx1 <- draw ;;
  idx2 <- draw ;;
  idx3 <- draw ;;
  if (idx1 =? idx2)%nat || (idx1 =? idx3)%nat || (idx2 =? idx3)%nat then ret None
  else ret (Some (idx1, idx2, idx3)).

(** Steps b and c, lines 171-185, on the sampled indices. *)
Definition evaluate_app (t : triple) : outcome iteration :=
  let '(idx1, idx2, idx3) := t in
  p1 <~ at_index pointCloud idx1 ;;
  p2 <~ at_index pointCloud idx2 ;;
  p3 <~ at_index pointCloud idx3 ;;
  let currentPlane := calculatePlane p1 p2 p3 in
  if F32.is_nan (pl_a currentPlane) then Done (Degenerate t)
  else Done (Scored t currentPlane (count_inliers_app currentPlane)).

(** One round of the loop, up to the update of the best model. *)
Definition iteration_app : M iteration :=
  s <- sample_app ;;
  match s with
  | None => ret Collision
  | Some t => lift (evaluate_app t)
  end.

(** Lines 144-225: the size check, the loop and the packaging. *)
Definition estimate_app : M (list PlaneResult) :=
  let size := Z.of_nat (length pointCloud) in
  if (size <? size_t_of_int minInliers) || (size <? 3) then ret []
  else
    best <- ransac_loop (Z.to_nat maxIterations) iteration_app no_plane ;;
    let (bestPlane, maxInliersFound) := best in
    if maxInliersFound >=? minInliers then
      ret [mkPlaneResult (pl_a bestPlane) (pl_b bestPlane) (pl_c bestPlane)
                         (pl_d bestPlane) maxInliersFound]
    else ret [].
End EstimatorApp.

Definition findPlanesRansac (depthMap : list float) (width height : Z)
  (fx fy cx cy distanceThreshold : float) (minInliers maxIterations : Z)
  (draws : list nat) : outcome (list PlaneResult) :=
  _ <~ reserve (int_mul width height) ;;
  pointCloud <~ build_cloud_app depthMap width height fx fy cx cy ;;
  r <~ estimate_app pointCloud distanceThreshold minInliers maxIterations draws ;;
  Done (fst r).

(** ** detect_walls_ransac (android/app/src/main/cpp/ransac.cpp) *)

(** [while (clash idx) { idx = distrib(gen); }] *)
Fixpoint resample (clash : nat -> bool) (idx : nat) (ds : list nat) {struct ds}
  : outcome (nat * list nat) :=
  if clash idx then
    match ds with
    | [] => Starved
    | d :: ds' => resample clash d ds'
    end
  else Done (idx, ds).

(** [out_planes_buffer[0] = r], field by field in the source. *)
Definition write_first (out_planes_buffer : list RansacPlaneResult) (r : RansacPlaneResult)
  : outcome (list RansacPlaneResult) :=
  match out_planes_buffer with
  | [] => OutOfBounds
  | _ :: rest => Done (r :: rest)
  end.

Section EstimatorAndroid.
Variables (point_cloud : list Point3D) (distance_threshold : float).
Variables (min_inliers max_iterations : Z).

(** Step 2c, lines 133-144. *)
Definition count_inliers_android (A B C D : float) : Z :=
  fold_left
    (fun current_inlier_count pt =>
       let distance := F32.abs (A * p_x pt + B * p_y pt + C * p_z pt + D)%f32 in
       if F32.lt distance distance_threshold
       then current_inlier_count + 1 else current_inlier_count)
    point_cloud 0.

(** Step 2a, lines 94-99: three draws, then the second and the third index
    are drawn again as long as they repeat an earlier one. *)
Definition sample_android : M triple :=
  idx1 <- draw ;;
  idx2 <- draw ;;
  idx3 <- draw ;;
  idx2 <- resample (fun i => (i =? idx1)%nat) idx2 ;;
  idx3 <- resample (fun i => (i =? idx1)%nat || (i =? idx2)%nat) idx3 ;;
  ret (idx1, idx2, idx3).

(** Steps 2b and 2c, lines 101-144, on the sampled indices. *)
Definition evaluate_android (t : triple) : outcome iteration :=
  let '(idx1, idx2, idx3) := t in
  p1 <~ at_index point_cloud idx1 ;;
  p2 <~ at_index point_cloud idx2 ;;
  p3 <~ at_index point_cloud idx3 ;;
  let v1x := (p_x p2 - p_x p1)%f32 in
  let v1y := (p_y p2 - p_y p1)%f32 in
  let v1z := (p_z p2 - p_z p1)%f32 in
  let v2x := (p_x p3 - p_x p1)%f32 in
  let v2y := (p_y p3 - p_y p1)%f32 in
  let v2z := (p_z p3 - p_z p1)%f32 in
  let A := (v1y * v2z - v1z * v2y)%f32 in
  let B := (v1z * v2x - v1x * v2z)%f32 in
  let C := (v1x * v2y - v1y * v2x)%f32 in
  let magnitude := F32.sqrt (A * A + B * B + C * C)%f32 in
  if F32.lt magnitude F32.lit_1e_6 then Done (Degenerate t)
  else
    let A := (A / magnitude)%f32 in
    let B := (B / magnitude)%f32 in
    let C := (C / magnitude)%f32 in
    let D := (- (A * p_x p1 + B * p_y p1 + C * p_z p1))%f32 in
    Done (Scored t (mkPlane A B C D) (count_inliers_android A B C D)).

(** One round of the loop, up to the update of the best model. *)
Definition iteration_android : M iteration :=
  t <- sample_android ;; lift (evaluate_android t).

(** Lines 76-182: the size check, the loop and the write to the caller's
    buffer. The result is the returned [int] and the buffer after the call. *)
Definition estimate_android (out_planes_buffer : list RansacPlaneResult) (max_planes : Z)
  : M (Z * list RansacPlaneResult) :=
  let size := Z.of_nat (length point_cloud) in
  if (size <? 3) || (size <? size_t_of_int min_inliers) then ret (0, out_planes_buffer)
  else
    best <- ransac_loop (Z.to_nat max_iterations) iteration_android no_plane ;;
    let (best_plane, best_inlier_count) := best in
    if (best_inlier_count >=? min_inliers) && (max_planes >=? 1) then
      buffer <- lift (write_first out_planes_buffer
                        (mkRansacPlaneResult (pl_a best_plane) (pl_b best_plane)
                           (pl_c best_plane) (pl_d best_plane) best_inlier_count)) ;;
      ret (1, buffer)
    else ret (0, out_planes_buffer).
End EstimatorAndroid.

Definition detect_walls_ransac (depth_map_data : list float) (width height : Z)
  (fx fy cx cy distance_threshold : float) (min_inliers max_iterations : Z)
  (out_planes_buffer : list RansacPlaneResult) (max_planes : Z)
  (draws : list nat) : outcome (Z * list RansacPlaneResult) :=
  _ <~ reserve (int_mul width height) ;;
  point_cloud <~ build_cloud_android depth_map_data width height fx fy cx cy ;;
  r <~ estimate_android point_cloud distance_threshold min_inliers max_iterations
         out_planes_buffer max_planes draws ;;
  Done (fst r).

(** * Definitions used in the statements *)

(** ** The grid in row-major order *)

(** [i, i + 1, ..., i + n - 1]. *)
Fixpoint zseq (i : Z) (n : nat) : list Z :=
  match n with
  | O => []
  | S n' => i :: zseq (i + 1) n'
  end.

(** The values of a loop counter [for (int i = 0; i < hi; ++i)]. *)
Definition zrange (hi : Z) : list Z := zseq 0 (Z.to_nat hi).

(** The cells (row [v], column [u]) of a grid, row after row. *)
Definition grid_cells (width height : Z) : list (Z * Z) :=
  flat_map (fun v => map (fun u => (v, u)) (zrange width)) (zrange height).

(** The inverse depth stored for a cell. *)
Definition cell_value (grid : list float) (width : Z) (vu : Z * Z) : float :=
  nth (Z.to_nat (fst vu * width + snd vu)) grid F32.zero.

(** The buffer holds a value for every cell of the grid. *)
Definition covers (grid : list float) (width height : Z) : Prop :=
  0 < width -> 0 < height -> width * height <= Z.of_nat (length grid).

(** ** The point clouds, cell by cell *)

(** The cells for which findPlanesRansac reaches [push_back] (neither
    [continue] of lines 126-133 is taken). *)
Definition kept_app (grid : list float) (width : Z) (vu : Z * Z) : bool :=
  let inverseDepth := cell_value grid width vu in
  negb (F32.lt inverseDepth F32.lit_1e_5)
  && negb (F32.gt (F32.one / inverseDepth)%f32 F32.lit_1000).

(** The cells for which detect_walls_ransac enters the [if] of line 51. *)
Definition kept_android (grid : list float) (width : Z) (vu : Z * Z) : bool :=
  F32.gt (cell_value grid width vu) F32.lit_0_01.

(** The point pushed by findPlanesRansac for a cell. *)
Definition point_app (grid : list float) (width : Z) (fx fy cx cy : float) (vu : Z * Z)
  : Point3D :=
  let z := (F32.one / cell_value grid width vu)%f32 in
  mkPoint3D ((F32.of_int (snd vu) - cx) * z / fx)%f32
            ((F32.of_int (fst vu) - cy) * z / fy)%f32 z.

(** The point pushed by detect_walls_ransac for a cell. *)
Definition point_android (grid : list float) (width : Z) (fx fy cx cy : float) (vu : Z * Z)
  : Point3D :=
  let Z := (F32.one / cell_value grid width vu)%f32 in
  mkPoint3D ((F32.of_int (snd vu) - cx) * Z / fx)%f32
            (- ((F32.of_int (fst vu) - cy) * Z / fy))%f32 Z.

(** ** The loop and its rounds *)

(** If the round is a scored one, its count is below the bound, strictly or
    not. *)
Definition below (bound : Z) (strict : bool) (it : iteration) : Prop :=
  match it with
  | Scored _ _ n => if strict then n < bound else n <= bound
  | _ => True
  end.

(** ** Sampling *)

(** The three indices of a sample differ from one another. *)
Definition distinct (t : triple) : Prop :=
  let '(i1, i2, i3) := t in i1 <> i2 /\ i1 <> i3 /\ i2 <> i3.

(** The sample a round has evaluated, if it has evaluated one. *)
Definition round_triple (it : iteration) : option triple :=
  match it with
  | Collision => None
  | Degenerate t | Scored t _ _ => Some t
  end.

(** The round has evaluated a sample of three different indices. *)
Definition evaluates_distinct (it : iteration) : Prop :=
  exists t, round_triple it = Some t /\ distinct t.

(** ** Dependence on the draws *)

(** A computation that returns on some draws returns the same value on any
    longer stream, and leaves the extension untouched. *)
Definition stable {A : Type} (c : M A) : Prop :=
  forall ds a rest ex, c ds = Done (a, rest) -> c (ds ++ ex) = Done (a, rest ++ ex).

(** ** Enough draws *)

(** The draws of detect_walls_ransac when no index repeats inside a sample. *)
Fixpoint draws_of (ts : list triple) : list nat :=
  match ts with
  | [] => []
  | (i1, i2, i3) :: ts' => i1 :: i2 :: i3 :: draws_of ts'
  end.

(** ** Sample data *)

Definition f32_half : float := S754_finite false 8388608 (-24).
Definition f32_quarter : float := S754_finite false 8388608 (-25).

(** The threshold [0.05f]. *)
Definition f32_0_05 : float := S754_finite false 13421773 (-28).

(** The focal length [2 ^ -70]. *)
Definition f32_tiny : float := S754_finite false 8388608 (-93).

(** A 2 x 2 grid of constant inverse depth, and one whose four points do not
    lie in a plane. *)
Definition flat_grid : list float := [f32_half; f32_half; f32_half; f32_half].
Definition bumpy_grid : list float := [F32.one; f32_half; f32_quarter; f32_half].

(** The cloud of [flat_grid] seen with fx = fy = 4 and cx = cy = 2 by
    findPlanesRansac: four points of the plane z = 2. *)
Definition flat_cloud : list Point3D :=
  [mkPoint3D (- F32.one)%f32 (- F32.one)%f32 (F32.of_int 2);
   mkPoint3D (- f32_half)%f32 (- F32.one)%f32 (F32.of_int 2);
   mkPoint3D (- F32.one)%f32 (- f32_half)%f32 (F32.of_int 2);
   mkPoint3D (- f32_half)%f32 (- f32_half)%f32 (F32.of_int 2)].

(** The cloud of [flat_grid] seen with fx = fy = 4 and cx = cy = 2 by
    detect_walls_ransac. *)
Definition flat_cloud_android : list Point3D :=
  [mkPoint3D (- F32.one)%f32 F32.one (F32.of_int 2);
   mkPoint3D (- f32_half)%f32 F32.one (F32.of_int 2);
   mkPoint3D (- F32.one)%f32 f32_half (F32.of_int 2);
   mkPoint3D (- f32_half)%f32 f32_half (F32.of_int 2)].

(** A 3 x 1 grid of inverse depths 1, 1/2, 1/4 seen with fx = 2 ^ -70,
    fy = 1, cx = 0 and cy = 1: the points are (0, y, 1), (2 ^ 71, 2 y, 2) and
    (2 ^ 73, 4 y, 4) with y = 1 or -1. *)
Definition steep_grid : list float := [F32.one; f32_half; f32_quarter].

(** A caller's buffer of two results. *)
Definition old_result (n : Z) : RansacPlaneResult :=
  mkRansacPlaneResult F32.zero F32.zero F32.zero F32.zero n.
Definition two_slots : list RansacPlaneResult := [old_result 7; old_result 8].

(** ** The back-projection (claim C1) *)


(** ** Keeping the best model (claim C9) *)

(** The count of a scored round is not negative. *)
Definition nonneg_count (it : iteration) : Prop :=
  match it with
  | Scored _ _ n => 0 <= n
  | _ => True
  end.

(** The round is not a scored one. *)
Definition unscored (it : iteration) : Prop :=
  match it with
  | Scored _ _ _ => False
  | _ => True
  end.

(** ** The decision on the result (claims C6 and C10) *)

(** The size check of lines 144 and 76. *)
Definition too_few (cloud : list Point3D) (minInliers : Z) : Prop :=
  Z.of_nat (length cloud) < 3 \/ Z.of_nat (length cloud) < size_t_of_int minInliers.

(** The record built from the retained model, lines 204 and 167-171. *)
Definition plane_result (best : Plane * Z) : PlaneResult :=
  mkPlaneResult (pl_a (fst best)) (pl_b (fst best)) (pl_c (fst best)) (pl_d (fst best))
                (snd best).

Definition ransac_plane_result (best : Plane * Z) : RansacPlaneResult :=
  mkRansacPlaneResult (pl_a (fst best)) (pl_b (fst best)) (pl_c (fst best))
                      (pl_d (fst best)) (snd best).

(** ** Degenerate samples and thresholds *)

(** A zero of either sign, or NaN. *)
Definition zero_or_nan (x : float) : Prop :=
  match x with
  | S754_zero _ | S754_nan => True
  | _ => False
  end.

(** A value above which no number lies strictly below: a zero, a negative
    number, minus infinity, or NaN. *)
Definition not_positive (x : float) : Prop :=
  match x with
  | S754_zero _ | S754_nan | S754_infinity true | S754_finite true _ _ => True
  | _ => False
  end.

(** The value [{NAN, NAN, NAN, NAN}] by which calculatePlane reports that
    the points define no plane. *)
Definition nan_plane : Plane := mkPlane F32.nan F32.nan F32.nan F32.nan.

(** Two points at the same place, and a third one. *)
Definition twin_cloud : list Point3D :=
  [mkPoint3D F32.one F32.one F32.one;
   mkPoint3D F32.one F32.one F32.one;
   mkPoint3D F32.zero F32.one (F32.of_int 2)].

(** ** Rounds and what they score *)

(** What a scored round of findPlanesRansac or detect_walls_ransac on a
    cloud is: the evaluation of a sample of three different indices of the
    cloud, with a count between 0 and the size of the cloud. *)
Definition sound_round (evaluate : triple -> outcome iteration) (cloud : list Point3D)
  (it : iteration) : Prop :=
  match it with
  | Scored t pl n =>
      evaluate t = Done (Scored t pl n) /\ distinct t
      /\ 0 <= n <= Z.of_nat (length cloud)
  | _ => True
  end.

(** The values of a C++ [int]. *)
Definition is_int (n : Z) : Prop := - 2 ^ 31 <= n < 2 ^ 31.

(** ** The JNI bridge (app/src/main/cpp/jni_bridge.cpp) *)

(** The answers of the Java virtual machine to the calls of the bridge
    that can fail: [FindClass("[F")], [NewObjectArray] and the i-th call of
    [NewFloatArray(5)] return an object ([true]) or null ([false]). *)
Record JNIEnv : Type := mkJNIEnv {
  FindClass : bool;
  NewObjectArray : bool;
  NewFloatArray : nat -> bool
}.

(** A Java [float[]], and a Java array of [float[]] whose elements may be
    null. *)
Definition jfloatArray : Type := list float.
Definition jobjectArray : Type := list (option jfloatArray).

(** [SetObjectArrayElement(array, i, x)]; an index outside the array leaves
    it as it is (and raises a Java exception, which the bridge cannot
    reach). *)
Fixpoint SetObjectArrayElement (array : jobjectArray) (i : nat) (x : jfloatArray)
  : jobjectArray :=
  match array, i with
  | [], _ => []
  | _ :: rest, O => Some x :: rest
  | y :: rest, S i' => y :: SetObjectArrayElement rest i' x
  end.

(** Lines 157-193: the loop over [detectedPlanes], at index [i] with the
    planes from [i] on still to copy; a failed [NewFloatArray] returns
    [nullptr]. *)
Fixpoint fill_result (env : JNIEnv) (detectedPlanes : list PlaneResult) (i : nat)
  (resultArray : jobjectArray) : option jobjectArray :=
  match detectedPlanes with
  | [] => Some resultArray
  | plane :: more =>
      if NewFloatArray env i then
        let planeData :=
          [res_A plane; res_B plane; res_C plane; res_D plane;
           F32.of_int (numInliers plane)] in
        fill_result env more (S i) (SetObjectArrayElement resultArray i planeData)
      else None
  end.

(** Lines 107-197. [depthMap] is what [GetDirectBufferAddress] gives: the
    cells of the buffer, or nothing for null. The result is the returned
    array, or nothing for [nullptr]. *)
Definition Java_com_example_depthperceptionapp_ndk_NdkBridge_detectWallsRansac
  (env : JNIEnv) (depthMap : option (list float)) (width height : Z)
  (fx fy cx cy distanceThreshold : float) (minInliers maxIterations : Z)
  (draws : list nat) : outcome (option jobjectArray) :=
  match depthMap with
  | None => Done None
  | Some depthMapData =>
      detectedPlanes <~ findPlanesRansac depthMapData width height fx fy cx cy
                          distanceThreshold minInliers maxIterations draws ;;
      match detectedPlanes with
      | [] => Done None
      | _ :: _ =>
          if negb (FindClass env) then Done None
          else if negb (NewObjectArray env) then Done None
          else Done (fill_result env detectedPlanes 0
                       (repeat None (length detectedPlanes)))
      end
  end.

(** The float stands for the integer [n]. *)
Definition float_is_int (x : float) (n : Z) : Prop :=
  match x with
  | S754_zero _ => n = 0
  | S754_finite s m e =>
      if e <=? 0 then cond_Zopp s (Zpos m) = n * 2 ^ (- e)
      else cond_Zopp s (Zpos m) * 2 ^ e = n
  | _ => False
  end.

(** ** Accesses inside the buffers *)

(** On draws below [len] the computation returns a value that satisfies [Q],
    leaving draws below [len], or runs out of draws: it does not leave a
    buffer and does not throw. *)
Definition tame {A : Type} (len : nat) (Q : A -> Prop) (c : M A) : Prop :=
  forall ds,
    Forall (fun d => (d < len)%nat) ds ->
    (exists a rest, c ds = Done (a, rest) /\ Q a /\ Forall (fun d => (d < len)%nat) rest)
    \/ c ds = Starved.

(** The three indices lie inside a cloud of [len] points. *)
Definition inside (len : nat) (t : triple) : Prop :=
  let '(i1, i2, i3) := t in (i1 < len)%nat /\ (i2 < len)%nat /\ (i3 < len)%nat.

(** ** Scoring (claim C8) *)

(** The points of the cloud at a distance |A x + B y + C z + D| from the
    plane that is less than the threshold. *)
Definition strict_inliers (cloud : list Point3D) (thr : float) (pl : Plane)
  : list Point3D :=
  filter (fun p => F32.lt (F32.abs (pl_a pl * p_x p + pl_b pl * p_y p + pl_c pl * p_z p
                                    + pl_d pl)%f32) thr) cloud.

(** The normal [p2 - p1] x [p3 - p1] of detect_walls_ransac before it is
    normalized (lines 107-118), and its length (line 121). *)
Definition normal_android (p1 p2 p3 : Point3D) : float * float * float :=
  let v1x := (p_x p2 - p_x p1)%f32 in
  let v1y := (p_y p2 - p_y p1)%f32 in
  let v1z := (p_z p2 - p_z p1)%f32 in
  let v2x := (p_x p3 - p_x p1)%f32 in
  let v2y := (p_y p3 - p_y p1)%f32 in
  let v2z := (p_z p3 - p_z p1)%f32 in
  ((v1y * v2z - v1z * v2y)%f32, (v1z * v2x - v1x * v2z)%f32, (v1x * v2y - v1y * v2x)%f32).

Definition magnitude_android (p1 p2 p3 : Point3D) : float :=
  let '(A, B, C) := normal_android p1 p2 p3 in
  F32.sqrt (A * A + B * B + C * C)%f32.

(** The plane of detect_walls_ransac through three points (lines 125-130). *)
Definition plane_android (p1 p2 p3 : Point3D) : Plane :=
  let '(A, B, C) := normal_android p1 p2 p3 in
  let magnitude := magnitude_android p1 p2 p3 in
  let A := (A / magnitude)%f32 in
  let B := (B / magnitude)%f32 in
  let C := (C / magnitude)%f32 in
  mkPlane A B C (- (A * p_x p1 + B * p_y p1 + C * p_z p1))%f32.

(** * Properties *)

(** ** Lemmas on loops *)

Lemma in_zseq (n : nat) : forall i j, In j (zseq i n) <-> i <= j < i + Z.of_nat n.
Proof.
  induction n as [|n IH]; intros i j; simpl zseq.
  - simpl. lia.
  - simpl In. rewrite IH. lia.
Qed.

Lemma in_zrange (hi j : Z) : In j (zrange hi) <-> 0 <= j < hi.
Proof. unfold zrange. rewrite in_zseq. lia. Qed.

Lemma in_grid_cells (width height v u : Z) :
  In (v, u) (grid_cells width height) <-> 0 <= v < height /\ 0 <= u < width.
Proof.
  unfold grid_cells. rewrite in_flat_map. split.
  - intros [v' [Hv Hin]]. apply in_map_iff in Hin as [u' [E Hu]].
    inversion E; subst. apply in_zrange in Hv, Hu. tauto.
  - intros [Hv Hu]. exists v. split; [now apply in_zrange|].
    apply in_map_iff. exists u. split; [reflexivity | now apply in_zrange].
Qed.

(** A loop whose every round appends [g i] to the state appends them all. *)
Lemma for_loop_collect {P : Type} (g : Z -> list P) (body : Z -> list P -> outcome (list P)) :
  forall (n : nat) (i : Z) (s : list P),
    (forall j s', i <= j < i + Z.of_nat n -> body j s' = Done (s' ++ g j)) ->
    for_loop n i body s = Done (s ++ flat_map g (zseq i n)).
Proof.
  induction n as [|n IH]; intros i s Hbody; simpl.
  - now rewrite app_nil_r.
  - rewrite Hbody by lia. simpl. rewrite IH.
    + now rewrite <- app_assoc.
    + intros j s' Hj. apply Hbody. lia.
Qed.

Lemma flat_map_keep {P Q : Type} (keep : P -> bool) (f : P -> Q) (l : list P) :
  flat_map (fun x => if keep x then [f x] else []) l = map f (filter keep l).
Proof.
  induction l as [|x l IH]; simpl; [reflexivity|].
  destruct (keep x); simpl; now rewrite IH.
Qed.

Lemma flat_map_ext_in {P Q : Type} (f g : P -> list Q) (l : list P) :
  (forall x, In x l -> f x = g x) -> flat_map f l = flat_map g l.
Proof.
  induction l as [|x l IH]; intros H; simpl; [reflexivity|].
  rewrite H by now left. rewrite IH; [reflexivity|]. intros y Hy. apply H. now right.
Qed.

Lemma flat_map_map {P Q R : Type} (f : P -> Q) (g : Q -> list R) (l : list P) :
  flat_map g (map f l) = flat_map (fun x => g (f x)) l.
Proof. induction l as [|x l IH]; simpl; [reflexivity | now rewrite IH]. Qed.

Lemma flat_map_nested {P Q R : Type} (f : P -> list Q) (g : Q -> list R) (l : list P) :
  flat_map g (flat_map f l) = flat_map (fun x => flat_map g (f x)) l.
Proof.
  induction l as [|x l IH]; simpl; [reflexivity|].
  now rewrite flat_map_app, IH.
Qed.

Lemma read_cell (grid : list float) (width height v u : Z) :
  covers grid width height -> 0 <= v < height -> 0 <= u < width ->
  read grid (v * width + u) = Done (cell_value grid width (v, u)).
Proof.
  intros Hc Hv Hu. unfold read, cell_value. simpl fst; simpl snd.
  assert (Hlen : v * width + u < Z.of_nat (length grid)).
  { specialize (Hc ltac:(lia) ltac:(lia)).
    assert (v * width <= (height - 1) * width) by (apply Z.mul_le_mono_nonneg_r; lia).
    lia. }
  assert (0 <= v * width) by (apply Z.mul_nonneg_nonneg; lia).
  destruct (Z.ltb_spec (v * width + u) 0) as [Hneg|_]; [lia|].
  destruct (nth_error grid (Z.to_nat (v * width + u))) as [x|] eqn:E.
  - now rewrite (nth_error_nth _ _ _ E).
  - apply nth_error_None in E. lia.
Qed.

(** The two nested loops of a builder, given what one cell contributes. *)
Lemma build_rows {P : Type} (cell : Z -> Z -> list P -> outcome (list P))
  (g : Z * Z -> list P) (width height : Z) :
  (forall v u s, 0 <= v < height -> 0 <= u < width -> cell v u s = Done (s ++ g (v, u))) ->
  for_int height (fun v => for_int width (cell v)) [] =
  Done (flat_map g (grid_cells width height)).
Proof.
  intros Hcell. unfold for_int.
  rewrite (for_loop_collect (fun v => flat_map g (map (fun u => (v, u)) (zrange width)))).
  - unfold grid_cells. now rewrite flat_map_nested.
  - intros v s Hv. unfold zrange.
    rewrite (for_loop_collect (fun u => g (v, u))).
    + now rewrite flat_map_map.
    + intros u s' Hu. apply Hcell; lia.
Qed.

(** ** The point clouds, cell by cell *)

Lemma build_cloud_app_eq (grid : list float) (width height : Z) (fx fy cx cy : float) :
  covers grid width height ->
  build_cloud_app grid width height fx fy cx cy =
  Done (map (point_app grid width fx fy cx cy)
            (filter (kept_app grid width) (grid_cells width height))).
Proof.
  intros Hc. unfold build_cloud_app. rewrite <- flat_map_keep.
  apply build_rows. intros v u s Hv Hu.
  unfold cloud_cell_app. rewrite (read_cell Hc Hv Hu). simpl obind.
  unfold kept_app, point_app. simpl fst; simpl snd.
  destruct (F32.lt (cell_value grid width (v, u)) F32.lit_1e_5); simpl.
  - now rewrite app_nil_r.
  - destruct (F32.gt _ F32.lit_1000); simpl; [now rewrite app_nil_r | reflexivity].
Qed.

Lemma build_cloud_android_eq (grid : list float) (width height : Z) (fx fy cx cy : float) :
  covers grid width height ->
  build_cloud_android grid width height fx fy cx cy =
  Done (map (point_android grid width fx fy cx cy)
            (filter (kept_android grid width) (grid_cells width height))).
Proof.
  intros Hc. unfold build_cloud_android. rewrite <- flat_map_keep.
  apply build_rows. intros v u s Hv Hu.
  unfold cloud_cell_android. rewrite (read_cell Hc Hv Hu). simpl obind.
  unfold kept_android, point_android. simpl fst; simpl snd.
  destruct (F32.gt (cell_value grid width (v, u)) F32.lit_0_01); simpl;
    [reflexivity | now rewrite app_nil_r].
Qed.


(** ** Comparisons with the literals *)

Lemma digits2_pos_bound (m : positive) : Zpos m < 2 ^ Zpos (digits2_pos m).
Proof.
  induction m as [m IH|m IH|]; simpl digits2_pos.
  - rewrite Pos2Z.inj_succ, Z.pow_succ_r by lia. lia.
  - rewrite Pos2Z.inj_succ, Z.pow_succ_r by lia. lia.
  - reflexivity.
Qed.

(** The mantissa of a binary32 number has at most 24 bits. *)
Lemma valid_mantissa (s : bool) (m : positive) (e : Z) :
  valid_binary F32.prec F32.emax (S754_finite s m e) = true -> Zpos m < 2 ^ 24.
Proof.
  unfold valid_binary, bounded, canonical_mantissa, fexp, emin, F32.prec, F32.emax.
  intros H. apply andb_prop in H as [H _]. apply Z.eqb_eq in H.
  assert (Hd : Zpos (digits2_pos m) <= 24) by lia.
  eapply Z.lt_le_trans; [apply digits2_pos_bound|].
  apply Z.pow_le_mono_r; lia.
Qed.






(** ** The comparison on binary32 numbers *)

Lemma digits2_pos_lower (m : positive) : 2 ^ (Zpos (digits2_pos m) - 1) <= Zpos m.
Proof.
  induction m as [m IH|m IH|]; simpl digits2_pos.
  - rewrite Pos2Z.inj_succ. replace (Z.succ (Zpos (digits2_pos m)) - 1)
      with (Z.succ (Zpos (digits2_pos m) - 1)) by lia.
    rewrite Z.pow_succ_r by lia. lia.
  - rewrite Pos2Z.inj_succ. replace (Z.succ (Zpos (digits2_pos m)) - 1)
      with (Z.succ (Zpos (digits2_pos m) - 1)) by lia.
    rewrite Z.pow_succ_r by lia. lia.
  - simpl. lia.
Qed.

(** The exponent of a binary32 number is at least -149, and its mantissa has
    24 bits unless the exponent is -149. *)
Lemma valid_exponent (s : bool) (m : positive) (e : Z) :
  valid_binary F32.prec F32.emax (S754_finite s m e) = true ->
  -149 <= e /\ (-149 < e -> 2 ^ 23 <= Zpos m).
Proof.
  unfold valid_binary, bounded, canonical_mantissa, fexp, emin, F32.prec, F32.emax.
  intros H. apply andb_prop in H as [H _]. apply Z.eqb_eq in H.
  split; [lia|]. intros He.
  assert (Hd : Zpos (digits2_pos m) = 24) by lia.
  pose proof (digits2_pos_lower m) as Hl. rewrite Hd in Hl. exact Hl.
Qed.

Lemma scaled_lt (m1 m2 e1 e2 : Z) :
  0 < m1 < 2 ^ 24 -> 2 ^ 23 <= m2 -> e1 < e2 ->
  m1 * 2 ^ (e1 - Z.min e1 e2) < m2 * 2 ^ (e2 - Z.min e1 e2).
Proof.
  intros H1 H2 He. rewrite Z.min_l by lia. rewrite Z.sub_diag, Z.pow_0_r, Z.mul_1_r.
  replace (e2 - e1) with (Z.succ (e2 - e1 - 1)) by lia. rewrite Z.pow_succ_r by lia.
  assert (0 < 2 ^ (e2 - e1 - 1)) by (apply Z.pow_pos_nonneg; lia).
  assert (H24 : 2 ^ 24 = 2 * 2 ^ 23) by reflexivity.
  assert (H23 : 0 < 2 ^ 23) by reflexivity.
  assert (m2 * 1 <= m2 * 2 ^ (e2 - e1 - 1)) by (apply Z.mul_le_mono_nonneg_l; lia).
  lia.
Qed.

(** On binary32 numbers [F32.compare] is the comparison of [SpecFloat]. *)
Lemma compare_agrees (x y : float) :
  valid_binary F32.prec F32.emax x = true ->
  valid_binary F32.prec F32.emax y = true ->
  F32.compare x y = SFcompare x y.
Proof.
  destruct x as [sx|sx| |sx mx ex], y as [sy|sy| |sy my ey]; try reflexivity.
  intros Hx Hy.
  pose proof (valid_mantissa _ _ _ Hx) as Bx. pose proof (valid_mantissa _ _ _ Hy) as By.
  destruct (valid_exponent _ _ _ Hx) as [Ex Nx].
  destruct (valid_exponent _ _ _ Hy) as [Ey Ny].
  unfold F32.compare, SFcompare. f_equal.
  change (Pos.compare_cont Eq mx my) with (Zpos mx ?= Zpos my).
  assert (Px : 0 < 2 ^ (ex - Z.min ex ey)) by (apply Z.pow_pos_nonneg; lia).
  assert (Py : 0 < 2 ^ (ey - Z.min ex ey)) by (apply Z.pow_pos_nonneg; lia).
  assert (Qx : 0 < Zpos mx * 2 ^ (ex - Z.min ex ey)) by (apply Z.mul_pos_pos; lia).
  assert (Qy : 0 < Zpos my * 2 ^ (ey - Z.min ex ey)) by (apply Z.mul_pos_pos; lia).
  assert (Hlt : ex < ey ->
                Zpos mx * 2 ^ (ex - Z.min ex ey) < Zpos my * 2 ^ (ey - Z.min ex ey)).
  { intros He. apply scaled_lt; [lia | apply Ny; lia | lia]. }
  assert (Hgt : ey < ex ->
                Zpos my * 2 ^ (ey - Z.min ex ey) < Zpos mx * 2 ^ (ex - Z.min ex ey)).
  { intros He. rewrite (Z.min_comm ex ey). apply scaled_lt; [lia | apply Nx; lia | lia]. }
  assert (Heq : ex = ey ->
                Zpos mx * 2 ^ (ex - Z.min ex ey) = Zpos mx
                /\ Zpos my * 2 ^ (ey - Z.min ex ey) = Zpos my).
  { intros ->. rewrite Z.min_id, Z.sub_diag, Z.pow_0_r. lia. }
  destruct sx, sy; unfold cond_Zopp; rewrite ?Z.mul_opp_l.
  - rewrite Z.compare_opp. destruct (Z.compare_spec ex ey) as [He|He|He].
    + destruct (Heq He) as [-> ->]. apply Z.compare_antisym.
    + apply Z.compare_gt_iff. auto.
    + apply Z.compare_lt_iff. auto.
  - apply Z.compare_lt_iff. lia.
  - apply Z.compare_gt_iff. lia.
  - destruct (Z.compare_spec ex ey) as [He|He|He].
    + now destruct (Heq He) as [-> ->].
    + apply Z.compare_lt_iff. auto.
    + apply Z.compare_gt_iff. auto.
Qed.

(** The constants are the numbers they stand for: the literals are the
    correctly rounded quotients 1 / 10 ^ 5 and 1 / 10 ^ 6 in binary64 and
    1 / 100 in binary32. *)
Lemma literals_check :
  F32.lit_1e_5 = SFdiv 53 1024 (binary_normalize 53 1024 1 0 false)
                   (binary_normalize 53 1024 100000 0 false)
  /\ F32.lit_1e_6 = SFdiv 53 1024 (binary_normalize 53 1024 1 0 false)
                      (binary_normalize 53 1024 1000000 0 false)
  /\ F32.lit_0_01 = (F32.of_int 1 / F32.of_int 100)%f32
  /\ F32.lit_1000 = F32.of_int 1000
  /\ F32.one = F32.of_int 1
  /\ (F32.one + F32.epsilon)%f32 = S754_finite false 8388609 (-23)
  /\ (F32.epsilon * F32.of_int 100)%f32 = S754_finite false 13107200 (-40).
Proof. vm_compute. repeat split. Qed.

(** ** The loop and its rounds *)

(** The loop folds [update] over the rounds of its trace. *)
Lemma ransac_loop_trace (round : M iteration) :
  forall (n : nat) (best : Plane * Z) (ds : list nat),
    ransac_loop n round best ds =
    (r <~ ransac_trace n round ds ;; Done (fold_left update (fst r) best, snd r)).
Proof.
  induction n as [|n IH]; intros best ds; simpl; [reflexivity|].
  unfold bind, ret, obind. destruct (round ds) as [[it ds1]| | |]; simpl; try reflexivity.
  rewrite IH. unfold obind.
  destruct (ransac_trace n round ds1) as [[its ds2]| | |]; reflexivity.
Qed.

Lemma ransac_trace_length (round : M iteration) :
  forall (n : nat) (ds ds' : list nat) (its : list iteration),
    ransac_trace n round ds = Done (its, ds') -> length its = n.
Proof.
  induction n as [|n IH]; intros ds ds' its; simpl.
  - unfold ret. intros [= <- _]. reflexivity.
  - unfold bind, ret. destruct (round ds) as [[it ds1]| | |]; simpl; try discriminate.
    destruct (ransac_trace n round ds1) as [[its1 ds2]| | |] eqn:E; simpl; try discriminate.
    intros [= <- _]. simpl. f_equal. eapply IH, E.
Qed.

(** A property of every round that returns holds of the whole trace. *)
Lemma ransac_trace_Forall (round : M iteration) (P : iteration -> Prop) :
  (forall ds it ds', round ds = Done (it, ds') -> P it) ->
  forall (n : nat) (ds ds' : list nat) (its : list iteration),
    ransac_trace n round ds = Done (its, ds') -> Forall P its.
Proof.
  intros HP. induction n as [|n IH]; intros ds ds' its; simpl.
  - unfold ret. intros [= <- _]. constructor.
  - unfold bind, ret. destruct (round ds) as [[it ds1]| | |] eqn:E1; simpl; try discriminate.
    destruct (ransac_trace n round ds1) as [[its1 ds2]| | |] eqn:E; simpl; try discriminate.
    intros [= <- _]. constructor; [eapply HP, E1 | eapply IH, E].
Qed.

(** The model kept by a fold of [update] is the first round of the largest
    count, when a round beats the initial count at all. *)
Lemma fold_update_first_max :
  forall (its : list iteration) (best : Plane * Z),
    (fold_left update its best = best /\ Forall (below (snd best) false) its)
    \/ (exists pre t post,
          its = pre ++ Scored t (fst (fold_left update its best))
                                (snd (fold_left update its best)) :: post
          /\ snd best < snd (fold_left update its best)
          /\ Forall (below (snd (fold_left update its best)) true) pre
          /\ Forall (below (snd (fold_left update its best)) false) post).
Proof.
  induction its as [|it its IH]; intros best; simpl fold_left.
  - left. split; [reflexivity | constructor].
  - assert (Hkeep : update best it = best -> below (snd best) false it ->
      (fold_left update its best = best /\ Forall (below (snd best) false) (it :: its))
      \/ (exists pre t post,
            it :: its = pre ++ Scored t (fst (fold_left update its best))
                                        (snd (fold_left update its best)) :: post
            /\ snd best < snd (fold_left update its best)
            /\ Forall (below (snd (fold_left update its best)) true) pre
            /\ Forall (below (snd (fold_left update its best)) false) post)).
    { intros _ Hit. destruct (IH best) as [[E F]|(pre & t & post & E & Hlt & Fpre & Fpost)].
      - left. split; [exact E | now constructor].
      - right. exists (it :: pre), t, post. repeat split; try assumption.
        + simpl. now f_equal.
        + constructor; [|assumption].
          destruct it as [| |t' pl' n']; simpl in *; trivial. lia. }
    destruct it as [|t0|t0 pl n].
    + simpl update. apply Hkeep; simpl; trivial.
    + simpl update. apply Hkeep; simpl; trivial.
    + simpl update. destruct (Z.gtb_spec n (snd best)) as [Hgt|Hle].
      * right. destruct (IH (pl, n)) as [[E F]|(pre & t & post & E & Hlt & Fpre & Fpost)].
        -- exists [], t0, its. rewrite E. simpl. repeat split; trivial.
        -- exists (Scored t0 pl n :: pre), t, post. simpl in Hlt. repeat split; try assumption.
           ++ simpl. now f_equal.
           ++ lia.
           ++ constructor; [simpl; lia | assumption].
      * apply Hkeep; [| simpl; lia].
        simpl. destruct (Z.gtb_spec n (snd best)); [lia | reflexivity].
Qed.

(** The counting loops count the points that pass the test. *)
Lemma fold_count {P : Type} (test : P -> bool) (l : list P) :
  forall n0 : Z,
    fold_left (fun n p => if test p then n + 1 else n) l n0 =
    n0 + Z.of_nat (length (filter test l)).
Proof.
  induction l as [|p l IH]; intros n0; simpl; [lia|].
  rewrite IH. destruct (test p); simpl length; lia.
Qed.

(** ** Sampling *)

Lemma resample_spec (clash : nat -> bool) :
  forall (ds : list nat) (idx i : nat) (rest : list nat),
    resample clash idx ds = Done (i, rest) ->
    clash i = false
    /\ exists skipped, idx :: ds = skipped ++ i :: rest
                       /\ Forall (fun d => clash d = true) skipped.
Proof.
  induction ds as [|d ds IH]; intros idx i rest; simpl;
    destruct (clash idx) eqn:E; try discriminate.
  - intros [= <- <-]. split; [assumption|]. exists []. split; [reflexivity | constructor].
  - intros H. destruct (IH _ _ _ H) as [Hi (sk & Hsk & F)].
    split; [assumption|]. exists (idx :: sk). split.
    + simpl. now rewrite Hsk.
    + now constructor.
  - intros [= <- <-]. split; [assumption|]. exists []. split; [reflexivity | constructor].
Qed.

(** The retry loop ends as soon as the stream holds an index that does not
    clash. *)
Lemma resample_total (clash : nat -> bool) :
  forall (ds : list nat) (idx : nat),
    Exists (fun d => clash d = false) (idx :: ds) ->
    exists i rest, resample clash idx ds = Done (i, rest).
Proof.
  induction ds as [|d ds IH]; intros idx H; simpl; destruct (clash idx) eqn:E.
  - inversion H as [? ? H1|? ? H1]; subst; [congruence | inversion H1].
  - eauto.
  - apply IH. inversion H as [? ? H1|? ? H1]; subst; [congruence | assumption].
  - eauto.
Qed.

Lemma sample_app_eq (d1 d2 d3 : nat) (ds : list nat) :
  sample_app (d1 :: d2 :: d3 :: ds) =
  Done (if (d1 =? d2)%nat || (d1 =? d3)%nat || (d2 =? d3)%nat then None
        else Some (d1, d2, d3), ds).
Proof.
  unfold sample_app, bind, draw, obind; simpl.
  destruct ((d1 =? d2)%nat || (d1 =? d3)%nat || (d2 =? d3)%nat); reflexivity.
Qed.

Lemma sample_app_inv (ds rest : list nat) (s : option triple) :
  sample_app ds = Done (s, rest) ->
  exists d1 d2 d3, ds = d1 :: d2 :: d3 :: rest
    /\ s = if (d1 =? d2)%nat || (d1 =? d3)%nat || (d2 =? d3)%nat then None
           else Some (d1, d2, d3).
Proof.
  destruct ds as [|d1 [|d2 [|d3 ds]]]; try discriminate.
  rewrite sample_app_eq. intros [= <- <-]. now exists d1, d2, d3.
Qed.

Lemma sample_app_distinct (ds rest : list nat) (t : triple) :
  sample_app ds = Done (Some t, rest) -> distinct t.
Proof.
  intros (d1 & d2 & d3 & _ & E)%sample_app_inv.
  destruct ((d1 =? d2)%nat || (d1 =? d3)%nat || (d2 =? d3)%nat) eqn:C; [discriminate|].
  injection E as ->. apply orb_false_elim in C as [C C3].
  apply orb_false_elim in C as [C1 C2].
  apply Nat.eqb_neq in C1, C2, C3. simpl. auto.
Qed.

Lemma sample_android_distinct (ds rest : list nat) (t : triple) :
  sample_android ds = Done (t, rest) -> distinct t.
Proof.
  destruct ds as [|d1 [|d2 [|d3 ds]]]; try discriminate.
  unfold sample_android, bind, draw, ret, obind; simpl.
  destruct (resample (fun i => (i =? d1)%nat) d2 ds) as [[i2 r2]| | |] eqn:E2;
    try discriminate; simpl.
  destruct (resample (fun i => (i =? d1)%nat || (i =? i2)%nat) d3 r2) as [[i3 r3]| | |] eqn:E3;
    try discriminate; simpl.
  intros [= <- _].
  apply resample_spec in E2 as [C2 _]. apply resample_spec in E3 as [C3 _].
  apply orb_false_elim in C3 as [C31 C32].
  apply Nat.eqb_neq in C2, C31, C32. simpl. auto.
Qed.

Lemma evaluate_app_triple (cloud : list Point3D) (thr : float) (t : triple) (it : iteration) :
  evaluate_app cloud thr t = Done it -> round_triple it = Some t.
Proof.
  destruct t as [[i1 i2] i3]. unfold evaluate_app, obind.
  destruct (at_index cloud i1); try discriminate.
  destruct (at_index cloud i2); try discriminate.
  destruct (at_index cloud i3); try discriminate.
  destruct (F32.is_nan _); intros [= <-]; reflexivity.
Qed.

Lemma evaluate_android_triple (cloud : list Point3D) (thr : float) (t : triple)
  (it : iteration) :
  evaluate_android cloud thr t = Done it -> round_triple it = Some t.
Proof.
  destruct t as [[i1 i2] i3]. unfold evaluate_android, obind.
  destruct (at_index cloud i1); try discriminate.
  destruct (at_index cloud i2); try discriminate.
  destruct (at_index cloud i3); try discriminate.
  destruct (F32.lt _ F32.lit_1e_6); intros [= <-]; reflexivity.
Qed.

Lemma iteration_app_round (cloud : list Point3D) (thr : float) (ds rest : list nat)
  (it : iteration) :
  iteration_app cloud thr ds = Done (it, rest) ->
  it = Collision \/ evaluates_distinct it.
Proof.
  unfold iteration_app, bind, obind.
  destruct (sample_app ds) as [[[t|] r1]| | |] eqn:E; try discriminate; simpl.
  - unfold lift, obind. destruct (evaluate_app cloud thr t) as [it'| | |] eqn:Ev;
      try discriminate.
    intros [= <- _]. right. exists t. split.
    + eapply evaluate_app_triple, Ev.
    + eapply sample_app_distinct, E.
  - unfold ret. intros [= <- _]. now left.
Qed.

Lemma iteration_android_round (cloud : list Point3D) (thr : float) (ds rest : list nat)
  (it : iteration) :
  iteration_android cloud thr ds = Done (it, rest) -> evaluates_distinct it.
Proof.
  unfold iteration_android, bind, obind.
  destruct (sample_android ds) as [[t r1]| | |] eqn:E; try discriminate; simpl.
  unfold lift, obind. destruct (evaluate_android cloud thr t) as [it'| | |] eqn:Ev;
    try discriminate.
  intros [= <- _]. exists t. split.
  - eapply evaluate_android_triple, Ev.
  - eapply sample_android_distinct, E.
Qed.

(** ** Dependence on the draws *)

Lemma stable_ret {A : Type} (a : A) : stable (ret a).
Proof. intros ds a' rest ex. unfold ret. now intros [= <- <-]. Qed.

Lemma stable_lift {A : Type} (c : outcome A) : stable (lift c).
Proof. intros ds a rest ex. unfold lift. destruct c; simpl; try discriminate. now intros [= <- <-]. Qed.

Lemma stable_draw : stable draw.
Proof. intros [|d ds] a rest ex; simpl; [discriminate|]. now intros [= <- <-]. Qed.

Lemma stable_bind {A B : Type} (c : M A) (k : A -> M B) :
  stable c -> (forall a, stable (k a)) -> stable (bind c k).
Proof.
  intros Hc Hk ds b rest ex. unfold bind.
  destruct (c ds) as [[a r1]| | |] eqn:E; simpl; try discriminate.
  intros H. rewrite (Hc _ _ _ ex E). simpl. now apply Hk.
Qed.

Lemma stable_resample (clash : nat -> bool) (idx : nat) : stable (resample clash idx).
Proof.
  intros ds. revert idx. induction ds as [|d ds IH]; intros idx a rest ex; simpl.
  - destruct (clash idx) eqn:E; [discriminate|]. intros [= <- <-]. simpl.
    destruct ex; simpl; now rewrite E.
  - destruct (clash idx) eqn:E.
    + apply IH.
    + now intros [= <- <-].
Qed.

Create HintDb stable.
#[local] Hint Resolve stable_ret stable_lift stable_draw stable_bind stable_resample : stable.

Lemma stable_ransac_loop (round : M iteration) :
  stable round -> forall n best, stable (ransac_loop n round best).
Proof.
  intros Hr. induction n as [|n IH]; intros best; simpl; auto with stable.
Qed.

Lemma stable_sample_app : stable sample_app.
Proof.
  unfold sample_app. repeat (apply stable_bind; [apply stable_draw | intros ?]).
  destruct (_ || _); apply stable_ret.
Qed.

Lemma stable_sample_android : stable sample_android.
Proof.
  unfold sample_android. repeat (apply stable_bind; [apply stable_draw | intros ?]).
  repeat (apply stable_bind; [apply stable_resample | intros ?]).
  apply stable_ret.
Qed.

Lemma stable_iteration_app (cloud : list Point3D) (thr : float) :
  stable (iteration_app cloud thr).
Proof.
  unfold iteration_app. apply stable_bind; [apply stable_sample_app|].
  intros [t|]; auto with stable.
Qed.

Lemma stable_iteration_android (cloud : list Point3D) (thr : float) :
  stable (iteration_android cloud thr).
Proof.
  unfold iteration_android. apply stable_bind; [apply stable_sample_android|].
  intros t. apply stable_lift.
Qed.

Lemma stable_estimate_app (cloud : list Point3D) (thr : float) (minInliers maxIterations : Z) :
  stable (estimate_app cloud thr minInliers maxIterations).
Proof.
  unfold estimate_app. destruct (_ || _); [apply stable_ret|].
  apply stable_bind; [apply stable_ransac_loop, stable_iteration_app|].
  intros [bestPlane maxInliersFound]. destruct (_ >=? _); apply stable_ret.
Qed.

Lemma stable_estimate_android (cloud : list Point3D) (thr : float)
  (min_inliers max_iterations : Z) (buffer : list RansacPlaneResult) (max_planes : Z) :
  stable (estimate_android cloud thr min_inliers max_iterations buffer max_planes).
Proof.
  unfold estimate_android. destruct (_ || _); [apply stable_ret|].
  apply stable_bind; [apply stable_ransac_loop, stable_iteration_android|].
  intros [best_plane best_inlier_count]. destruct (_ && _); auto with stable.
Qed.

(** ** Enough draws *)

Lemma at_index_total (cloud : list Point3D) (idx : nat) :
  (idx < length cloud)%nat -> exists p, at_index cloud idx = Done p.
Proof.
  intros H. unfold at_index. destruct (nth_error cloud idx) eqn:E; [eauto|].
  apply nth_error_None in E. lia.
Qed.

Lemma evaluate_app_total (cloud : list Point3D) (thr : float) (i1 i2 i3 : nat) :
  (i1 < length cloud)%nat -> (i2 < length cloud)%nat -> (i3 < length cloud)%nat ->
  exists it, evaluate_app cloud thr (i1, i2, i3) = Done it.
Proof.
  intros (p1 & E1)%at_index_total (p2 & E2)%at_index_total (p3 & E3)%at_index_total.
  unfold evaluate_app. rewrite E1, E2, E3. simpl.
  destruct (F32.is_nan _); eauto.
Qed.

Lemma evaluate_android_total (cloud : list Point3D) (thr : float) (i1 i2 i3 : nat) :
  (i1 < length cloud)%nat -> (i2 < length cloud)%nat -> (i3 < length cloud)%nat ->
  exists it, evaluate_android cloud thr (i1, i2, i3) = Done it.
Proof.
  intros (p1 & E1)%at_index_total (p2 & E2)%at_index_total (p3 & E3)%at_index_total.
  unfold evaluate_android. rewrite E1, E2, E3. simpl.
  destruct (F32.lt _ F32.lit_1e_6); eauto.
Qed.

(** findPlanesRansac takes exactly three draws in each round. *)
Lemma ransac_trace_app_total (cloud : list Point3D) (thr : float) :
  forall (n : nat) (ds : list nat),
    (3 * n <= length ds)%nat ->
    Forall (fun d => (d < length cloud)%nat) ds ->
    exists its, ransac_trace n (iteration_app cloud thr) ds = Done (its, skipn (3 * n) ds).
Proof.
  induction n as [|n IH]; intros ds Hlen Hr.
  - exists []. reflexivity.
  - destruct ds as [|d1 [|d2 [|d3 ds]]]; simpl in Hlen; try lia.
    inversion Hr as [|? ? H1 Hr1]; subst. inversion Hr1 as [|? ? H2 Hr2]; subst.
    inversion Hr2 as [|? ? H3 Hr3]; subst.
    destruct (IH ds ltac:(lia) Hr3) as [its Hits].
    replace (3 * S n)%nat with (3 + 3 * n)%nat by lia.
    change (skipn (3 + 3 * n) (d1 :: d2 :: d3 :: ds)) with (skipn (3 * n) ds).
    simpl ransac_trace. unfold bind at 1. unfold iteration_app at 1. unfold bind at 1.
    rewrite sample_app_eq. simpl obind.
    destruct ((d1 =? d2)%nat || (d1 =? d3)%nat || (d2 =? d3)%nat).
    + unfold ret at 1. simpl. unfold bind. rewrite Hits. simpl. unfold ret. eauto.
    + destruct (evaluate_app_total cloud thr H1 H2 H3) as [it Hit].
      unfold lift. rewrite Hit. simpl. unfold bind. rewrite Hits. simpl. unfold ret. eauto.
Qed.

Lemma resample_no_clash (clash : nat -> bool) (idx : nat) (ds : list nat) :
  clash idx = false -> resample clash idx ds = Done (idx, ds).
Proof. intros H. destruct ds; simpl; now rewrite H. Qed.

Lemma sample_android_fresh (i1 i2 i3 : nat) (ds : list nat) :
  distinct (i1, i2, i3) -> sample_android (i1 :: i2 :: i3 :: ds) = Done ((i1, i2, i3), ds).
Proof.
  intros (H12 & H13 & H23). unfold sample_android, bind, draw, obind; simpl.
  rewrite resample_no_clash by (apply Nat.eqb_neq; auto). simpl.
  rewrite resample_no_clash; [reflexivity|].
  apply orb_false_intro; apply Nat.eqb_neq; auto.
Qed.

(** On samples without a repeated index, all inside the cloud, the loop of
    detect_walls_ransac runs one round per sample. *)
Lemma ransac_trace_android_total (cloud : list Point3D) (thr : float) :
  forall (ts : list triple) (rest : list nat),
    Forall (fun t => distinct t /\
                     let '(i1, i2, i3) := t in
                     (i1 < length cloud)%nat /\ (i2 < length cloud)%nat
                     /\ (i3 < length cloud)%nat) ts ->
    exists its,
      ransac_trace (length ts) (iteration_android cloud thr) (draws_of ts ++ rest)
      = Done (its, rest).
Proof.
  induction ts as [|[[i1 i2] i3] ts IH]; intros rest H.
  - exists []. reflexivity.
  - inversion H as [|? ? Hhd Hts]; subst.
    destruct Hhd as [Hd Hin]. simpl in Hin. destruct Hin as (H1 & H2 & H3).
    destruct (IH rest Hts) as [its Hits].
    destruct (evaluate_android_total cloud thr H1 H2 H3) as [it Hit].
    exists (it :: its). simpl length. simpl draws_of. simpl ransac_trace.
    unfold bind at 1. unfold iteration_android at 1. unfold bind at 1.
    change (i1 :: i2 :: i3 :: draws_of ts ++ rest) with (i1 :: i2 :: i3 :: (draws_of ts ++ rest)).
    rewrite (sample_android_fresh _ Hd). cbn [obind fst snd]. unfold lift. rewrite Hit.
    cbn [obind fst snd]. unfold bind. rewrite Hits. reflexivity.
Qed.

(** ** Grids without cells, buffers with cells to spare *)

Lemma grid_cells_empty (width height : Z) :
  width <= 0 \/ height <= 0 -> grid_cells width height = [].
Proof.
  intros H. destruct (grid_cells width height) as [|[v u] l] eqn:E; [reflexivity|].
  assert (Hin : In (v, u) (grid_cells width height)) by (rewrite E; now left).
  apply in_grid_cells in Hin. lia.
Qed.

Lemma covers_empty (grid : list float) (width height : Z) :
  width <= 0 \/ height <= 0 -> covers grid width height.
Proof. unfold covers. lia. Qed.

Lemma covers_app (grid extra : list float) (width height : Z) :
  covers grid width height -> covers (grid ++ extra) width height.
Proof. unfold covers. intros H Hw Hh. rewrite length_app. specialize (H Hw Hh). lia. Qed.

Lemma cell_value_app (grid extra : list float) (width height : Z) (vu : Z * Z) :
  covers grid width height -> In vu (grid_cells width height) ->
  cell_value (grid ++ extra) width vu = cell_value grid width vu.
Proof.
  intros Hc Hin. destruct vu as [v u]. apply in_grid_cells in Hin as [Hv Hu].
  unfold cell_value. simpl fst; simpl snd. apply app_nth1.
  specialize (Hc ltac:(lia) ltac:(lia)).
  assert (v * width <= (height - 1) * width) by (apply Z.mul_le_mono_nonneg_r; lia).
  assert (0 <= v * width) by (apply Z.mul_nonneg_nonneg; lia).
  lia.
Qed.

Lemma build_cloud_app_extra (grid extra : list float) (width height : Z)
  (fx fy cx cy : float) :
  covers grid width height ->
  build_cloud_app (grid ++ extra) width height fx fy cx cy =
  build_cloud_app grid width height fx fy cx cy.
Proof.
  intros Hc. rewrite !build_cloud_app_eq by auto using covers_app.
  f_equal. rewrite <- !flat_map_keep. apply flat_map_ext_in. intros vu Hin.
  unfold kept_app, point_app. now rewrite (cell_value_app extra vu Hc Hin).
Qed.

Lemma build_cloud_android_extra (grid extra : list float) (width height : Z)
  (fx fy cx cy : float) :
  covers grid width height ->
  build_cloud_android (grid ++ extra) width height fx fy cx cy =
  build_cloud_android grid width height fx fy cx cy.
Proof.
  intros Hc. rewrite !build_cloud_android_eq by auto using covers_app.
  f_equal. rewrite <- !flat_map_keep. apply flat_map_ext_in. intros vu Hin.
  unfold kept_android, point_android. now rewrite (cell_value_app extra vu Hc Hin).
Qed.

(** ** Sample data *)

Lemma sample_data_check :
  f32_half = (F32.one / F32.of_int 2)%f32
  /\ f32_quarter = (F32.one / F32.of_int 4)%f32
  /\ f32_0_05 = (F32.of_int 5 / F32.of_int 100)%f32
  /\ Forall (fun x => valid_binary F32.prec F32.emax x = true)
            [f32_half; f32_quarter; f32_0_05; f32_tiny; F32.one; F32.lit_0_01; F32.lit_1000].
Proof. vm_compute. repeat split; repeat constructor. Qed.

(** ** The back-projection (claim C1) *)





(** ** The validity filter (claim C5) *)




(** ** No validation of the shape (claim C3) *)

Lemma build_cloud_app_no_cells (grid : list float) (width height : Z) (fx fy cx cy : float) :
  width <= 0 \/ height <= 0 ->
  build_cloud_app grid width height fx fy cx cy = Done [].
Proof.
  intros H. rewrite build_cloud_app_eq by now apply covers_empty.
  now rewrite grid_cells_empty.
Qed.

Lemma build_cloud_android_no_cells (grid : list float) (width height : Z)
  (fx fy cx cy : float) :
  width <= 0 \/ height <= 0 ->
  build_cloud_android grid width height fx fy cx cy = Done [].
Proof.
  intros H. rewrite build_cloud_android_eq by now apply covers_empty.
  now rewrite grid_cells_empty.
Qed.

(** C3, counterexample. A call with width = height = 0 is answered with the
    ordinary empty result by both functions, and a buffer of five cells
    passed as a 2 x 2 grid is processed like its first four cells. *)
Lemma shape_errors_are_not_rejected :
  findPlanesRansac [] 0 0 (F32.of_int 4) (F32.of_int 4) (F32.of_int 2) (F32.of_int 2)
    f32_0_05 3 1 [0; 1; 2]%nat = Done []
  /\ detect_walls_ransac [] 0 0 (F32.of_int 4) (F32.of_int 4) (F32.of_int 2) (F32.of_int 2)
       f32_0_05 3 1 two_slots 2 [0; 1; 2]%nat = Done (0, two_slots)
  /\ findPlanesRansac (flat_grid ++ [F32.one]) 2 2 (F32.of_int 4) (F32.of_int 4)
       (F32.of_int 2) (F32.of_int 2) f32_0_05 3 1 [0; 1; 2]%nat
     = Done [mkPlaneResult F32.zero F32.zero F32.one (- (F32.of_int 2))%f32 4].
Proof. vm_compute. repeat split. Qed.

(** C3, amended. Neither function validates the shape of its input. The
    only call they refuse is one whose [int] product width * height (32 bits,
    two's complement), divided by 4, is negative: the initial [reserve] then
    throws [std::length_error] before anything else is done; this is so for
    -1 x 4, and for 46341 x 46341, whose product wraps. Otherwise, when
    width <= 0 or height <= 0 no cell is visited and the call returns the
    ordinary empty result (an empty vector; 0 with the output buffer
    untouched). The length of the buffer is unknown to the functions: on a
    grid of fewer than 2^31 cells, cells beyond the first width * height ones
    are ignored. *)
Theorem shape_is_not_validated :
  forall (grid : list float) (width height : Z) (fx fy cx cy thr : float)
         (minInliers maxIterations : Z) (buffer : list RansacPlaneResult) (max_planes : Z)
         (draws : list nat),
    (Z.quot (int_mul width height) 4 < 0 ->
     findPlanesRansac grid width height fx fy cx cy thr minInliers maxIterations draws
     = LengthError
     /\ detect_walls_ransac grid width height fx fy cx cy thr minInliers maxIterations
          buffer max_planes draws = LengthError)
    /\ (width <= 0 \/ height <= 0 ->
        0 <= Z.quot (int_mul width height) 4 ->
        findPlanesRansac grid width height fx fy cx cy thr minInliers maxIterations draws
        = Done []
        /\ detect_walls_ransac grid width height fx fy cx cy thr minInliers maxIterations
             buffer max_planes draws = Done (0, buffer))
    /\ (covers grid width height ->
        width * height < 2 ^ 31 ->
        forall extra : list float,
          findPlanesRansac (grid ++ extra) width height fx fy cx cy thr minInliers
            maxIterations draws
          = findPlanesRansac grid width height fx fy cx cy thr minInliers maxIterations draws
          /\ detect_walls_ransac (grid ++ extra) width height fx fy cx cy thr minInliers
               maxIterations buffer max_planes draws
             = detect_walls_ransac grid width height fx fy cx cy thr minInliers
                 maxIterations buffer max_planes draws).
Proof.
  intros grid width height fx fy cx cy thr minInliers maxIterations buffer max_planes draws.
  split; [|split].
  - intros H. unfold findPlanesRansac, detect_walls_ransac, reserve.
    destruct (Z.ltb_spec (Z.quot (int_mul width height) 4) 0); [split; reflexivity | lia].
  - intros H Hq. unfold findPlanesRansac, detect_walls_ransac, reserve.
    destruct (Z.ltb_spec (Z.quot (int_mul width height) 4) 0); [lia|].
    cbn [obind]. rewrite build_cloud_app_no_cells, build_cloud_android_no_cells by assumption.
    cbn [obind]. unfold estimate_app, estimate_android. cbn [length Z.of_nat].
    rewrite orb_true_r. split; reflexivity.
  - intros Hc _ extra. unfold findPlanesRansac, detect_walls_ransac.
    now rewrite build_cloud_app_extra, build_cloud_android_extra.
Qed.

Lemma shape_is_not_validated_witness :
  (Z.quot (int_mul 46341 46341) 4 < 0
   /\ findPlanesRansac [] 46341 46341 (F32.of_int 4) (F32.of_int 4) (F32.of_int 2)
        (F32.of_int 2) f32_0_05 3 1 [] = LengthError
   /\ detect_walls_ransac [] 46341 46341 (F32.of_int 4) (F32.of_int 4) (F32.of_int 2)
        (F32.of_int 2) f32_0_05 3 1 two_slots 2 [] = LengthError)
  /\ (Z.quot (int_mul (-1) 4) 4 < 0
      /\ findPlanesRansac [] (-1) 4 (F32.of_int 4) (F32.of_int 4) (F32.of_int 2)
           (F32.of_int 2) f32_0_05 3 1 [] = LengthError)
  /\ ((-46341 <= 0 \/ 46341 <= 0)
      /\ 0 <= Z.quot (int_mul (-46341) 46341) 4
      /\ findPlanesRansac [] (-46341) 46341 (F32.of_int 4) (F32.of_int 4) (F32.of_int 2)
           (F32.of_int 2) f32_0_05 3 1 [] = Done []
      /\ detect_walls_ransac [] (-46341) 46341 (F32.of_int 4) (F32.of_int 4) (F32.of_int 2)
           (F32.of_int 2) f32_0_05 3 1 two_slots 2 [] = Done (0, two_slots))
  /\ (covers flat_grid 2 2
      /\ 2 * 2 < 2 ^ 31
      /\ findPlanesRansac (flat_grid ++ [F32.one]) 2 2 (F32.of_int 4) (F32.of_int 4)
           (F32.of_int 2) (F32.of_int 2) f32_0_05 3 1 [0; 1; 2]%nat
         = findPlanesRansac flat_grid 2 2 (F32.of_int 4) (F32.of_int 4)
             (F32.of_int 2) (F32.of_int 2) f32_0_05 3 1 [0; 1; 2]%nat).
Proof.
  assert (Hbig : Z.quot (int_mul 46341 46341) 4 < 0) by (vm_compute; reflexivity).
  assert (Hneg : Z.quot (int_mul (-1) 4) 4 < 0) by (vm_compute; reflexivity).
  assert (Hd : -46341 <= 0 \/ 46341 <= 0) by (left; lia).
  assert (Hq : 0 <= Z.quot (int_mul (-46341) 46341) 4) by (vm_compute; discriminate).
  assert (Hc : covers flat_grid 2 2) by (unfold covers; simpl; lia).
  assert (Hb : 2 * 2 < 2 ^ 31) by (vm_compute; reflexivity).
  split; [|split; [|split]].
  - split; [exact Hbig|].
    exact (proj1 (@shape_is_not_validated [] 46341 46341 (F32.of_int 4) (F32.of_int 4)
                    (F32.of_int 2) (F32.of_int 2) f32_0_05 3 1 two_slots 2 []) Hbig).
  - split; [exact Hneg|].
    exact (proj1 (proj1 (@shape_is_not_validated [] (-1) 4 (F32.of_int 4) (F32.of_int 4)
                           (F32.of_int 2) (F32.of_int 2) f32_0_05 3 1 two_slots 2 []) Hneg)).
  - split; [exact Hd|]. split; [exact Hq|].
    exact (proj1 (proj2 (@shape_is_not_validated [] (-46341) 46341 (F32.of_int 4)
                           (F32.of_int 4) (F32.of_int 2) (F32.of_int 2) f32_0_05 3 1
                           two_slots 2 [])) Hd Hq).
  - split; [exact Hc|]. split; [exact Hb|].
    exact (proj1 (proj2 (proj2 (@shape_is_not_validated flat_grid 2 2 (F32.of_int 4)
                                  (F32.of_int 4) (F32.of_int 2) (F32.of_int 2) f32_0_05 3 1
                                  two_slots 2 [0; 1; 2]%nat)) Hc Hb [F32.one])).
Defined.

(** ** Sampling three indices (claim C4) *)

(** C4, counterexample. With a budget of one iteration and the draws 0, 0, 1
    the only round of findPlanesRansac is spent on the collision: no sample is
    evaluated and the result is empty, although the draws 0, 1, 2 give a plane
    supported by the four points. *)
Lemma collision_uses_up_the_iteration :
  build_cloud_app flat_grid 2 2 (F32.of_int 4) (F32.of_int 4) (F32.of_int 2) (F32.of_int 2)
  = Done flat_cloud
  /\ ransac_trace 1 (iteration_app flat_cloud f32_0_05) [0; 0; 1]%nat = Done ([Collision], [])
  /\ findPlanesRansac flat_grid 2 2 (F32.of_int 4) (F32.of_int 4) (F32.of_int 2)
       (F32.of_int 2) f32_0_05 3 1 [0; 0; 1]%nat = Done []
  /\ findPlanesRansac flat_grid 2 2 (F32.of_int 4) (F32.of_int 4) (F32.of_int 2)
       (F32.of_int 2) f32_0_05 3 1 [0; 1; 2]%nat
     = Done [mkPlaneResult F32.zero F32.zero F32.one (- (F32.of_int 2))%f32 4].
Proof. vm_compute. repeat split. Qed.

(** C4, amended. In detect_walls_ransac the second and the third index are
    drawn again until the three indices differ, so every round of the budget
    evaluates a sample of three different indices; a collision costs draws,
    not rounds. In findPlanesRansac a collision among the three draws ends the
    round, which is used up without a sample; a round that evaluates a sample
    evaluates three different indices. (That the draws are uniform on
    [0, |cloud|) is a property of [std::uniform_int_distribution].) *)
Theorem sampled_indices_differ :
  forall (cloud : list Point3D) (thr : float) (n : nat) (ds ds' : list nat)
         (its : list iteration),
    (ransac_trace n (iteration_android cloud thr) ds = Done (its, ds') ->
     length its = n /\ Forall evaluates_distinct its)
    /\ (ransac_trace n (iteration_app cloud thr) ds = Done (its, ds') ->
        length its = n /\ Forall (fun it => it = Collision \/ evaluates_distinct it) its)
    /\ (forall d1 d2 d3 rest,
           (d1 = d2 \/ d1 = d3 \/ d2 = d3) ->
           iteration_app cloud thr (d1 :: d2 :: d3 :: rest) = Done (Collision, rest))
    /\ (forall clash idx i rest,
           resample clash idx ds = Done (i, rest) ->
           clash i = false
           /\ exists skipped, idx :: ds = skipped ++ i :: rest
                              /\ Forall (fun d => clash d = true) skipped).
Proof.
  intros cloud thr n ds ds' its. repeat split.
  - eapply ransac_trace_length; eassumption.
  - eapply ransac_trace_Forall; [|eassumption].
    intros ds0 it ds0'. apply iteration_android_round.
  - eapply ransac_trace_length; eassumption.
  - eapply ransac_trace_Forall; [|eassumption].
    intros ds0 it ds0'. apply iteration_app_round.
  - intros d1 d2 d3 rest Hc. unfold iteration_app, bind. rewrite sample_app_eq.
    assert (E : (d1 =? d2)%nat || (d1 =? d3)%nat || (d2 =? d3)%nat = true).
    { destruct Hc as [-> | [-> | ->]]; rewrite Nat.eqb_refl, ?orb_true_r; reflexivity. }
    rewrite E. reflexivity.
  - eapply resample_spec; eassumption.
  - eapply resample_spec; eassumption.
Qed.

Lemma sampled_indices_differ_witness :
  ransac_trace 1 (iteration_android flat_cloud f32_0_05) [0; 0; 1; 2]%nat
  = Done ([Scored (0, 2, 1)%nat
             (mkPlane F32.zero F32.zero (- F32.one)%f32 (F32.of_int 2)) 4], [])
  /\ length [Scored (0, 2, 1)%nat
               (mkPlane F32.zero F32.zero (- F32.one)%f32 (F32.of_int 2)) 4] = 1%nat
  /\ Forall evaluates_distinct
       [Scored (0, 2, 1)%nat (mkPlane F32.zero F32.zero (- F32.one)%f32 (F32.of_int 2)) 4].
Proof.
  assert (H : ransac_trace 1 (iteration_android flat_cloud f32_0_05) [0; 0; 1; 2]%nat
              = Done ([Scored (0, 2, 1)%nat
                         (mkPlane F32.zero F32.zero (- F32.one)%f32 (F32.of_int 2)) 4], []))
    by (vm_compute; reflexivity).
  split; [exact H|].
  exact (proj1 (@sampled_indices_differ flat_cloud f32_0_05 1 [0; 0; 1; 2]%nat [] _) H).
Defined.

(** ** Scoring (claim C8) *)

(** C8. In both functions the scoring step of a round scans the whole cloud:
    a round that samples the points p1, p2, p3 either gives up on a
    degenerate sample or scores its plane, and the count it scores is the
    number of points of the whole cloud (the three sampled ones among them)
    whose distance |A x + B y + C z + D| to that plane is less than the
    threshold; a point at a distance equal to the threshold is not counted. *)
Theorem inlier_count_is_strict :
  forall (cloud : list Point3D) (thr : float),
    (forall pl : Plane,
        count_inliers_app cloud thr pl
        = Z.of_nat (length (filter
            (fun p => F32.lt (F32.abs (pl_a pl * p_x p + pl_b pl * p_y p + pl_c pl * p_z p
                                       + pl_d pl)%f32) thr) cloud))
        /\ count_inliers_android cloud thr (pl_a pl) (pl_b pl) (pl_c pl) (pl_d pl)
           = count_inliers_app cloud thr pl)
    /\ (forall t t' pl n,
           evaluate_app cloud thr t = Done (Scored t' pl n)
           \/ evaluate_android cloud thr t = Done (Scored t' pl n) ->
           n = count_inliers_app cloud thr pl)
    /\ (forall dist : float, F32.eq dist thr = true -> F32.lt dist thr = false)
    /\ (forall (idx1 idx2 idx3 : nat) (p1 p2 p3 : Point3D),
           at_index cloud idx1 = Done p1 ->
           at_index cloud idx2 = Done p2 ->
           at_index cloud idx3 = Done p3 ->
           evaluate_app cloud thr (idx1, idx2, idx3)
           = (if F32.is_nan (pl_a (calculatePlane p1 p2 p3))
              then Done (Degenerate (idx1, idx2, idx3))
              else Done (Scored (idx1, idx2, idx3) (calculatePlane p1 p2 p3)
                           (Z.of_nat (length (strict_inliers cloud thr
                                                (calculatePlane p1 p2 p3))))))
           /\ evaluate_android cloud thr (idx1, idx2, idx3)
              = (if F32.lt (magnitude_android p1 p2 p3) F32.lit_1e_6
                 then Done (Degenerate (idx1, idx2, idx3))
                 else Done (Scored (idx1, idx2, idx3) (plane_android p1 p2 p3)
                              (Z.of_nat (length (strict_inliers cloud thr
                                                   (plane_android p1 p2 p3)))))))
    /\ (forall (pl : Plane) (p : Point3D),
           In p cloud ->
           F32.lt (F32.abs (pl_a pl * p_x p + pl_b pl * p_y p + pl_c pl * p_z p
                            + pl_d pl)%f32) thr = true ->
           In p (strict_inliers cloud thr pl)
           /\ 1 <= Z.of_nat (length (strict_inliers cloud thr pl))).
Proof.
  intros cloud thr.
  assert (Hcount : forall pl : Plane,
             count_inliers_app cloud thr pl
             = Z.of_nat (length (strict_inliers cloud thr pl))).
  { intros pl. unfold count_inliers_app, pointPlaneDistance, strict_inliers.
    rewrite (fold_count (fun p => F32.lt (F32.abs (pl_a pl * p_x p + pl_b pl * p_y p
                                                  + pl_c pl * p_z p + pl_d pl)%f32) thr)).
    reflexivity. }
  split; [|split; [|split; [|split]]].
  - intros pl. split; [apply Hcount | reflexivity].
  - intros [[i1 i2] i3] t' pl n [H|H].
    + unfold evaluate_app, obind in H.
      destruct (at_index cloud i1); try discriminate.
      destruct (at_index cloud i2); try discriminate.
      destruct (at_index cloud i3); try discriminate.
      destruct (F32.is_nan _); [discriminate|]. now injection H as _ <- <-.
    + unfold evaluate_android, obind in H.
      destruct (at_index cloud i1); try discriminate.
      destruct (at_index cloud i2); try discriminate.
      destruct (at_index cloud i3); try discriminate.
      destruct (F32.lt _ F32.lit_1e_6); [discriminate|]. now injection H as _ <- <-.
  - intros dist. unfold F32.eq, F32.lt.
    destruct (F32.compare dist thr) as [[| |]|]; congruence.
  - intros idx1 idx2 idx3 p1 p2 p3 H1 H2 H3. split.
    + unfold evaluate_app. rewrite H1, H2, H3. cbn [obind].
      rewrite Hcount. reflexivity.
    + unfold evaluate_android. rewrite H1, H2, H3. cbn [obind].
      rewrite <- Hcount.
      unfold magnitude_android, plane_android, magnitude_android, normal_android.
      reflexivity.
  - intros pl p Hin Hlt.
    assert (Hp : In p (strict_inliers cloud thr pl))
      by (unfold strict_inliers; apply filter_In; now split).
    split; [exact Hp|].
    destruct (strict_inliers cloud thr pl); [destruct Hp | simpl length; lia].
Qed.

Lemma inlier_count_is_strict_witness :
  (at_index flat_cloud 0 = Done (mkPoint3D (- F32.one)%f32 (- F32.one)%f32 (F32.of_int 2))
   /\ at_index flat_cloud 1 = Done (mkPoint3D (- f32_half)%f32 (- F32.one)%f32 (F32.of_int 2))
   /\ at_index flat_cloud 2 = Done (mkPoint3D (- F32.one)%f32 (- f32_half)%f32 (F32.of_int 2))
   /\ evaluate_app flat_cloud f32_0_05 (0, 1, 2)%nat
      = Done (Scored (0, 1, 2)%nat
                (mkPlane F32.zero F32.zero F32.one (- (F32.of_int 2))%f32) 4))
  /\ (at_index flat_cloud_android 0 = Done (mkPoint3D (- F32.one)%f32 F32.one (F32.of_int 2))
      /\ at_index flat_cloud_android 1
         = Done (mkPoint3D (- f32_half)%f32 F32.one (F32.of_int 2))
      /\ at_index flat_cloud_android 2 = Done (mkPoint3D (- F32.one)%f32 f32_half (F32.of_int 2))
      /\ evaluate_android flat_cloud_android f32_0_05 (0, 1, 2)%nat
         = Done (Scored (0, 1, 2)%nat
                   (mkPlane F32.zero F32.zero (- F32.one)%f32 (F32.of_int 2)) 4)).
Proof.
  assert (Ha : forall i p, nth_error flat_cloud i = Some p -> at_index flat_cloud i = Done p)
    by (intros i p H; unfold at_index; now rewrite H).
  assert (Hw : forall i p, nth_error flat_cloud_android i = Some p ->
                           at_index flat_cloud_android i = Done p)
    by (intros i p H; unfold at_index; now rewrite H).
  split.
  - split; [exact (Ha 0%nat _ eq_refl)|]. split; [exact (Ha 1%nat _ eq_refl)|].
    split; [exact (Ha 2%nat _ eq_refl)|].
    exact (proj1 (proj1 (proj2 (proj2 (proj2 (@inlier_count_is_strict flat_cloud f32_0_05))))
                    0%nat 1%nat 2%nat _ _ _
                    (Ha 0%nat _ eq_refl) (Ha 1%nat _ eq_refl) (Ha 2%nat _ eq_refl))).
  - split; [exact (Hw 0%nat _ eq_refl)|]. split; [exact (Hw 1%nat _ eq_refl)|].
    split; [exact (Hw 2%nat _ eq_refl)|].
    exact (proj2 (proj1 (proj2 (proj2 (proj2 (@inlier_count_is_strict flat_cloud_android
                                                  f32_0_05))))
                    0%nat 1%nat 2%nat _ _ _
                    (Hw 0%nat _ eq_refl) (Hw 1%nat _ eq_refl) (Hw 2%nat _ eq_refl))).
Defined.

(** ** Keeping the best model (claim C9) *)

Lemma count_inliers_nonneg (cloud : list Point3D) (thr : float) (pl : Plane) :
  0 <= count_inliers_app cloud thr pl.
Proof. unfold count_inliers_app. rewrite fold_count. lia. Qed.

Lemma evaluate_app_nonneg (cloud : list Point3D) (thr : float) (t : triple) (it : iteration) :
  evaluate_app cloud thr t = Done it -> nonneg_count it.
Proof.
  destruct t as [[i1 i2] i3]. unfold evaluate_app, obind.
  destruct (at_index cloud i1); try discriminate.
  destruct (at_index cloud i2); try discriminate.
  destruct (at_index cloud i3); try discriminate.
  destruct (F32.is_nan _); intros [= <-]; simpl; [tauto|].
  apply count_inliers_nonneg.
Qed.

Lemma evaluate_android_nonneg (cloud : list Point3D) (thr : float) (t : triple)
  (it : iteration) :
  evaluate_android cloud thr t = Done it -> nonneg_count it.
Proof.
  destruct t as [[i1 i2] i3]. unfold evaluate_android, obind.
  destruct (at_index cloud i1); try discriminate.
  destruct (at_index cloud i2); try discriminate.
  destruct (at_index cloud i3); try discriminate.
  destruct (F32.lt _ F32.lit_1e_6); intros [= <-]; simpl; [tauto|].
  match goal with |- 0 <= count_inliers_android _ _ ?A ?B ?C ?D =>
    apply (count_inliers_nonneg cloud thr (mkPlane A B C D)) end.
Qed.

Lemma iteration_app_nonneg (cloud : list Point3D) (thr : float) (ds rest : list nat)
  (it : iteration) :
  iteration_app cloud thr ds = Done (it, rest) -> nonneg_count it.
Proof.
  unfold iteration_app, bind, obind.
  destruct (sample_app ds) as [[[t|] r1]| | |]; try discriminate; simpl.
  - unfold lift, obind. destruct (evaluate_app cloud thr t) as [it'| | |] eqn:Ev;
      try discriminate.
    intros [= <- _]. eapply evaluate_app_nonneg, Ev.
  - unfold ret. intros [= <- _]. exact I.
Qed.

Lemma iteration_android_nonneg (cloud : list Point3D) (thr : float) (ds rest : list nat)
  (it : iteration) :
  iteration_android cloud thr ds = Done (it, rest) -> nonneg_count it.
Proof.
  unfold iteration_android, bind, obind.
  destruct (sample_android ds) as [[t r1]| | |]; try discriminate; simpl.
  unfold lift, obind. destruct (evaluate_android cloud thr t) as [it'| | |] eqn:Ev;
    try discriminate.
  intros [= <- _]. eapply evaluate_android_nonneg, Ev.
Qed.

Lemma unscored_of_below (its : list iteration) :
  Forall nonneg_count its -> Forall (below (-1) false) its -> Forall unscored its.
Proof.
  induction its as [|it its IH]; intros Hn Hb; constructor.
  - inversion Hn; inversion Hb; subst. destruct it; simpl in *; trivial. lia.
  - inversion Hn; inversion Hb; subst. auto.
Qed.

(** C9. In both loops the retained model is replaced exactly when the count
    of the round exceeds the best count so far, and is kept on a tie. Hence,
    over the rounds of a run, the retained model is the first scored round
    that reaches the largest count: the rounds before it have smaller
    counts and the rounds after it have counts that are not larger; when no
    round is scored the initial model with count -1 is retained. *)
Theorem best_is_first_maximum :
  forall (cloud : list Point3D) (thr : float) (round : M iteration) (n : nat)
         (ds ds' : list nat) (best : Plane * Z),
    round = iteration_app cloud thr \/ round = iteration_android cloud thr ->
    ransac_loop n round no_plane ds = Done (best, ds') ->
    (forall b t pl k,
        (snd b < k -> update b (Scored t pl k) = (pl, k))
        /\ (k <= snd b -> update b (Scored t pl k) = b))
    /\ exists its,
         ransac_trace n round ds = Done (its, ds')
         /\ best = fold_left update its no_plane
         /\ ((best = no_plane /\ Forall unscored its)
             \/ exists pre t post,
                  its = pre ++ Scored t (fst best) (snd best) :: post
                  /\ Forall (below (snd best) true) pre
                  /\ Forall (below (snd best) false) post).
Proof.
  intros cloud thr round n ds ds' best Hround Hloop. split.
  - intros b t pl k. simpl. split; intros Hk.
    + destruct (Z.gtb_spec k (snd b)); [reflexivity | lia].
    + destruct (Z.gtb_spec k (snd b)); [lia | reflexivity].
  - rewrite ransac_loop_trace in Hloop. unfold obind in Hloop.
    destruct (ransac_trace n round ds) as [[its ds1]| | |] eqn:E; try discriminate.
    simpl in Hloop. injection Hloop as <- <-.
    exists its. split; [reflexivity|]. split; [reflexivity|].
    assert (Hn : Forall nonneg_count its).
    { eapply ransac_trace_Forall; [|exact E]. intros ds0 it ds0'.
      destruct Hround as [-> | ->];
        [apply iteration_app_nonneg | apply iteration_android_nonneg]. }
    destruct (fold_update_first_max its no_plane)
      as [[Ekeep Hb]|(pre & t & post & Eits & _ & Hpre & Hpost)].
    + left. split; [exact Ekeep|]. now apply unscored_of_below.
    + right. now exists pre, t, post.
Qed.

Lemma best_is_first_maximum_witness :
  ransac_loop 2 (iteration_app flat_cloud f32_0_05) no_plane [0; 1; 2; 1; 2; 3]%nat
  = Done ((mkPlane F32.zero F32.zero F32.one (- (F32.of_int 2))%f32, 4), [])
  /\ exists its,
       ransac_trace 2 (iteration_app flat_cloud f32_0_05) [0; 1; 2; 1; 2; 3]%nat
       = Done (its, [])
       /\ (mkPlane F32.zero F32.zero F32.one (- (F32.of_int 2))%f32, 4)
          = fold_left update its no_plane
       /\ (((mkPlane F32.zero F32.zero F32.one (- (F32.of_int 2))%f32, 4) = no_plane
            /\ Forall unscored its)
           \/ exists pre t post,
                its = pre ++ Scored t (mkPlane F32.zero F32.zero F32.one
                                         (- (F32.of_int 2))%f32) 4 :: post
                /\ Forall (below 4 true) pre
                /\ Forall (below 4 false) post).
Proof.
  assert (H : ransac_loop 2 (iteration_app flat_cloud f32_0_05) no_plane
                [0; 1; 2; 1; 2; 3]%nat
              = Done ((mkPlane F32.zero F32.zero F32.one (- (F32.of_int 2))%f32, 4), []))
    by (vm_compute; reflexivity).
  split; [exact H|].
  exact (proj2 (@best_is_first_maximum flat_cloud f32_0_05 _ 2 _ _ _ (or_introl eq_refl) H)).
Defined.

(** ** The decision on the result (claims C6 and C10) *)

Lemma too_few_dec (cloud : list Point3D) (minInliers : Z) :
  (too_few cloud minInliers
   /\ (Z.of_nat (length cloud) <? size_t_of_int minInliers)
      || (Z.of_nat (length cloud) <? 3) = true
   /\ (Z.of_nat (length cloud) <? 3)
      || (Z.of_nat (length cloud) <? size_t_of_int minInliers) = true)
  \/ (~ too_few cloud minInliers
      /\ (Z.of_nat (length cloud) <? size_t_of_int minInliers)
         || (Z.of_nat (length cloud) <? 3) = false
      /\ (Z.of_nat (length cloud) <? 3)
         || (Z.of_nat (length cloud) <? size_t_of_int minInliers) = false).
Proof.
  unfold too_few.
  destruct (Z.ltb_spec (Z.of_nat (length cloud)) 3);
    destruct (Z.ltb_spec (Z.of_nat (length cloud)) (size_t_of_int minInliers));
    simpl; [left | left | left | right]; repeat split; auto; lia.
Qed.

Lemma estimate_app_early (cloud : list Point3D) (thr : float) (minInliers maxIterations : Z)
  (ds : list nat) :
  too_few cloud minInliers ->
  estimate_app cloud thr minInliers maxIterations ds = Done ([], ds).
Proof.
  intros H. unfold estimate_app.
  destruct (too_few_dec cloud minInliers) as [(_ & -> & _)|(Hn & _)]; [reflexivity | tauto].
Qed.

Lemma estimate_android_early (cloud : list Point3D) (thr : float)
  (min_inliers max_iterations : Z) (buffer : list RansacPlaneResult) (max_planes : Z)
  (ds : list nat) :
  too_few cloud min_inliers ->
  estimate_android cloud thr min_inliers max_iterations buffer max_planes ds
  = Done ((0, buffer), ds).
Proof.
  intros H. unfold estimate_android.
  destruct (too_few_dec cloud min_inliers) as [(_ & _ & ->)|(Hn & _)]; [reflexivity | tauto].
Qed.

Lemma estimate_app_late (cloud : list Point3D) (thr : float) (minInliers maxIterations : Z)
  (ds rest : list nat) (its : list iteration) :
  ~ too_few cloud minInliers ->
  ransac_trace (Z.to_nat maxIterations) (iteration_app cloud thr) ds = Done (its, rest) ->
  estimate_app cloud thr minInliers maxIterations ds
  = Done (if snd (fold_left update its no_plane) >=? minInliers
          then [plane_result (fold_left update its no_plane)] else [], rest).
Proof.
  intros Hn Htr. unfold estimate_app.
  destruct (too_few_dec cloud minInliers) as [(H & _)|(_ & -> & _)]; [tauto|].
  unfold bind. rewrite ransac_loop_trace, Htr. cbn [obind fst snd].
  destruct (fold_left update its no_plane) as [bestPlane maxInliersFound].
  cbn [fst snd]. destruct (maxInliersFound >=? minInliers); reflexivity.
Qed.

Lemma estimate_android_late (cloud : list Point3D) (thr : float)
  (min_inliers max_iterations : Z) (buffer : list RansacPlaneResult) (max_planes : Z)
  (ds rest : list nat) (its : list iteration) :
  ~ too_few cloud min_inliers ->
  ransac_trace (Z.to_nat max_iterations) (iteration_android cloud thr) ds = Done (its, rest) ->
  estimate_android cloud thr min_inliers max_iterations buffer max_planes ds
  = (if (snd (fold_left update its no_plane) >=? min_inliers) && (max_planes >=? 1)
     then buffer' <~ write_first buffer (ransac_plane_result (fold_left update its no_plane)) ;;
          Done ((1, buffer'), rest)
     else Done ((0, buffer), rest)).
Proof.
  intros Hn Htr. unfold estimate_android.
  destruct (too_few_dec cloud min_inliers) as [(H & _)|(_ & _ & ->)]; [tauto|].
  unfold bind. rewrite ransac_loop_trace, Htr. cbn [obind fst snd].
  destruct (fold_left update its no_plane) as [best_plane best_inlier_count].
  cbn [fst snd]. destruct ((best_inlier_count >=? min_inliers) && (max_planes >=? 1));
    [|reflexivity].
  unfold lift, ransac_plane_result. cbn [fst snd].
  destruct (write_first buffer _); reflexivity.
Qed.

(** What a returning call of the estimator of detect_walls_ransac has done
    to the buffer. *)
Lemma estimate_android_inv (cloud : list Point3D) (thr : float)
  (min_inliers max_iterations : Z) (buffer buffer' : list RansacPlaneResult)
  (max_planes n : Z) (ds rest : list nat) :
  estimate_android cloud thr min_inliers max_iterations buffer max_planes ds
  = Done ((n, buffer'), rest) ->
  (n = 1 /\ 1 <= max_planes
   /\ exists old others r, buffer = old :: others /\ buffer' = r :: others
                           /\ min_inliers <= inlier_count r)
  \/ (n = 0 /\ buffer' = buffer).
Proof.
  unfold estimate_android. destruct (_ || _).
  - unfold ret. intros [= <- <- _]. now right.
  - unfold bind, obind.
    destruct (ransac_loop _ _ _ ds) as [[[best_plane best_inlier_count] ds1]| | |];
      try discriminate.
    cbn [fst snd].
    destruct ((best_inlier_count >=? min_inliers) && (max_planes >=? 1)) eqn:E.
    + apply andb_prop in E as [E1 E2].
      unfold lift, write_first, obind. destruct buffer as [|old others]; [discriminate|].
      unfold ret. cbn [fst snd]. intros [= <- <- _]. left.
      split; [reflexivity|]. split; [lia|].
      exists old, others. eexists. split; [reflexivity|]. split; [reflexivity|].
      simpl. lia.
    + unfold ret. intros [= <- <- _]. now right.
Qed.

Lemma estimate_app_inv (cloud : list Point3D) (thr : float) (minInliers maxIterations : Z)
  (planes : list PlaneResult) (ds rest : list nat) :
  estimate_app cloud thr minInliers maxIterations ds = Done (planes, rest) ->
  planes = [] \/ exists r, planes = [r] /\ minInliers <= numInliers r.
Proof.
  unfold estimate_app. destruct (_ || _).
  - unfold ret. intros [= <- _]. now left.
  - unfold bind, obind.
    destruct (ransac_loop _ _ _ ds) as [[[bestPlane maxInliersFound] ds1]| | |];
      try discriminate.
    cbn [fst snd]. destruct (maxInliersFound >=? minInliers) eqn:E; unfold ret.
    + intros [= <- _]. right. eexists. split; [reflexivity|]. simpl. lia.
    + intros [= <- _]. now left.
Qed.

Lemma findPlanesRansac_inv (grid : list float) (width height : Z)
  (fx fy cx cy thr : float) (minInliers maxIterations : Z) (draws : list nat)
  (planes : list PlaneResult) :
  findPlanesRansac grid width height fx fy cx cy thr minInliers maxIterations draws
  = Done planes ->
  exists cloud rest,
    build_cloud_app grid width height fx fy cx cy = Done cloud
    /\ estimate_app cloud thr minInliers maxIterations draws = Done (planes, rest).
Proof.
  unfold findPlanesRansac, obind. destruct (reserve _); try discriminate.
  destruct (build_cloud_app _ _ _ _ _ _ _) as [cloud| | |]; try discriminate.
  destruct (estimate_app _ _ _ _ _) as [[planes' rest]| | |] eqn:E; try discriminate.
  intros [= <-]. exists cloud, rest. split; [reflexivity | exact E].
Qed.

Lemma detect_walls_ransac_inv (grid : list float) (width height : Z)
  (fx fy cx cy thr : float) (min_inliers max_iterations : Z)
  (buffer : list RansacPlaneResult) (max_planes : Z) (draws : list nat)
  (r : Z * list RansacPlaneResult) :
  detect_walls_ransac grid width height fx fy cx cy thr min_inliers max_iterations
    buffer max_planes draws = Done r ->
  exists cloud rest,
    build_cloud_android grid width height fx fy cx cy = Done cloud
    /\ estimate_android cloud thr min_inliers max_iterations buffer max_planes draws
       = Done (r, rest).
Proof.
  unfold detect_walls_ransac, obind. destruct (reserve _); try discriminate.
  destruct (build_cloud_android _ _ _ _ _ _ _) as [cloud| | |]; try discriminate.
  destruct (estimate_android _ _ _ _ _ _ _) as [[r' rest]| | |] eqn:E; try discriminate.
  intros [= <-]. exists cloud, rest. split; [reflexivity | exact E].
Qed.

(** C6, counterexample. On the flat 2 x 2 grid with min_inliers = 3, one
    iteration and the draws 0, 1, 2, the loop of detect_walls_ransac retains a
    plane supported by the four points; called with max_planes = 0 the
    function nevertheless emits no plane: it returns 0 and leaves the buffer
    as it was. *)
Lemma no_capacity_no_plane :
  build_cloud_android flat_grid 2 2 (F32.of_int 4) (F32.of_int 4) (F32.of_int 2)
    (F32.of_int 2) = Done flat_cloud_android
  /\ ransac_loop 1 (iteration_android flat_cloud_android f32_0_05) no_plane [0; 1; 2]%nat
     = Done ((mkPlane F32.zero F32.zero (- F32.one)%f32 (F32.of_int 2), 4), [])
  /\ (4 >=? 3) = true
  /\ detect_walls_ransac flat_grid 2 2 (F32.of_int 4) (F32.of_int 4) (F32.of_int 2)
       (F32.of_int 2) f32_0_05 3 1 two_slots 0 [0; 1; 2]%nat = Done (0, two_slots).
Proof. vm_compute. repeat split. Qed.

(** C6, amended. If the point cloud has fewer than 3 points, or fewer points
    than minInliers converted to [size_t] (so for every negative minInliers),
    both functions return the empty result at once, without a draw.
    Otherwise, after all iterations, findPlanesRansac emits exactly one plane
    (normal, offset and count of the retained model) if the best count is at
    least minInliers and the empty result if not; detect_walls_ransac does the
    same provided max_planes >= 1, and emits nothing when max_planes < 1.
    Neither ever emits more than one plane. The iterations of
    findPlanesRansac run to their end on any 3 * maxIterations draws inside
    the cloud, those of detect_walls_ransac on any maxIterations samples of
    three different indices inside the cloud. *)
Theorem decision_on_the_result :
  forall (grid : list float) (width height : Z) (fx fy cx cy thr : float)
         (minInliers maxIterations : Z) (buffer : list RansacPlaneResult) (max_planes : Z)
         (draws : list nat) (cloud_a cloud_w : list Point3D),
    reserve (int_mul width height) = Done tt ->
    build_cloud_app grid width height fx fy cx cy = Done cloud_a ->
    build_cloud_android grid width height fx fy cx cy = Done cloud_w ->
    (too_few cloud_a minInliers ->
     findPlanesRansac grid width height fx fy cx cy thr minInliers maxIterations draws
     = Done [])
    /\ (too_few cloud_w minInliers ->
        detect_walls_ransac grid width height fx fy cx cy thr minInliers maxIterations
          buffer max_planes draws = Done (0, buffer))
    /\ (~ too_few cloud_a minInliers ->
        forall its rest,
          ransac_trace (Z.to_nat maxIterations) (iteration_app cloud_a thr) draws
          = Done (its, rest) ->
          let best := fold_left update its no_plane in
          findPlanesRansac grid width height fx fy cx cy thr minInliers maxIterations draws
          = Done (if snd best >=? minInliers then [plane_result best] else []))
    /\ (~ too_few cloud_w minInliers ->
        forall its rest,
          ransac_trace (Z.to_nat maxIterations) (iteration_android cloud_w thr) draws
          = Done (its, rest) ->
          let best := fold_left update its no_plane in
          detect_walls_ransac grid width height fx fy cx cy thr minInliers maxIterations
            buffer max_planes draws
          = (if (snd best >=? minInliers) && (max_planes >=? 1)
             then buffer' <~ write_first buffer (ransac_plane_result best) ;;
                  Done (1, buffer')
             else Done (0, buffer)))
    /\ ((3 * Z.to_nat maxIterations <= length draws)%nat ->
        Forall (fun d => (d < length cloud_a)%nat) draws ->
        exists its,
          ransac_trace (Z.to_nat maxIterations) (iteration_app cloud_a thr) draws
          = Done (its, skipn (3 * Z.to_nat maxIterations) draws))
    /\ (forall ts rest,
           draws = draws_of ts ++ rest ->
           length ts = Z.to_nat maxIterations ->
           Forall (fun t => distinct t /\
                            let '(i1, i2, i3) := t in
                            (i1 < length cloud_w)%nat /\ (i2 < length cloud_w)%nat
                            /\ (i3 < length cloud_w)%nat) ts ->
           exists its,
             ransac_trace (Z.to_nat maxIterations) (iteration_android cloud_w thr) draws
             = Done (its, rest))
    /\ (forall planes,
           findPlanesRansac grid width height fx fy cx cy thr minInliers maxIterations draws
           = Done planes -> (length planes <= 1)%nat)
    /\ (forall n buffer',
           detect_walls_ransac grid width height fx fy cx cy thr minInliers maxIterations
             buffer max_planes draws = Done (n, buffer') -> n = 0 \/ n = 1).
Proof.
  intros grid width height fx fy cx cy thr minInliers maxIterations buffer max_planes draws
         cloud_a cloud_w Hr Ha Hw.
  unfold findPlanesRansac, detect_walls_ransac. rewrite Hr, Ha, Hw. cbn [obind].
  split; [|split; [|split; [|split; [|split; [|split; [|split]]]]]].
  - intros H. now rewrite estimate_app_early.
  - intros H. now rewrite estimate_android_early.
  - intros Hn its rest Htr. rewrite (@estimate_app_late _ _ _ _ _ _ _ Hn Htr). reflexivity.
  - intros Hn its rest Htr.
    rewrite (@estimate_android_late _ _ _ _ buffer max_planes _ _ _ Hn Htr).
    destruct (_ && _); [|reflexivity]. destruct (write_first buffer _); reflexivity.
  - intros Hlen Hin. now apply ransac_trace_app_total.
  - intros ts rest -> <- Hts. now apply ransac_trace_android_total.
  - intros planes H.
    destruct (estimate_app cloud_a thr minInliers maxIterations draws)
      as [[planes' rest]| | |] eqn:E; try discriminate.
    cbn [obind fst] in H. injection H as <-. apply estimate_app_inv in E as [-> | (r & -> & _)]; simpl; lia.
  - intros n buffer' H.
    destruct (estimate_android cloud_w thr minInliers maxIterations buffer max_planes draws)
      as [[[n' b'] rest]| | |] eqn:E; try discriminate.
    cbn [obind fst] in H. injection H as <- <-. apply estimate_android_inv in E as [(-> & _) | (-> & _)]; auto.
Qed.

Lemma decision_on_the_result_witness :
  reserve (int_mul 2 2) = Done tt
  /\ build_cloud_app flat_grid 2 2 (F32.of_int 4) (F32.of_int 4) (F32.of_int 2)
       (F32.of_int 2) = Done flat_cloud
  /\ build_cloud_android flat_grid 2 2 (F32.of_int 4) (F32.of_int 4) (F32.of_int 2)
       (F32.of_int 2) = Done flat_cloud_android
  /\ (too_few flat_cloud 5 ->
      findPlanesRansac flat_grid 2 2 (F32.of_int 4) (F32.of_int 4) (F32.of_int 2)
        (F32.of_int 2) f32_0_05 5 1 [] = Done [])
  /\ too_few flat_cloud 5.
Proof.
  assert (Hr : reserve (int_mul 2 2) = Done tt) by reflexivity.
  assert (Ha : build_cloud_app flat_grid 2 2 (F32.of_int 4) (F32.of_int 4) (F32.of_int 2)
                 (F32.of_int 2) = Done flat_cloud) by (vm_compute; reflexivity).
  assert (Hw : build_cloud_android flat_grid 2 2 (F32.of_int 4) (F32.of_int 4)
                 (F32.of_int 2) (F32.of_int 2) = Done flat_cloud_android)
    by (vm_compute; reflexivity).
  split; [exact Hr|]. split; [exact Ha|]. split; [exact Hw|]. split.
  - exact (proj1 (@decision_on_the_result flat_grid 2 2 (F32.of_int 4) (F32.of_int 4)
                    (F32.of_int 2) (F32.of_int 2) f32_0_05 5 1 two_slots 2 []
                    flat_cloud flat_cloud_android Hr Ha Hw)).
  - right. vm_compute. reflexivity.
Defined.

(** C10. detect_walls_ransac writes to the caller's buffer only when it
    returns 1, and then only to [out_planes_buffer[0]]: the other elements
    and the length of the buffer are unchanged. Whenever it returns 0 the
    buffer is the one it was given; this is so in particular when
    max_planes < 1, whatever the loop has found. It returns nothing else
    than 0 or 1. *)
Theorem output_buffer_frame :
  forall (grid : list float) (width height : Z) (fx fy cx cy thr : float)
         (min_inliers max_iterations : Z) (out_planes_buffer : list RansacPlaneResult)
         (max_planes : Z) (draws : list nat) (n : Z) (buffer' : list RansacPlaneResult),
    detect_walls_ransac grid width height fx fy cx cy thr min_inliers max_iterations
      out_planes_buffer max_planes draws = Done (n, buffer') ->
    ((n = 1 /\ 1 <= max_planes
      /\ exists old others r,
           out_planes_buffer = old :: others /\ buffer' = r :: others)
     \/ (n = 0 /\ buffer' = out_planes_buffer))
    /\ (max_planes < 1 -> n = 0 /\ buffer' = out_planes_buffer).
Proof.
  intros grid width height fx fy cx cy thr min_inliers max_iterations out_planes_buffer
         max_planes draws n buffer' H.
  apply detect_walls_ransac_inv in H as (cloud & rest & _ & H).
  apply estimate_android_inv in H
    as [(-> & Hmax & old & others & r & -> & -> & _) | (-> & ->)].
  - split; [|lia]. left. split; [reflexivity|]. split; [assumption|].
    now exists old, others, r.
  - split; [now right | auto].
Qed.

Lemma output_buffer_frame_witness :
  detect_walls_ransac flat_grid 2 2 (F32.of_int 4) (F32.of_int 4) (F32.of_int 2)
    (F32.of_int 2) f32_0_05 3 1 two_slots 2 [0; 1; 2]%nat
  = Done (1, [mkRansacPlaneResult F32.zero F32.zero (- F32.one)%f32 (F32.of_int 2) 4;
              old_result 8])
  /\ ((1 = 1 /\ 1 <= 2
       /\ exists old others r,
            two_slots = old :: others
            /\ [mkRansacPlaneResult F32.zero F32.zero (- F32.one)%f32 (F32.of_int 2) 4;
                old_result 8] = r :: others)
      \/ (1 = 0
          /\ [mkRansacPlaneResult F32.zero F32.zero (- F32.one)%f32 (F32.of_int 2) 4;
              old_result 8] = two_slots)).
Proof.
  assert (H : detect_walls_ransac flat_grid 2 2 (F32.of_int 4) (F32.of_int 4) (F32.of_int 2)
                (F32.of_int 2) f32_0_05 3 1 two_slots 2 [0; 1; 2]%nat
              = Done (1, [mkRansacPlaneResult F32.zero F32.zero (- F32.one)%f32
                            (F32.of_int 2) 4; old_result 8]))
    by (vm_compute; reflexivity).
  split; [exact H|].
  exact (proj1 (@output_buffer_frame _ _ _ _ _ _ _ _ _ _ _ _ _ _ _ H)).
Defined.

(** ** Runs and random draws (claim C2) *)

(** C2, counterexample. The functions have no seed parameter: the indices
    drawn are chosen inside the call. Two calls of findPlanesRansac with the
    same arguments, one drawing 0, 1, 2 and the other 0, 1, 3, return
    different planes. *)
Lemma same_call_two_results :
  findPlanesRansac bumpy_grid 2 2 (F32.of_int 4) (F32.of_int 4) (F32.of_int 2) (F32.of_int 1)
    f32_0_05 3 1 [0; 1; 2]%nat
  = Done [mkPlaneResult (S754_finite true 9111293 (-24)) (S754_finite true 13666940 (-24))
            (S754_finite true 13666940 (-26)) (S754_finite true 9111293 (-25)) 3]
  /\ findPlanesRansac bumpy_grid 2 2 (F32.of_int 4) (F32.of_int 4) (F32.of_int 2)
       (F32.of_int 1) f32_0_05 3 1 [0; 1; 3]%nat
     = Done [mkPlaneResult (- F32.one)%f32 F32.zero F32.zero (- f32_half)%f32 3]
  /\ findPlanesRansac bumpy_grid 2 2 (F32.of_int 4) (F32.of_int 4) (F32.of_int 2)
       (F32.of_int 1) f32_0_05 3 1 [0; 1; 2]%nat
     <> findPlanesRansac bumpy_grid 2 2 (F32.of_int 4) (F32.of_int 4) (F32.of_int 2)
          (F32.of_int 1) f32_0_05 3 1 [0; 1; 3]%nat.
Proof. vm_compute. repeat split. discriminate. Qed.

(** C2, amended. There is no deterministic-seed mode: each call seeds its
    generator from [std::random_device]. The result is a function of the
    arguments and of the indices drawn, and of the drawn indices only those
    that the call consumes matter: a call that returns on given draws returns
    the same result on every stream of draws that begins with them. *)
Theorem result_depends_on_consumed_draws :
  forall (grid : list float) (width height : Z) (fx fy cx cy thr : float)
         (minInliers maxIterations : Z) (buffer : list RansacPlaneResult) (max_planes : Z)
         (draws more : list nat),
    (forall planes,
        findPlanesRansac grid width height fx fy cx cy thr minInliers maxIterations draws
        = Done planes ->
        findPlanesRansac grid width height fx fy cx cy thr minInliers maxIterations
          (draws ++ more) = Done planes)
    /\ (forall r,
           detect_walls_ransac grid width height fx fy cx cy thr minInliers maxIterations
             buffer max_planes draws = Done r ->
           detect_walls_ransac grid width height fx fy cx cy thr minInliers maxIterations
             buffer max_planes (draws ++ more) = Done r).
Proof.
  intros grid width height fx fy cx cy thr minInliers maxIterations buffer max_planes
         draws more.
  split.
  - intros planes H. unfold findPlanesRansac in *.
    destruct (reserve (int_mul width height)); try discriminate. cbn [obind] in *.
    destruct (build_cloud_app grid width height fx fy cx cy) as [cloud| | |];
      try discriminate.
    cbn [obind] in *.
    destruct (estimate_app cloud thr minInliers maxIterations draws)
      as [[planes' rest]| | |] eqn:E; try discriminate.
    cbn [obind fst] in H. injection H as <-.
    now rewrite (stable_estimate_app _ _ _ _ _ more E).
  - intros r H. unfold detect_walls_ransac in *.
    destruct (reserve (int_mul width height)); try discriminate. cbn [obind] in *.
    destruct (build_cloud_android grid width height fx fy cx cy) as [cloud| | |];
      try discriminate.
    cbn [obind] in *.
    destruct (estimate_android cloud thr minInliers maxIterations buffer max_planes draws)
      as [[r' rest]| | |] eqn:E; try discriminate.
    cbn [obind fst] in H. injection H as <-.
    now rewrite (stable_estimate_android _ _ _ _ _ _ _ more E).
Qed.

Lemma result_depends_on_consumed_draws_witness :
  findPlanesRansac bumpy_grid 2 2 (F32.of_int 4) (F32.of_int 4) (F32.of_int 2) (F32.of_int 1)
    f32_0_05 3 1 [0; 1; 3]%nat
  = Done [mkPlaneResult (- F32.one)%f32 F32.zero F32.zero (- f32_half)%f32 3]
  /\ findPlanesRansac bumpy_grid 2 2 (F32.of_int 4) (F32.of_int 4) (F32.of_int 2)
       (F32.of_int 1) f32_0_05 3 1 ([0; 1; 3] ++ [2; 2; 0])%nat
     = Done [mkPlaneResult (- F32.one)%f32 F32.zero F32.zero (- f32_half)%f32 3].
Proof.
  assert (H : findPlanesRansac bumpy_grid 2 2 (F32.of_int 4) (F32.of_int 4) (F32.of_int 2)
                (F32.of_int 1) f32_0_05 3 1 [0; 1; 3]%nat
              = Done [mkPlaneResult (- F32.one)%f32 F32.zero F32.zero (- f32_half)%f32 3])
    by (vm_compute; reflexivity).
  split; [exact H|].
  exact (proj1 (@result_depends_on_consumed_draws bumpy_grid 2 2 (F32.of_int 4)
                  (F32.of_int 4) (F32.of_int 2) (F32.of_int 1) f32_0_05 3 1 two_slots 2
                  [0; 1; 3]%nat [2; 2; 0]%nat) _ H).
Defined.

(** ** The emitted plane (claim C7) *)

(** The count of an emitted plane reaches the caller's threshold. *)
Lemma emitted_count_reaches_threshold (grid : list float) (width height : Z)
  (fx fy cx cy thr : float) (minInliers maxIterations : Z)
  (buffer : list RansacPlaneResult) (max_planes : Z) (draws : list nat) :
  (forall planes,
      findPlanesRansac grid width height fx fy cx cy thr minInliers maxIterations draws
      = Done planes -> Forall (fun r => minInliers <= numInliers r) planes)
  /\ (forall r others,
         detect_walls_ransac grid width height fx fy cx cy thr minInliers maxIterations
           buffer max_planes draws = Done (1, r :: others) ->
         minInliers <= inlier_count r).
Proof.
  split.
  - intros planes (cloud & rest & _ & H)%findPlanesRansac_inv.
    apply estimate_app_inv in H as [-> | (r & -> & Hr)]; repeat constructor; assumption.
  - intros r others (cloud & rest & _ & H)%detect_walls_ransac_inv.
    apply estimate_android_inv in H
      as [(_ & _ & old & others' & r' & _ & E & Hr) | (E & _)]; [|discriminate].
    now injection E as -> _.
Qed.

(** C7, the failing input. The cross product of the sample has the
    components 0 and 2 ^ 71 (up to sign); the square 2 ^ 142 overflows, the
    magnitude is +infinity, which passes the degeneracy test of either
    function, and the division by it turns the normal into (0, 0, 0). Every
    point is then at distance 0 and the null normal is emitted with all three
    points as inliers. *)
Theorem overflow_emits_null_normal :
  findPlanesRansac steep_grid 3 1 f32_tiny F32.one F32.zero F32.one f32_0_05 3 1
    [0; 1; 2]%nat
  = Done [mkPlaneResult (S754_zero false) (S754_zero false) (S754_zero false)
            (S754_zero true) 3]
  /\ detect_walls_ransac steep_grid 3 1 f32_tiny F32.one F32.zero F32.one f32_0_05 3 1
       two_slots 2 [0; 1; 2]%nat
     = Done (1, [mkRansacPlaneResult (S754_zero false) (S754_zero false) (S754_zero true)
                   (S754_zero true) 3; old_result 8])
  /\ build_cloud_android steep_grid 3 1 f32_tiny F32.one F32.zero F32.one
     = Done [mkPoint3D F32.zero F32.one F32.one;
             mkPoint3D (S754_finite false 8388608 48) (F32.of_int 2) (F32.of_int 2);
             mkPoint3D (S754_finite false 8388608 50) (F32.of_int 4) (F32.of_int 4)]
  /\ (S754_finite false 8388608 48 * S754_finite false 8388608 48)%f32
     = S754_infinity false.
Proof. vm_compute. repeat split. Qed.

(** * Further properties of the code *)

(** ** Arithmetic on zeros and NaN *)

Lemma sub_self_zero_or_nan (x : float) : zero_or_nan (x - x)%f32.
Proof.
  destruct x as [s|s| |s m e]; try (destruct s; exact I); try exact I.
  unfold F32.sub, SFsub. cbv zeta.
  match goal with
  | |- zero_or_nan (binary_normalize _ _ ?t _ _) =>
      replace t with 0; [exact I | symmetry; apply Z.sub_diag]
  end.
Qed.

Lemma add_opp_zero_or_nan (x : float) : zero_or_nan (x + - x)%f32.
Proof.
  destruct x as [s|s| |s m e]; try (destruct s; exact I); try exact I.
  unfold F32.add, F32.opp, SFopp, SFadd. cbv zeta.
  match goal with
  | |- zero_or_nan (binary_normalize _ _ ?t _ _) =>
      replace t with 0; [exact I|]
  end.
  destruct s; unfold cond_Zopp, negb; symmetry;
    [apply Z.add_opp_diag_l | apply Z.add_opp_diag_r].
Qed.

Lemma mul_zero_or_nan_l (x y : float) : zero_or_nan x -> zero_or_nan (x * y)%f32.
Proof. destruct x, y; simpl; tauto. Qed.

Lemma mul_zero_or_nan_r (x y : float) : zero_or_nan y -> zero_or_nan (x * y)%f32.
Proof. destruct x, y; simpl; tauto. Qed.

Lemma sub_zero_or_nan (x y : float) :
  zero_or_nan x -> zero_or_nan y -> zero_or_nan (x - y)%f32.
Proof. destruct x as [[]|[]| |], y as [[]|[]| |]; simpl; tauto. Qed.

Lemma add_zero_or_nan (x y : float) :
  zero_or_nan x -> zero_or_nan y -> zero_or_nan (x + y)%f32.
Proof. destruct x as [[]|[]| |], y as [[]|[]| |]; simpl; tauto. Qed.

Lemma sqrt_zero_or_nan (x : float) : zero_or_nan x -> zero_or_nan (F32.sqrt x).
Proof. destruct x as [[]|[]| |]; simpl; tauto. Qed.

Lemma mul_comm (x y : float) : (x * y)%f32 = (y * x)%f32.
Proof.
  destruct x as [sx|sx| |sx mx ex], y as [sy|sy| |sy my ey]; simpl;
    try (now rewrite xorb_comm); try reflexivity.
  unfold F32.mul, SFmul. now rewrite xorb_comm, Pos.mul_comm, Z.add_comm.
Qed.

Lemma norm_zero_or_nan (a b c : float) :
  zero_or_nan a -> zero_or_nan b -> zero_or_nan c ->
  zero_or_nan (F32.sqrt (a * a + b * b + c * c)%f32).
Proof.
  intros Ha Hb Hc. apply sqrt_zero_or_nan.
  repeat apply add_zero_or_nan; now apply mul_zero_or_nan_l.
Qed.

(** A zero or a NaN is not greater than the bound 100 * FLT_EPSILON. *)
Lemma zero_or_nan_not_gt (x : float) :
  zero_or_nan x -> F32.gt x (F32.epsilon * F32.of_int 100)%f32 = false.
Proof. destruct x as [[]|[]| |]; simpl; try tauto; reflexivity. Qed.

(** ** Samples with a repeated point *)

Lemma calculatePlane_same_point (p q : Point3D) :
  calculatePlane p p q = nan_plane
  /\ calculatePlane p q p = nan_plane
  /\ calculatePlane q p p = nan_plane.
Proof.
  unfold calculatePlane, nan_plane. cbv zeta. cbn [p_x p_y p_z].
  split; [|split].
  - rewrite zero_or_nan_not_gt; [reflexivity|].
    apply norm_zero_or_nan; apply sub_zero_or_nan;
      apply mul_zero_or_nan_l, sub_self_zero_or_nan.
  - rewrite zero_or_nan_not_gt; [reflexivity|].
    apply norm_zero_or_nan; apply sub_zero_or_nan;
      apply mul_zero_or_nan_r, sub_self_zero_or_nan.
  - rewrite zero_or_nan_not_gt; [reflexivity|].
    apply norm_zero_or_nan.
    + rewrite (mul_comm (p_z p - p_z q)%f32). apply sub_self_zero_or_nan.
    + rewrite (mul_comm (p_x p - p_x q)%f32). apply sub_self_zero_or_nan.
    + rewrite (mul_comm (p_y p - p_y q)%f32). apply sub_self_zero_or_nan.
Qed.

(** X1. calculatePlane returns its failure value {NAN, NAN, NAN, NAN}
    whenever two of its three points are the same point, whatever their
    coordinates are (finite, infinite or NaN). *)
Theorem calculatePlane_repeated_point :
  forall p1 p2 p3 : Point3D,
    p1 = p2 \/ p1 = p3 \/ p2 = p3 ->
    calculatePlane p1 p2 p3 = nan_plane /\ F32.is_nan (pl_a (calculatePlane p1 p2 p3)) = true.
Proof.
  intros p1 p2 p3 Hrep.
  assert (E : calculatePlane p1 p2 p3 = nan_plane)
    by (destruct Hrep as [<- | [<- | <-]]; apply calculatePlane_same_point).
  rewrite E. split; reflexivity.
Qed.

Lemma filter_none {P : Type} (test : P -> bool) (l : list P) :
  (forall x, test x = false) -> filter test l = [].
Proof. intros H. induction l as [|x l IH]; simpl; [reflexivity|]. now rewrite H. Qed.

Lemma count_inliers_nan (cloud : list Point3D) (thr : float) :
  count_inliers_android cloud thr F32.nan F32.nan F32.nan F32.nan = 0.
Proof.
  unfold count_inliers_android. rewrite fold_count. rewrite filter_none; [reflexivity|].
  intros pt. reflexivity.
Qed.

(** X2. A round whose sample holds the same point twice never scores a
    plane in findPlanesRansac: it is given up as degenerate. In
    detect_walls_ransac it is given up as well, unless the coordinates
    overflow: then the magnitude is NaN, which passes the test
    [magnitude < 1e-6], and the round scores the plane {NaN, NaN, NaN, NaN}
    with no inlier. *)
Theorem repeated_point_round :
  forall (cloud : list Point3D) (thr : float) (i1 i2 i3 : nat) (p1 p2 p3 : Point3D),
    at_index cloud i1 = Done p1 ->
    at_index cloud i2 = Done p2 ->
    at_index cloud i3 = Done p3 ->
    p1 = p2 \/ p1 = p3 \/ p2 = p3 ->
    evaluate_app cloud thr (i1, i2, i3) = Done (Degenerate (i1, i2, i3))
    /\ (evaluate_android cloud thr (i1, i2, i3) = Done (Degenerate (i1, i2, i3))
        \/ evaluate_android cloud thr (i1, i2, i3)
           = Done (Scored (i1, i2, i3) nan_plane 0)).
Proof.
  intros cloud thr i1 i2 i3 p1 p2 p3 H1 H2 H3 Hrep. split.
  - unfold evaluate_app. rewrite H1, H2, H3. cbn [obind].
    replace (calculatePlane p1 p2 p3) with nan_plane; [reflexivity|].
    symmetry. destruct Hrep as [<- | [<- | <-]]; apply calculatePlane_same_point.
  - unfold evaluate_android. rewrite H1, H2, H3. cbn [obind]. cbv zeta.
    match goal with
    | |- context [F32.lt (F32.sqrt ?n) F32.lit_1e_6] =>
        assert (Hm : zero_or_nan (F32.sqrt n)); [|destruct (F32.sqrt n) as [s|s| |s m e]]
    end.
    + destruct Hrep as [<- | [<- | <-]].
      * apply norm_zero_or_nan; apply sub_zero_or_nan;
          apply mul_zero_or_nan_l, sub_self_zero_or_nan.
      * apply norm_zero_or_nan; apply sub_zero_or_nan;
          apply mul_zero_or_nan_r, sub_self_zero_or_nan.
      * apply norm_zero_or_nan.
        -- rewrite (mul_comm (p_z p2 - p_z p1)%f32). apply sub_self_zero_or_nan.
        -- rewrite (mul_comm (p_x p2 - p_x p1)%f32). apply sub_self_zero_or_nan.
        -- rewrite (mul_comm (p_y p2 - p_y p1)%f32). apply sub_self_zero_or_nan.
    + left. reflexivity.
    + destruct Hm.
    + right. cbn [F32.lt F32.compare SFcompare].
      replace (_ / S754_nan)%f32 with F32.nan by (now destruct (_ - _)%f32).
      replace (_ / S754_nan)%f32 with F32.nan by (now destruct (_ - _)%f32).
      replace (_ / S754_nan)%f32 with F32.nan by (now destruct (_ - _)%f32).
      cbn [F32.mul SFmul F32.add SFadd F32.opp SFopp F32.nan].
      now rewrite count_inliers_nan.
    + destruct Hm.
Qed.

Lemma calculatePlane_repeated_point_witness :
  (mkPoint3D F32.one F32.one F32.one = mkPoint3D F32.one F32.one F32.one
   \/ mkPoint3D F32.one F32.one F32.one = mkPoint3D F32.zero F32.one (F32.of_int 2)
   \/ mkPoint3D F32.one F32.one F32.one = mkPoint3D F32.zero F32.one (F32.of_int 2))
  /\ calculatePlane (mkPoint3D F32.one F32.one F32.one) (mkPoint3D F32.one F32.one F32.one)
       (mkPoint3D F32.zero F32.one (F32.of_int 2)) = nan_plane.
Proof.
  split; [left; reflexivity|].
  exact (proj1 (@calculatePlane_repeated_point (mkPoint3D F32.one F32.one F32.one)
                  (mkPoint3D F32.one F32.one F32.one)
                  (mkPoint3D F32.zero F32.one (F32.of_int 2)) (or_introl eq_refl))).
Defined.

Lemma repeated_point_round_witness :
  at_index twin_cloud 0 = Done (mkPoint3D F32.one F32.one F32.one)
  /\ at_index twin_cloud 1 = Done (mkPoint3D F32.one F32.one F32.one)
  /\ at_index twin_cloud 2 = Done (mkPoint3D F32.zero F32.one (F32.of_int 2))
  /\ evaluate_app twin_cloud f32_0_05 (0, 1, 2)%nat = Done (Degenerate (0, 1, 2)%nat).
Proof.
  repeat (split; [reflexivity|]).
  exact (proj1 (@repeated_point_round twin_cloud f32_0_05 0 1 2 _ _ _
                  eq_refl eq_refl eq_refl (or_introl eq_refl))).
Defined.

(** ** The first point of a sample *)

Lemma abs_zero_or_nan (x : float) : zero_or_nan x -> zero_or_nan (F32.abs x).
Proof. destruct x; simpl; tauto. Qed.

(** X3. The candidate plane passes through the first point of its sample:
    in the arithmetic of the code the distance of that point to the plane
    computed by calculatePlane is exactly zero, or NaN when the plane is
    the failure value or the products overflow. The same holds for every
    plane scored by a round of either function. *)
Theorem first_point_on_plane :
  forall (p1 p2 p3 : Point3D),
    zero_or_nan (pointPlaneDistance p1 (calculatePlane p1 p2 p3))
    /\ forall (cloud : list Point3D) (thr : float) (i1 i2 i3 : nat) (t : triple)
              (pl : Plane) (n : Z),
        at_index cloud i1 = Done p1 ->
        evaluate_app cloud thr (i1, i2, i3) = Done (Scored t pl n)
        \/ evaluate_android cloud thr (i1, i2, i3) = Done (Scored t pl n) ->
        zero_or_nan (pointPlaneDistance p1 pl).
Proof.
  intros p1 p2 p3.
  assert (Hcalc : forall q2 q3, zero_or_nan (pointPlaneDistance p1 (calculatePlane p1 q2 q3))).
  { intros q2 q3. unfold calculatePlane. cbv zeta.
    destruct (F32.gt _ _); unfold pointPlaneDistance; cbn [pl_a pl_b pl_c pl_d].
    - apply abs_zero_or_nan, add_opp_zero_or_nan.
    - exact I. }
  split; [apply Hcalc|].
  intros cloud thr i1 i2 i3 t pl n H1 [H|H].
  - unfold evaluate_app in H. rewrite H1 in H. cbn [obind] in H.
    destruct (at_index cloud i2) as [q2| | |]; try discriminate.
    destruct (at_index cloud i3) as [q3| | |]; try discriminate.
    cbn [obind] in H. destruct (F32.is_nan _); [discriminate|].
    injection H as _ <- _. apply Hcalc.
  - unfold evaluate_android in H. rewrite H1 in H. cbn [obind] in H.
    destruct (at_index cloud i2) as [q2| | |]; try discriminate.
    destruct (at_index cloud i3) as [q3| | |]; try discriminate.
    cbn [obind] in H. cbv zeta in H. destruct (F32.lt _ F32.lit_1e_6); [discriminate|].
    injection H as _ <- _. unfold pointPlaneDistance. cbn [pl_a pl_b pl_c pl_d].
    apply abs_zero_or_nan, add_opp_zero_or_nan.
Qed.

Lemma first_point_on_plane_witness :
  at_index flat_cloud 0 = Done (mkPoint3D (- F32.one)%f32 (- F32.one)%f32 (F32.of_int 2))
  /\ evaluate_app flat_cloud f32_0_05 (0, 1, 2)%nat
     = Done (Scored (0, 1, 2)%nat (mkPlane F32.zero F32.zero F32.one (- (F32.of_int 2))%f32) 4)
  /\ zero_or_nan (pointPlaneDistance
                    (mkPoint3D (- F32.one)%f32 (- F32.one)%f32 (F32.of_int 2))
                    (mkPlane F32.zero F32.zero F32.one (- (F32.of_int 2))%f32)).
Proof.
  assert (H : evaluate_app flat_cloud f32_0_05 (0, 1, 2)%nat
              = Done (Scored (0, 1, 2)%nat
                        (mkPlane F32.zero F32.zero F32.one (- (F32.of_int 2))%f32) 4))
    by (vm_compute; reflexivity).
  split; [reflexivity|]. split; [exact H|].
  exact (proj2 (@first_point_on_plane _ (mkPoint3D F32.one F32.one F32.one)
                  (mkPoint3D F32.one F32.one F32.one))
           flat_cloud f32_0_05 0%nat 1%nat 2%nat _ _ _ eq_refl (or_introl H)).
Defined.

(** ** Thresholds that are not positive *)

Lemma lt_abs_not_positive (x thr : float) :
  not_positive thr -> F32.lt (F32.abs x) thr = false.
Proof.
  destruct thr as [s|[]| |[] m e]; simpl; try tauto; intros _;
    destruct x as [sx|sx| |sx mx ex]; try reflexivity.
  unfold F32.lt, F32.abs, SFabs, F32.compare.
  assert (Px : 0 < 2 ^ (ex - Z.min ex e)) by (apply Z.pow_pos_nonneg; lia).
  assert (Pe : 0 < 2 ^ (e - Z.min ex e)) by (apply Z.pow_pos_nonneg; lia).
  assert (Qx : 0 < Zpos mx * 2 ^ (ex - Z.min ex e)) by (apply Z.mul_pos_pos; lia).
  assert (Qe : 0 < Zpos m * 2 ^ (e - Z.min ex e)) by (apply Z.mul_pos_pos; lia).
  unfold cond_Zopp. rewrite Z.mul_opp_l.
  destruct (Z.compare_spec (Zpos mx * 2 ^ (ex - Z.min ex e))
              (- (Zpos m * 2 ^ (e - Z.min ex e)))); try reflexivity; lia.
Qed.

Lemma count_inliers_not_positive (cloud : list Point3D) (thr : float) (pl : Plane) :
  not_positive thr -> count_inliers_app cloud thr pl = 0.
Proof.
  intros H. unfold count_inliers_app. rewrite fold_count, filter_none; [reflexivity|].
  intros p. now apply lt_abs_not_positive.
Qed.

(** ** The size of the cloud *)

Lemma for_loop_length {P : Type} (body : Z -> list P -> outcome (list P)) (k : nat) :
  (forall j s s', body j s = Done s' -> (length s' <= length s + k)%nat) ->
  forall (n : nat) (i : Z) (s s' : list P),
    for_loop n i body s = Done s' -> (length s' <= length s + n * k)%nat.
Proof.
  intros Hbody. induction n as [|n IH]; intros i s s'; simpl.
  - intros [= <-]. lia.
  - destruct (body i s) as [s1| | |] eqn:E; try discriminate. cbn [obind].
    intros H. apply IH in H. apply Hbody in E. lia.
Qed.

Lemma cloud_cell_app_length (grid : list float) (width : Z) (fx fy cx cy : float)
  (v u : Z) (s s' : list Point3D) :
  cloud_cell_app grid width fx fy cx cy v u s = Done s' ->
  (length s' <= length s + 1)%nat.
Proof.
  unfold cloud_cell_app. destruct (read grid _); try discriminate. cbn [obind].
  destruct (F32.lt _ _); [intros [= <-]; lia|].
  destruct (F32.gt _ _); intros [= <-]; [lia|]. rewrite length_app. simpl. lia.
Qed.

Lemma cloud_cell_android_length (grid : list float) (width : Z) (fx fy cx cy : float)
  (v u : Z) (s s' : list Point3D) :
  cloud_cell_android grid width fx fy cx cy v u s = Done s' ->
  (length s' <= length s + 1)%nat.
Proof.
  unfold cloud_cell_android. destruct (read grid _); try discriminate. cbn [obind].
  destruct (F32.gt _ _); intros [= <-]; [|lia]. rewrite length_app. simpl. lia.
Qed.

Lemma build_cloud_app_length (grid : list float) (width height : Z) (fx fy cx cy : float)
  (cloud : list Point3D) :
  build_cloud_app grid width height fx fy cx cy = Done cloud ->
  (length cloud <= Z.to_nat height * Z.to_nat width)%nat.
Proof.
  unfold build_cloud_app, for_int. intros H.
  apply (@for_loop_length _ _ (Z.to_nat width * 1)%nat) in H; [simpl in H; lia|].
  intros v s s' Hrow. eapply for_loop_length; [|exact Hrow].
  intros u s0 s0'. apply cloud_cell_app_length.
Qed.

Lemma build_cloud_android_length (grid : list float) (width height : Z)
  (fx fy cx cy : float) (cloud : list Point3D) :
  build_cloud_android grid width height fx fy cx cy = Done cloud ->
  (length cloud <= Z.to_nat height * Z.to_nat width)%nat.
Proof.
  unfold build_cloud_android, for_int. intros H.
  apply (@for_loop_length _ _ (Z.to_nat width * 1)%nat) in H; [simpl in H; lia|].
  intros v s s' Hrow. eapply for_loop_length; [|exact Hrow].
  intros u s0 s0'. apply cloud_cell_android_length.
Qed.

(** X4. Whatever the buffer holds, a point cloud that is built has at most
    one point per cell of the grid: at most width * height points, and none
    when width <= 0 or height <= 0. *)
Theorem cloud_size_bound :
  forall (grid : list float) (width height : Z) (fx fy cx cy : float)
         (cloud : list Point3D),
    build_cloud_app grid width height fx fy cx cy = Done cloud
    \/ build_cloud_android grid width height fx fy cx cy = Done cloud ->
    (length cloud <= Z.to_nat height * Z.to_nat width)%nat
    /\ Z.of_nat (length cloud) <= Z.max 0 width * Z.max 0 height
    /\ (width <= 0 \/ height <= 0 -> cloud = []).
Proof.
  intros grid width height fx fy cx cy cloud H.
  assert (Hlen : (length cloud <= Z.to_nat height * Z.to_nat width)%nat)
    by (destruct H as [H|H];
        [eapply build_cloud_app_length | eapply build_cloud_android_length]; exact H).
  split; [exact Hlen|]. split.
  - apply Nat2Z.inj_le in Hlen. rewrite Nat2Z.inj_mul, !ZifyInst.of_nat_to_nat_eq in Hlen.
    rewrite Z.mul_comm. exact Hlen.
  - intros Hd. destruct cloud; [reflexivity|]. simpl in Hlen.
    destruct Hd; [replace (Z.to_nat width) with 0%nat in Hlen by lia
                 | replace (Z.to_nat height) with 0%nat in Hlen by lia]; lia.
Qed.

Lemma cloud_size_bound_witness :
  (build_cloud_app flat_grid 2 2 (F32.of_int 4) (F32.of_int 4) (F32.of_int 2) (F32.of_int 2)
   = Done flat_cloud
   \/ build_cloud_android flat_grid 2 2 (F32.of_int 4) (F32.of_int 4) (F32.of_int 2)
        (F32.of_int 2) = Done flat_cloud)
  /\ (length flat_cloud <= Z.to_nat 2 * Z.to_nat 2)%nat.
Proof.
  assert (H : build_cloud_app flat_grid 2 2 (F32.of_int 4) (F32.of_int 4) (F32.of_int 2)
                (F32.of_int 2) = Done flat_cloud) by (vm_compute; reflexivity).
  split; [left; exact H|].
  exact (proj1 (@cloud_size_bound flat_grid 2 2 (F32.of_int 4) (F32.of_int 4) (F32.of_int 2)
                  (F32.of_int 2) flat_cloud (or_introl H))).
Defined.

(** ** Where an emitted plane comes from *)

Lemma count_inliers_le_size (cloud : list Point3D) (thr : float) (pl : Plane) :
  count_inliers_app cloud thr pl <= Z.of_nat (length cloud).
Proof.
  unfold count_inliers_app. rewrite fold_count.
  pose proof (filter_length_le
                (fun p => F32.lt (pointPlaneDistance p pl) thr) cloud). lia.
Qed.

Lemma evaluate_app_sound (cloud : list Point3D) (thr : float) (t : triple) (it : iteration) :
  distinct t -> evaluate_app cloud thr t = Done it ->
  sound_round (evaluate_app cloud thr) cloud it.
Proof.
  intros Hd H. assert (H' := H). revert H.
  destruct t as [[i1 i2] i3]. unfold evaluate_app at 1, obind.
  destruct (at_index cloud i1); try discriminate.
  destruct (at_index cloud i2); try discriminate.
  destruct (at_index cloud i3); try discriminate.
  destruct (F32.is_nan _); intros [= <-]; simpl; [exact I|].
  split; [exact H'|]. split; [exact Hd|].
  split; [apply count_inliers_nonneg | apply count_inliers_le_size].
Qed.

Lemma evaluate_android_sound (cloud : list Point3D) (thr : float) (t : triple)
  (it : iteration) :
  distinct t -> evaluate_android cloud thr t = Done it ->
  sound_round (evaluate_android cloud thr) cloud it.
Proof.
  intros Hd H. assert (H' := H). revert H.
  destruct t as [[i1 i2] i3]. unfold evaluate_android at 1, obind.
  destruct (at_index cloud i1); try discriminate.
  destruct (at_index cloud i2); try discriminate.
  destruct (at_index cloud i3); try discriminate.
  destruct (F32.lt _ F32.lit_1e_6); intros [= <-]; simpl; [exact I|].
  split; [exact H'|]. split; [exact Hd|].
  match goal with |- 0 <= count_inliers_android _ _ ?A ?B ?C ?D <= _ =>
    split; [apply (count_inliers_nonneg cloud thr (mkPlane A B C D))
           | apply (count_inliers_le_size cloud thr (mkPlane A B C D))] end.
Qed.

Lemma iteration_app_sound (cloud : list Point3D) (thr : float) (ds rest : list nat)
  (it : iteration) :
  iteration_app cloud thr ds = Done (it, rest) ->
  sound_round (evaluate_app cloud thr) cloud it.
Proof.
  unfold iteration_app, bind, obind.
  destruct (sample_app ds) as [[[t|] r1]| | |] eqn:E; try discriminate; simpl.
  - unfold lift, obind. destruct (evaluate_app cloud thr t) as [it'| | |] eqn:Ev;
      try discriminate.
    intros [= <- _]. eapply evaluate_app_sound; [|exact Ev].
    eapply sample_app_distinct, E.
  - unfold ret. intros [= <- _]. exact I.
Qed.

Lemma iteration_android_sound (cloud : list Point3D) (thr : float) (ds rest : list nat)
  (it : iteration) :
  iteration_android cloud thr ds = Done (it, rest) ->
  sound_round (evaluate_android cloud thr) cloud it.
Proof.
  unfold iteration_android, bind, obind.
  destruct (sample_android ds) as [[t r1]| | |] eqn:E; try discriminate; simpl.
  unfold lift, obind. destruct (evaluate_android cloud thr t) as [it'| | |] eqn:Ev;
    try discriminate.
  intros [= <- _]. eapply evaluate_android_sound; [|exact Ev].
  eapply sample_android_distinct, E.
Qed.

(** The model retained after the rounds of a run is the initial one or the
    plane of a scored round of the run. *)
Lemma best_of_trace (round : M iteration) (evaluate : triple -> outcome iteration)
  (cloud : list Point3D) (n : nat) (ds rest : list nat) (its : list iteration) :
  (forall ds0 it rest0, round ds0 = Done (it, rest0) -> sound_round evaluate cloud it) ->
  ransac_trace n round ds = Done (its, rest) ->
  fold_left update its no_plane = no_plane
  \/ ((0 < n)%nat
      /\ exists t, sound_round evaluate cloud
                     (Scored t (fst (fold_left update its no_plane))
                               (snd (fold_left update its no_plane)))).
Proof.
  intros Hround Htr.
  assert (Hall : Forall (sound_round evaluate cloud) its)
    by (eapply ransac_trace_Forall; [exact Hround | exact Htr]).
  assert (Hlen : length its = n) by (eapply ransac_trace_length; exact Htr).
  destruct (fold_update_first_max its no_plane)
    as [[E _]|(pre & t & post & E & _ & _ & _)]; [now left|].
  right. split.
  - rewrite <- Hlen, E, length_app. simpl. lia.
  - exists t. rewrite E in Hall at 1. apply Forall_elt in Hall. exact Hall.
Qed.

Lemma estimate_app_trace_inv (cloud : list Point3D) (thr : float)
  (minInliers maxIterations : Z) (planes : list PlaneResult) (ds rest : list nat) :
  estimate_app cloud thr minInliers maxIterations ds = Done (planes, rest) ->
  planes = []
  \/ (~ too_few cloud minInliers
      /\ exists its,
           ransac_trace (Z.to_nat maxIterations) (iteration_app cloud thr) ds
           = Done (its, rest)
           /\ planes = [plane_result (fold_left update its no_plane)]
           /\ minInliers <= snd (fold_left update its no_plane)).
Proof.
  intros H. destruct (too_few_dec cloud minInliers) as [(Hf & _)|(Hn & Eb & _)].
  - rewrite estimate_app_early in H by assumption. injection H as <- _. now left.
  - destruct (ransac_trace (Z.to_nat maxIterations) (iteration_app cloud thr) ds)
      as [[its rest']| | |] eqn:E.
    + rewrite (@estimate_app_late _ _ _ _ _ _ _ Hn E) in H.
      destruct (Z.geb_spec (snd (fold_left update its no_plane)) minInliers).
      * injection H as <- <-. right. split; [exact Hn|]. exists its. repeat split. lia.
      * injection H as <- _. now left.
    + unfold estimate_app in H. rewrite Eb in H. unfold bind in H.
      rewrite ransac_loop_trace, E in H. discriminate.
    + unfold estimate_app in H. rewrite Eb in H. unfold bind in H.
      rewrite ransac_loop_trace, E in H. discriminate.
    + unfold estimate_app in H. rewrite Eb in H. unfold bind in H.
      rewrite ransac_loop_trace, E in H. discriminate.
Qed.

Lemma estimate_android_trace_inv (cloud : list Point3D) (thr : float)
  (min_inliers max_iterations : Z) (buffer buffer' : list RansacPlaneResult)
  (max_planes k : Z) (ds rest : list nat) :
  estimate_android cloud thr min_inliers max_iterations buffer max_planes ds
  = Done ((k, buffer'), rest) ->
  (k = 0 /\ buffer' = buffer)
  \/ (k = 1 /\ ~ too_few cloud min_inliers /\ 1 <= max_planes
      /\ exists its old others,
           ransac_trace (Z.to_nat max_iterations) (iteration_android cloud thr) ds
           = Done (its, rest)
           /\ buffer = old :: others
           /\ buffer' = ransac_plane_result (fold_left update its no_plane) :: others
           /\ min_inliers <= snd (fold_left update its no_plane)).
Proof.
  intros H. destruct (too_few_dec cloud min_inliers) as [(Hf & _)|(Hn & _ & Eb)].
  - rewrite estimate_android_early in H by assumption. injection H as <- <- _. now left.
  - destruct (ransac_trace (Z.to_nat max_iterations) (iteration_android cloud thr) ds)
      as [[its rest']| | |] eqn:E.
    + rewrite (@estimate_android_late _ _ _ _ buffer max_planes _ _ _ Hn E) in H.
      destruct (Z.geb_spec (snd (fold_left update its no_plane)) min_inliers);
        destruct (Z.geb_spec max_planes 1); cbn [andb] in H;
        try (injection H as <- <- _; now left).
      destruct buffer as [|old others]; [discriminate|]. cbn [write_first obind] in H.
      injection H as <- <- <-. right. repeat split; try assumption; try lia.
      exists its, old, others. repeat split. lia.
    + unfold estimate_android in H. rewrite Eb in H. unfold bind in H.
      rewrite ransac_loop_trace, E in H. discriminate.
    + unfold estimate_android in H. rewrite Eb in H. unfold bind in H.
      rewrite ransac_loop_trace, E in H. discriminate.
    + unfold estimate_android in H. rewrite Eb in H. unfold bind in H.
      rewrite ransac_loop_trace, E in H. discriminate.
Qed.

Lemma evaluate_count (cloud : list Point3D) (thr : float) (t t' : triple) (pl : Plane)
  (n : Z) :
  evaluate_app cloud thr t = Done (Scored t' pl n)
  \/ evaluate_android cloud thr t = Done (Scored t' pl n) ->
  n = count_inliers_app cloud thr pl.
Proof.
  destruct t as [[i1 i2] i3]. intros [H|H].
  - unfold evaluate_app, obind in H.
    destruct (at_index cloud i1); try discriminate.
    destruct (at_index cloud i2); try discriminate.
    destruct (at_index cloud i3); try discriminate.
    destruct (F32.is_nan _); [discriminate|]. now injection H as _ <- <-.
  - unfold evaluate_android, obind in H.
    destruct (at_index cloud i1); try discriminate.
    destruct (at_index cloud i2); try discriminate.
    destruct (at_index cloud i3); try discriminate.
    destruct (F32.lt _ F32.lit_1e_6); [discriminate|]. now injection H as _ <- <-.
Qed.

(** With [int] dimensions and an [int] threshold of inliers, a cloud that
    passes the size check leaves no room for a negative threshold. *)
Lemma int_threshold_nonneg (cloud : list Point3D) (width height minInliers : Z) :
  is_int width -> is_int height -> is_int minInliers ->
  (length cloud <= Z.to_nat height * Z.to_nat width)%nat ->
  ~ too_few cloud minInliers -> 0 <= minInliers /\ 3 <= Z.of_nat (length cloud).
Proof.
  unfold is_int, too_few, size_t_of_int. intros Hw Hh Hm Hlen Hn.
  assert (H31 : 2 ^ 31 = 2147483648) by reflexivity.
  assert (H64 : 2 ^ 64 = 18446744073709551616) by reflexivity.
  rewrite H31 in *. rewrite H64 in *.
  assert (Hc : Z.of_nat (length cloud) <= 2147483648 * 2147483648).
  { apply Nat2Z.inj_le in Hlen. rewrite Nat2Z.inj_mul, !ZifyInst.of_nat_to_nat_eq in Hlen.
    eapply Z.le_trans; [exact Hlen|]. apply Z.mul_le_mono_nonneg; lia. }
  split; [|lia].
  destruct (Z.lt_ge_cases minInliers 0) as [Hneg|]; [|assumption].
  exfalso. apply Hn. right.
  replace (minInliers mod 18446744073709551616) with (minInliers + 18446744073709551616);
    [lia|].
  apply Z.mod_unique with (q := -1); lia.
Qed.

(** X5. Under the ranges of the [int] arguments, a plane returned by
    findPlanesRansac is never the initial placeholder {0, 0, 0, 0} with
    count -1: it is the plane that steps b and c compute for a sample of
    three different indices of the cloud, and its count lies between
    max(0, minInliers) and the size of the cloud. A plane can only be
    returned when maxIterations > 0 and the cloud has at least 3 points. *)
Theorem findPlanesRansac_emits_scored_sample :
  forall (grid : list float) (width height : Z) (fx fy cx cy thr : float)
         (minInliers maxIterations : Z) (draws : list nat) (planes : list PlaneResult),
    is_int width -> is_int height -> is_int minInliers ->
    findPlanesRansac grid width height fx fy cx cy thr minInliers maxIterations draws
    = Done planes ->
    planes = []
    \/ exists cloud t pl n,
         build_cloud_app grid width height fx fy cx cy = Done cloud
         /\ distinct t
         /\ evaluate_app cloud thr t = Done (Scored t pl n)
         /\ planes = [mkPlaneResult (pl_a pl) (pl_b pl) (pl_c pl) (pl_d pl) n]
         /\ 0 <= n /\ minInliers <= n <= Z.of_nat (length cloud)
         /\ 3 <= Z.of_nat (length cloud) /\ 0 < maxIterations.
Proof.
  intros grid width height fx fy cx cy thr minInliers maxIterations draws planes
         Hw Hh Hm H.
  apply findPlanesRansac_inv in H as (cloud & rest & Hb & H).
  apply estimate_app_trace_inv in H as [-> | (Hn & its & Htr & -> & Hmin)]; [now left|].
  right.
  destruct (@int_threshold_nonneg cloud width height minInliers Hw Hh Hm
              (build_cloud_app_length _ _ _ _ _ _ _ Hb) Hn) as [Hm0 H3].
  destruct (@best_of_trace _ (evaluate_app cloud thr) cloud _ _ _ _
              (fun ds0 it rest0 => @iteration_app_sound cloud thr ds0 rest0 it) Htr) as [E|(Hpos & t & Hs & Hd & Hr)].
  - rewrite E in Hmin. simpl in Hmin. lia.
  - exists cloud, t, (fst (fold_left update its no_plane)),
      (snd (fold_left update its no_plane)).
    repeat split; try assumption; try lia.
Qed.

Lemma findPlanesRansac_emits_scored_sample_witness :
  is_int 2 /\ is_int 3
  /\ findPlanesRansac flat_grid 2 2 (F32.of_int 4) (F32.of_int 4) (F32.of_int 2)
       (F32.of_int 2) f32_0_05 3 1 [0; 1; 2]%nat
     = Done [mkPlaneResult F32.zero F32.zero F32.one (- (F32.of_int 2))%f32 4]
  /\ ([mkPlaneResult F32.zero F32.zero F32.one (- (F32.of_int 2))%f32 4] = []
      \/ exists cloud t pl n,
           build_cloud_app flat_grid 2 2 (F32.of_int 4) (F32.of_int 4) (F32.of_int 2)
             (F32.of_int 2) = Done cloud
           /\ distinct t
           /\ evaluate_app cloud f32_0_05 t = Done (Scored t pl n)
           /\ [mkPlaneResult F32.zero F32.zero F32.one (- (F32.of_int 2))%f32 4]
              = [mkPlaneResult (pl_a pl) (pl_b pl) (pl_c pl) (pl_d pl) n]
           /\ 0 <= n /\ 3 <= n <= Z.of_nat (length cloud)
           /\ 3 <= Z.of_nat (length cloud) /\ 0 < 1).
Proof.
  assert (H2 : is_int 2) by (unfold is_int; simpl; lia).
  assert (H3 : is_int 3) by (unfold is_int; simpl; lia).
  assert (H : findPlanesRansac flat_grid 2 2 (F32.of_int 4) (F32.of_int 4) (F32.of_int 2)
                (F32.of_int 2) f32_0_05 3 1 [0; 1; 2]%nat
              = Done [mkPlaneResult F32.zero F32.zero F32.one (- (F32.of_int 2))%f32 4])
    by (vm_compute; reflexivity).
  split; [exact H2|]. split; [exact H3|]. split; [exact H|].
  exact (@findPlanesRansac_emits_scored_sample flat_grid 2 2 (F32.of_int 4) (F32.of_int 4)
           (F32.of_int 2) (F32.of_int 2) f32_0_05 3 1 [0; 1; 2]%nat _ H2 H2 H3 H).
Defined.

(** X6. The same for detect_walls_ransac: when it returns 1, the record
    written to out_planes_buffer[0] holds the plane its steps 2b and 2c
    compute for a sample of three different indices of the cloud, never the
    initial values, with a count between max(0, min_inliers) and the size of
    the cloud; this needs max_iterations > 0, max_planes >= 1 and a cloud of
    at least 3 points. *)
Theorem detect_walls_ransac_emits_scored_sample :
  forall (grid : list float) (width height : Z) (fx fy cx cy thr : float)
         (min_inliers max_iterations : Z) (buffer : list RansacPlaneResult)
         (max_planes : Z) (draws : list nat) (k : Z) (buffer' : list RansacPlaneResult),
    is_int width -> is_int height -> is_int min_inliers ->
    detect_walls_ransac grid width height fx fy cx cy thr min_inliers max_iterations
      buffer max_planes draws = Done (k, buffer') ->
    (k = 0 /\ buffer' = buffer)
    \/ (k = 1
        /\ exists cloud t pl n old others,
             build_cloud_android grid width height fx fy cx cy = Done cloud
             /\ distinct t
             /\ evaluate_android cloud thr t = Done (Scored t pl n)
             /\ buffer = old :: others
             /\ buffer' = mkRansacPlaneResult (pl_a pl) (pl_b pl) (pl_c pl) (pl_d pl) n
                          :: others
             /\ 0 <= n /\ min_inliers <= n <= Z.of_nat (length cloud)
             /\ 3 <= Z.of_nat (length cloud) /\ 0 < max_iterations /\ 1 <= max_planes).
Proof.
  intros grid width height fx fy cx cy thr min_inliers max_iterations buffer max_planes
         draws k buffer' Hw Hh Hm H.
  apply detect_walls_ransac_inv in H as (cloud & rest & Hb & H).
  apply estimate_android_trace_inv in H
    as [(-> & ->) | (-> & Hn & Hmax & its & old & others & Htr & -> & -> & Hmin)];
    [now left|].
  right. split; [reflexivity|].
  destruct (@int_threshold_nonneg cloud width height min_inliers Hw Hh Hm
              (build_cloud_android_length _ _ _ _ _ _ _ Hb) Hn) as [Hm0 H3].
  destruct (@best_of_trace _ (evaluate_android cloud thr) cloud _ _ _ _
              (fun ds0 it rest0 => @iteration_android_sound cloud thr ds0 rest0 it) Htr) as [E|(Hpos & t & Hs & Hd & Hr)].
  - rewrite E in Hmin. simpl in Hmin. lia.
  - exists cloud, t, (fst (fold_left update its no_plane)),
      (snd (fold_left update its no_plane)), old, others.
    repeat split; try assumption; try lia.
Qed.

Lemma detect_walls_ransac_emits_scored_sample_witness :
  is_int 2 /\ is_int 3
  /\ detect_walls_ransac flat_grid 2 2 (F32.of_int 4) (F32.of_int 4) (F32.of_int 2)
       (F32.of_int 2) f32_0_05 3 1 two_slots 2 [0; 1; 2]%nat
     = Done (1, [mkRansacPlaneResult F32.zero F32.zero (- F32.one)%f32 (F32.of_int 2) 4;
                 old_result 8])
  /\ ((1 = 0 /\ [mkRansacPlaneResult F32.zero F32.zero (- F32.one)%f32 (F32.of_int 2) 4;
                 old_result 8] = two_slots)
      \/ (1 = 1
          /\ exists cloud t pl n old others,
               build_cloud_android flat_grid 2 2 (F32.of_int 4) (F32.of_int 4)
                 (F32.of_int 2) (F32.of_int 2) = Done cloud
               /\ distinct t
               /\ evaluate_android cloud f32_0_05 t = Done (Scored t pl n)
               /\ two_slots = old :: others
               /\ [mkRansacPlaneResult F32.zero F32.zero (- F32.one)%f32 (F32.of_int 2) 4;
                   old_result 8]
                  = mkRansacPlaneResult (pl_a pl) (pl_b pl) (pl_c pl) (pl_d pl) n :: others
               /\ 0 <= n /\ 3 <= n <= Z.of_nat (length cloud)
               /\ 3 <= Z.of_nat (length cloud) /\ 0 < 1 /\ 1 <= 2)).
Proof.
  assert (H2 : is_int 2) by (unfold is_int; simpl; lia).
  assert (H3 : is_int 3) by (unfold is_int; simpl; lia).
  assert (H : detect_walls_ransac flat_grid 2 2 (F32.of_int 4) (F32.of_int 4) (F32.of_int 2)
                (F32.of_int 2) f32_0_05 3 1 two_slots 2 [0; 1; 2]%nat
              = Done (1, [mkRansacPlaneResult F32.zero F32.zero (- F32.one)%f32
                            (F32.of_int 2) 4; old_result 8]))
    by (vm_compute; reflexivity).
  split; [exact H2|]. split; [exact H3|]. split; [exact H|].
  exact (@detect_walls_ransac_emits_scored_sample flat_grid 2 2 (F32.of_int 4)
           (F32.of_int 4) (F32.of_int 2) (F32.of_int 2) f32_0_05 3 1 two_slots 2
           [0; 1; 2]%nat _ _ H2 H2 H3 H).
Defined.

(** ** Edge cases of the threshold and of the grid *)

(** X7. With a distance threshold that is zero, negative or NaN no point is
    ever an inlier (the distance is an absolute value): every count is 0, so
    with minInliers >= 1 neither function ever returns a plane, and
    detect_walls_ransac leaves the buffer untouched. *)
Theorem no_plane_without_positive_threshold :
  forall (grid : list float) (width height : Z) (fx fy cx cy thr : float)
         (minInliers maxIterations : Z) (buffer : list RansacPlaneResult) (max_planes : Z)
         (draws : list nat),
    not_positive thr ->
    (forall cloud pl, count_inliers_app cloud thr pl = 0)
    /\ (1 <= minInliers ->
        (forall planes,
            findPlanesRansac grid width height fx fy cx cy thr minInliers maxIterations
              draws = Done planes -> planes = [])
        /\ (forall k buffer',
               detect_walls_ransac grid width height fx fy cx cy thr minInliers
                 maxIterations buffer max_planes draws = Done (k, buffer') ->
               k = 0 /\ buffer' = buffer)).
Proof.
  intros grid width height fx fy cx cy thr minInliers maxIterations buffer max_planes
         draws Hthr.
  split; [intros cloud pl; now apply count_inliers_not_positive|].
  intros Hmin. split.
  - intros planes H. apply findPlanesRansac_inv in H as (cloud & rest & _ & H).
    apply estimate_app_trace_inv in H as [-> | (_ & its & Htr & _ & Hle)]; [reflexivity|].
    exfalso.
    destruct (@best_of_trace _ (evaluate_app cloud thr) cloud _ _ _ _
                (fun ds0 it rest0 => @iteration_app_sound cloud thr ds0 rest0 it) Htr)
      as [E|(_ & t & Hs & _)].
    + rewrite E in Hle. simpl in Hle. lia.
    + apply (fun H => @evaluate_count cloud thr t t _ _ (or_introl H)) in Hs.
      rewrite count_inliers_not_positive in Hs by assumption. lia.
  - intros k buffer' H. apply detect_walls_ransac_inv in H as (cloud & rest & _ & H).
    apply estimate_android_trace_inv in H
      as [(-> & ->) | (_ & _ & _ & its & old & others & Htr & _ & _ & Hle)]; [now split|].
    exfalso.
    destruct (@best_of_trace _ (evaluate_android cloud thr) cloud _ _ _ _
                (fun ds0 it rest0 => @iteration_android_sound cloud thr ds0 rest0 it) Htr)
      as [E|(_ & t & Hs & _)].
    + rewrite E in Hle. simpl in Hle. lia.
    + apply (fun H => @evaluate_count cloud thr t t _ _ (or_intror H)) in Hs.
      rewrite count_inliers_not_positive in Hs by assumption. lia.
Qed.

Lemma no_plane_without_positive_threshold_witness :
  not_positive F32.zero
  /\ (1 <= 1 ->
      forall planes,
        findPlanesRansac flat_grid 2 2 (F32.of_int 4) (F32.of_int 4) (F32.of_int 2)
          (F32.of_int 2) F32.zero 1 1 [0; 1; 2]%nat = Done planes -> planes = []).
Proof.
  split; [exact I|].
  intros H1.
  exact (proj1 (proj2 (@no_plane_without_positive_threshold flat_grid 2 2 (F32.of_int 4)
                         (F32.of_int 4) (F32.of_int 2) (F32.of_int 2) F32.zero 1 1
                         two_slots 2 [0; 1; 2]%nat I) H1)).
Defined.

Lemma int_of_id (n : Z) : - 2 ^ 31 <= n < 2 ^ 31 -> int_of n = n.
Proof.
  intros H. unfold int_of.
  assert (H31 : 2 ^ 31 = 2147483648) by reflexivity.
  assert (H32 : 2 ^ 32 = 4294967296) by reflexivity.
  rewrite H31, H32 in *. rewrite Z.mod_small by lia. lia.
Qed.

Lemma reserve_nonneg (width height : Z) :
  0 <= width -> 0 <= height -> width * height < 2 ^ 31 ->
  reserve (int_mul width height) = Done tt.
Proof.
  intros Hw Hh Hb. unfold reserve, int_mul.
  assert (0 <= width * height) by (apply Z.mul_nonneg_nonneg; assumption).
  assert (H31 : 2 ^ 31 = 2147483648) by reflexivity.
  rewrite int_of_id by lia.
  assert (0 <= Z.quot (width * height) 4) by (apply Z.quot_pos; lia).
  destruct (Z.ltb_spec (Z.quot (width * height) 4) 0); [lia | reflexivity].
Qed.

(** X8. On a grid of fewer than 2^31 cells of which fewer than three pass
    the validity filter (in particular a grid of invalid cells only) both
    functions return the empty result, whatever the parameters are and
    without a draw; detect_walls_ransac leaves the buffer untouched. *)
Theorem fewer_than_three_valid_cells :
  forall (grid : list float) (width height : Z) (fx fy cx cy thr : float)
         (minInliers maxIterations : Z) (buffer : list RansacPlaneResult) (max_planes : Z)
         (draws : list nat),
    0 <= width -> 0 <= height -> width * height < 2 ^ 31 -> covers grid width height ->
    ((length (filter (kept_app grid width) (grid_cells width height)) < 3)%nat ->
     findPlanesRansac grid width height fx fy cx cy thr minInliers maxIterations draws
     = Done [])
    /\ ((length (filter (kept_android grid width) (grid_cells width height)) < 3)%nat ->
        detect_walls_ransac grid width height fx fy cx cy thr minInliers maxIterations
          buffer max_planes draws = Done (0, buffer)).
Proof.
  intros grid width height fx fy cx cy thr minInliers maxIterations buffer max_planes
         draws Hw Hh Hb Hc.
  unfold findPlanesRansac, detect_walls_ransac.
  rewrite reserve_nonneg, build_cloud_app_eq, build_cloud_android_eq by assumption.
  cbn [obind]. split; intros Hlt.
  - rewrite estimate_app_early; [reflexivity|]. left. rewrite length_map. lia.
  - rewrite estimate_android_early; [reflexivity|]. left. rewrite length_map. lia.
Qed.

Lemma fewer_than_three_valid_cells_witness :
  0 <= 2 /\ 2 * 2 < 2 ^ 31 /\ covers [F32.zero; F32.one; F32.zero; F32.one] 2 2
  /\ (length (filter (kept_app [F32.zero; F32.one; F32.zero; F32.one] 2) (grid_cells 2 2))
      < 3)%nat
  /\ findPlanesRansac [F32.zero; F32.one; F32.zero; F32.one] 2 2 (F32.of_int 4)
       (F32.of_int 4) (F32.of_int 2) (F32.of_int 2) f32_0_05 0 5 [] = Done []
  /\ (length (filter (kept_android [F32.zero; F32.one; F32.zero; F32.one] 2)
                 (grid_cells 2 2)) < 3)%nat
  /\ detect_walls_ransac [F32.zero; F32.one; F32.zero; F32.one] 2 2 (F32.of_int 4)
       (F32.of_int 4) (F32.of_int 2) (F32.of_int 2) f32_0_05 0 5 two_slots 2 []
     = Done (0, two_slots).
Proof.
  assert (H0 : 0 <= 2) by lia.
  assert (Hb : 2 * 2 < 2 ^ 31) by (vm_compute; reflexivity).
  assert (Hc : covers [F32.zero; F32.one; F32.zero; F32.one] 2 2)
    by (unfold covers; simpl; lia).
  assert (Hk : (length (filter (kept_app [F32.zero; F32.one; F32.zero; F32.one] 2)
                          (grid_cells 2 2)) < 3)%nat) by (vm_compute; lia).
  assert (Hk' : (length (filter (kept_android [F32.zero; F32.one; F32.zero; F32.one] 2)
                           (grid_cells 2 2)) < 3)%nat) by (vm_compute; lia).
  split; [exact H0|]. split; [exact Hb|]. split; [exact Hc|]. split; [exact Hk|].
  split; [|split; [exact Hk'|]].
  - exact (proj1 (@fewer_than_three_valid_cells _ 2 2 (F32.of_int 4) (F32.of_int 4)
                    (F32.of_int 2) (F32.of_int 2) f32_0_05 0 5 two_slots 2 [] H0 H0 Hb Hc)
             Hk).
  - exact (proj2 (@fewer_than_three_valid_cells _ 2 2 (F32.of_int 4) (F32.of_int 4)
                    (F32.of_int 2) (F32.of_int 2) f32_0_05 0 5 two_slots 2 [] H0 H0 Hb Hc)
             Hk').
Defined.

(** ** The use of the generator *)

Lemma resample_suffix (clash : nat -> bool) :
  forall (ds : list nat) (idx i : nat) (rest : list nat),
    resample clash idx ds = Done (i, rest) -> exists used, ds = used ++ rest.
Proof.
  induction ds as [|d ds IH]; intros idx i rest; simpl;
    destruct (clash idx); try discriminate.
  - intros [= _ <-]. now exists [].
  - intros H. destruct (IH _ _ _ H) as [used ->]. now exists (d :: used).
  - intros [= _ <-]. now exists [].
Qed.

Lemma iteration_app_takes_three (cloud : list Point3D) (thr : float) (ds rest : list nat)
  (it : iteration) :
  iteration_app cloud thr ds = Done (it, rest) ->
  exists d1 d2 d3, ds = d1 :: d2 :: d3 :: rest.
Proof.
  unfold iteration_app, bind, obind.
  destruct (sample_app ds) as [[s r1]| | |] eqn:E; try discriminate.
  apply sample_app_inv in E as (d1 & d2 & d3 & -> & _). cbn [fst snd].
  destruct s as [t|].
  - unfold lift, obind. destruct (evaluate_app cloud thr t); try discriminate.
    intros [= _ <-]. now exists d1, d2, d3.
  - unfold ret. intros [= _ <-]. now exists d1, d2, d3.
Qed.

Lemma iteration_android_takes_three (cloud : list Point3D) (thr : float)
  (ds rest : list nat) (it : iteration) :
  iteration_android cloud thr ds = Done (it, rest) ->
  exists used, ds = used ++ rest /\ (3 <= length used)%nat.
Proof.
  unfold iteration_android, bind, obind.
  destruct (sample_android ds) as [[t r1]| | |] eqn:E; try discriminate.
  cbn [fst snd]. unfold lift, obind.
  destruct (evaluate_android cloud thr t); try discriminate.
  intros [= _ <-].
  destruct ds as [|d1 [|d2 [|d3 ds]]]; try discriminate.
  unfold sample_android, bind, draw, ret, obind in E; simpl in E.
  destruct (resample (fun i => (i =? d1)%nat) d2 ds) as [[i2 r2]| | |] eqn:E2;
    try discriminate; simpl in E.
  destruct (resample (fun i => (i =? d1)%nat || (i =? i2)%nat) d3 r2) as [[i3 r3]| | |] eqn:E3;
    try discriminate; simpl in E.
  injection E as _ <-.
  apply resample_suffix in E2 as [u2 ->]. apply resample_suffix in E3 as [u3 ->].
  exists (d1 :: d2 :: d3 :: u2 ++ u3). split.
  - simpl. now rewrite <- app_assoc.
  - simpl. lia.
Qed.

(** X9. The n rounds of findPlanesRansac call the generator exactly 3 n times,
    collisions included; the n rounds of detect_walls_ransac call it at least
    3 n times (more when indices are drawn again). The draws left over are a
    suffix of the stream. *)
Theorem draws_taken_by_the_rounds :
  forall (cloud : list Point3D) (thr : float) (n : nat) (ds rest : list nat)
         (its : list iteration),
    (ransac_trace n (iteration_app cloud thr) ds = Done (its, rest) ->
     exists used, ds = used ++ rest /\ length used = (3 * n)%nat)
    /\ (ransac_trace n (iteration_android cloud thr) ds = Done (its, rest) ->
        exists used, ds = used ++ rest /\ (3 * n <= length used)%nat).
Proof.
  intros cloud thr n. induction n as [|n IH]; intros ds rest its.
  - simpl. unfold ret. split; intros [= _ <-]; now exists [].
  - simpl. unfold bind, ret, obind. split.
    + destruct (iteration_app cloud thr ds) as [[it r1]| | |] eqn:E1; try discriminate.
      cbn [fst snd].
      destruct (ransac_trace n (iteration_app cloud thr) r1) as [[its1 r2]| | |] eqn:E2;
        try discriminate.
      cbn [fst snd]. intros [= _ <-].
      apply iteration_app_takes_three in E1 as (d1 & d2 & d3 & ->).
      destruct (proj1 (IH _ _ _) E2) as (used & -> & Hlen).
      exists (d1 :: d2 :: d3 :: used). split; [reflexivity | simpl; lia].
    + destruct (iteration_android cloud thr ds) as [[it r1]| | |] eqn:E1; try discriminate.
      cbn [fst snd].
      destruct (ransac_trace n (iteration_android cloud thr) r1)
        as [[its1 r2]| | |] eqn:E2; try discriminate.
      cbn [fst snd]. intros [= _ <-].
      apply iteration_android_takes_three in E1 as (u1 & -> & H1).
      destruct (proj2 (IH _ _ _) E2) as (used & -> & Hlen).
      exists (u1 ++ used). split; [now rewrite app_assoc | rewrite length_app; lia].
Qed.

Lemma draws_taken_by_the_rounds_witness :
  ransac_trace 1 (iteration_app flat_cloud f32_0_05) [0; 0; 1; 2]%nat
  = Done ([Collision], [2]%nat)
  /\ exists used, [0; 0; 1; 2]%nat = used ++ [2]%nat /\ length used = (3 * 1)%nat.
Proof.
  assert (H : ransac_trace 1 (iteration_app flat_cloud f32_0_05) [0; 0; 1; 2]%nat
              = Done ([Collision], [2]%nat)) by (vm_compute; reflexivity).
  split; [exact H|].
  exact (proj1 (@draws_taken_by_the_rounds flat_cloud f32_0_05 1 _ _ _) H).
Defined.

(** X10. The retry loop of detect_walls_ransac returns exactly when the
    current index or a later draw does not clash, and it then returns the
    first such index, having passed over clashing ones only; when every
    available index clashes it uses up the draws. *)
Theorem resample_returns_first_free_index :
  forall (clash : nat -> bool) (idx : nat) (ds : list nat),
    (Exists (fun d => clash d = false) (idx :: ds) ->
     exists skipped i rest,
       resample clash idx ds = Done (i, rest)
       /\ idx :: ds = skipped ++ i :: rest
       /\ Forall (fun d => clash d = true) skipped /\ clash i = false)
    /\ (Forall (fun d => clash d = true) (idx :: ds) -> resample clash idx ds = Starved).
Proof.
  intros clash idx ds. split.
  - intros H. destruct (@resample_total clash ds idx H) as (i & rest & E).
    destruct (@resample_spec clash ds idx i rest E) as (Hi & skipped & Hsk & F).
    now exists skipped, i, rest.
  - revert idx. induction ds as [|d ds IH]; intros idx H; simpl;
      inversion H as [|? ? Hc Hrest]; subst; rewrite Hc; [reflexivity | now apply IH].
Qed.

Lemma resample_returns_first_free_index_witness :
  Exists (fun d => (d =? 4)%nat = false) [4; 4; 7; 4]%nat
  /\ exists skipped i rest,
       resample (fun d => (d =? 4)%nat) 4%nat [4; 7; 4]%nat = Done (i, rest)
       /\ [4; 4; 7; 4]%nat = skipped ++ i :: rest
       /\ Forall (fun d => (d =? 4)%nat = true) skipped /\ (i =? 4)%nat = false.
Proof.
  assert (H : Exists (fun d => (d =? 4)%nat = false) [4; 4; 7; 4]%nat)
    by (right; right; left; reflexivity).
  split; [exact H|].
  exact (proj1 (@resample_returns_first_free_index (fun d => (d =? 4)%nat) 4%nat
                  [4; 7; 4]%nat) H).
Defined.

(** ** The JNI bridge *)

(** X11. The bridge returns null when the depth buffer is not a direct
    buffer (without running the estimator) and when findPlanesRansac finds
    no plane. A non-null result is an array of exactly one row, which is not
    null and holds the five floats A, B, C, D and the inlier count of the
    single plane of findPlanesRansac, a count of at least minInliers. When
    the virtual machine answers every allocation, a plane found is always
    returned. *)
Theorem bridge_returns_the_single_plane :
  forall (env : JNIEnv) (depthMap : option (list float)) (width height : Z)
         (fx fy cx cy thr : float) (minInliers maxIterations : Z) (draws : list nat),
    (depthMap = None ->
     Java_com_example_depthperceptionapp_ndk_NdkBridge_detectWallsRansac env depthMap
       width height fx fy cx cy thr minInliers maxIterations draws = Done None)
    /\ (forall data,
           depthMap = Some data ->
           findPlanesRansac data width height fx fy cx cy thr minInliers maxIterations
             draws = Done [] ->
           Java_com_example_depthperceptionapp_ndk_NdkBridge_detectWallsRansac env depthMap
             width height fx fy cx cy thr minInliers maxIterations draws = Done None)
    /\ (forall array,
           Java_com_example_depthperceptionapp_ndk_NdkBridge_detectWallsRansac env depthMap
             width height fx fy cx cy thr minInliers maxIterations draws
           = Done (Some array) ->
           exists data r,
             depthMap = Some data
             /\ findPlanesRansac data width height fx fy cx cy thr minInliers
                  maxIterations draws = Done [r]
             /\ array = [Some [res_A r; res_B r; res_C r; res_D r;
                               F32.of_int (numInliers r)]]
             /\ minInliers <= numInliers r)
    /\ (forall data r,
           depthMap = Some data ->
           findPlanesRansac data width height fx fy cx cy thr minInliers maxIterations
             draws = Done [r] ->
           FindClass env = true -> NewObjectArray env = true ->
           NewFloatArray env 0 = true ->
           Java_com_example_depthperceptionapp_ndk_NdkBridge_detectWallsRansac env depthMap
             width height fx fy cx cy thr minInliers maxIterations draws
           = Done (Some [Some [res_A r; res_B r; res_C r; res_D r;
                               F32.of_int (numInliers r)]])).
Proof.
  intros env depthMap width height fx fy cx cy thr minInliers maxIterations draws.
  unfold Java_com_example_depthperceptionapp_ndk_NdkBridge_detectWallsRansac.
  split; [now intros ->|]. split; [intros data -> H; now rewrite H|]. split.
  - intros array. destruct depthMap as [data|]; [|discriminate].
    destruct (findPlanesRansac data width height fx fy cx cy thr minInliers maxIterations
                draws) as [planes| | |] eqn:E; try discriminate.
    cbn [obind]. intros H.
    assert (Hone := E). apply findPlanesRansac_inv in Hone as (cloud & rest & _ & Hone).
    apply estimate_app_inv in Hone as [-> | (r & -> & Hr)]; [discriminate|].
    destruct (FindClass env); [|discriminate].
    destruct (NewObjectArray env); [|discriminate].
    cbn [negb fill_result length repeat] in H.
    destruct (NewFloatArray env 0); [|discriminate].
    cbn [SetObjectArrayElement] in H. injection H as <-.
    now exists data, r.
  - intros data r -> H Hc Ha Hf. rewrite H. cbn [obind]. rewrite Hc, Ha.
    cbn [negb fill_result length repeat]. now rewrite Hf.
Qed.

Lemma bridge_returns_the_single_plane_witness :
  Java_com_example_depthperceptionapp_ndk_NdkBridge_detectWallsRansac
    (mkJNIEnv true true (fun _ => true)) (Some flat_grid) 2 2 (F32.of_int 4) (F32.of_int 4)
    (F32.of_int 2) (F32.of_int 2) f32_0_05 3 1 [0; 1; 2]%nat
  = Done (Some [Some [F32.zero; F32.zero; F32.one; (- (F32.of_int 2))%f32; F32.of_int 4]])
  /\ exists data r,
       Some flat_grid = Some data
       /\ findPlanesRansac data 2 2 (F32.of_int 4) (F32.of_int 4) (F32.of_int 2)
            (F32.of_int 2) f32_0_05 3 1 [0; 1; 2]%nat = Done [r]
       /\ [Some [F32.zero; F32.zero; F32.one; (- (F32.of_int 2))%f32; F32.of_int 4]]
          = [Some [res_A r; res_B r; res_C r; res_D r; F32.of_int (numInliers r)]]
       /\ 3 <= numInliers r.
Proof.
  assert (H : Java_com_example_depthperceptionapp_ndk_NdkBridge_detectWallsRansac
                (mkJNIEnv true true (fun _ => true)) (Some flat_grid) 2 2 (F32.of_int 4)
                (F32.of_int 4) (F32.of_int 2) (F32.of_int 2) f32_0_05 3 1 [0; 1; 2]%nat
              = Done (Some [Some [F32.zero; F32.zero; F32.one; (- (F32.of_int 2))%f32;
                                  F32.of_int 4]])) by (vm_compute; reflexivity).
  split; [exact H|].
  exact (proj1 (proj2 (proj2 (@bridge_returns_the_single_plane _ _ _ _ _ _ _ _ _ _ _ _)))
           _ H).
Defined.

(** ** The inlier count as a float *)

Lemma round_canonical (s : bool) (mz : positive) (ez : Z) :
  Zpos (digits2_pos mz) = 24 -> -149 <= ez <= 104 ->
  binary_round_aux 24 128 s (Zpos mz) ez loc_Exact = S754_finite s mz ez.
Proof.
  intros Hd He. unfold binary_round_aux.
  assert (E : shr_fexp 24 128 (Zpos mz) ez loc_Exact
              = ({| shr_m := Zpos mz; shr_r := false; shr_s := false |}, ez)).
  { unfold shr_fexp, Zdigits2, fexp, emin. rewrite Hd.
    match goal with |- shr _ _ ?n = _ => replace n with 0 by lia end.
    reflexivity. }
  rewrite E. cbn [shr_m loc_of_shr_record round_nearest_even]. rewrite E.
  cbn [shr_m]. destruct (Z.leb_spec ez (128 - 24)); [reflexivity | lia].
Qed.

Lemma digits2_pos_iter (p k : positive) :
  Zpos (digits2_pos (Pos.iter xO p k)) = Zpos (digits2_pos p) + Zpos k.
Proof.
  revert p. induction k using Pos.peano_ind; intros p.
  - simpl. lia.
  - rewrite Pos.iter_succ. simpl digits2_pos. rewrite Pos2Z.inj_succ, IHk. lia.
Qed.

Lemma iter_xO_value (p k : positive) : Zpos (Pos.iter xO p k) = Zpos p * 2 ^ Zpos k.
Proof.
  revert p. induction k using Pos.peano_ind; intros p.
  - simpl. lia.
  - rewrite Pos.iter_succ, Pos2Z.inj_xO, IHk, Pos2Z.inj_succ, Z.pow_succ_r by lia. lia.
Qed.

Lemma of_int_small (p : positive) :
  Zpos p < 2 ^ 24 -> float_is_int (F32.of_int (Zpos p)) (Zpos p).
Proof.
  intros Hp.
  assert (Hd : 1 <= Zpos (digits2_pos p) <= 24).
  { split; [lia|]. pose proof (digits2_pos_lower p) as Hl.
    destruct (Z.le_gt_cases (Zpos (digits2_pos p)) 24) as [|Hgt]; [assumption|].
    exfalso. assert (2 ^ 24 <= 2 ^ (Zpos (digits2_pos p) - 1))
      by (apply Z.pow_le_mono_r; lia). lia. }
  unfold F32.of_int, binary_normalize, binary_round, fexp, emin, F32.prec, F32.emax.
  rewrite Z.add_0_r.
  replace (Z.max (Zpos (digits2_pos p) - 24) (3 - 128 - 24))
    with (Zpos (digits2_pos p) - 24) by lia.
  unfold shl_align. rewrite Z.sub_0_r.
  destruct (Zpos (digits2_pos p) - 24) as [|q|q] eqn:Eq; [|lia|].
  - rewrite (@round_canonical false p 0) by lia. simpl. lia.
  - rewrite (@round_canonical false (Pos.iter xO p q) (Zneg q)).
    + unfold float_is_int. destruct (Z.leb_spec (Zneg q) 0); [|lia].
      cbn [cond_Zopp Z.opp]. apply iter_xO_value.
    + rewrite digits2_pos_iter. lia.
    + lia.
Qed.

Lemma of_int_exact (n : Z) : 0 <= n <= 2 ^ 24 -> float_is_int (F32.of_int n) n.
Proof.
  intros Hn. destruct (Z.eq_dec n (2 ^ 24)) as [-> | Hne]; [vm_compute; reflexivity|].
  assert (H24 : 2 ^ 24 = 16777216) by reflexivity.
  destruct n as [|p|p]; [reflexivity | apply of_int_small; lia | lia].
Qed.

Lemma float_is_int_unique (x : float) (n m : Z) :
  float_is_int x n -> float_is_int x m -> n = m.
Proof.
  destruct x as [s|s| |s mx e]; simpl; try tauto; try lia.
  destruct (Z.leb_spec e 0).
  - intros Hn Hm. rewrite Hn in Hm.
    apply Z.mul_reg_r in Hm; [assumption|].
    assert (0 < 2 ^ (- e)) by (apply Z.pow_pos_nonneg; lia).
    lia.
  - intros <- <-. reflexivity.
Qed.

(** X12. The conversion [static_cast<jfloat>(numInliers)] of the bridge is
    exact for every count from 0 to 2 ^ 24 = 16777216: the float stands for
    the count, and different counts give different floats; the row that the
    bridge fills for a plane with such a count ends in a float that stands
    for the count. The bound is sharp: 2 ^ 24 + 1 is converted to the same
    float as 2 ^ 24. *)
Theorem inlier_count_as_jfloat :
  forall n m : Z,
    0 <= n <= 2 ^ 24 -> 0 <= m <= 2 ^ 24 ->
    float_is_int (F32.of_int n) n
    /\ (F32.of_int n = F32.of_int m -> n = m)
    /\ F32.of_int (2 ^ 24 + 1) = F32.of_int (2 ^ 24)
    /\ (forall (env : JNIEnv) (A B C D : float) (array : jobjectArray),
           fill_result env [mkPlaneResult A B C D n] 0 [None] = Some array ->
           exists x, array = [Some [A; B; C; D; x]] /\ float_is_int x n)
    /\ (forall (env : JNIEnv) (A B C D : float),
           fill_result env [mkPlaneResult A B C D n] 0 [None]
           = fill_result env [mkPlaneResult A B C D m] 0 [None] ->
           NewFloatArray env 0 = true -> n = m).
Proof.
  intros n m Hn Hm.
  assert (Hinj : F32.of_int n = F32.of_int m -> n = m).
  { intros E. apply (float_is_int_unique (F32.of_int n)); [now apply of_int_exact|].
    rewrite E. now apply of_int_exact. }
  split; [now apply of_int_exact|]. split; [exact Hinj|]. split; [reflexivity|]. split.
  - intros env A B C D array. cbn [fill_result SetObjectArrayElement].
    destruct (NewFloatArray env 0); [|discriminate].
    cbn [res_A res_B res_C res_D numInliers]. intros [= <-].
    exists (F32.of_int n). split; [reflexivity | now apply of_int_exact].
  - intros env A B C D. cbn [fill_result SetObjectArrayElement]. intros E H.
    rewrite H in E. cbn [res_A res_B res_C res_D numInliers] in E.
    apply Hinj. congruence.
Qed.

Lemma inlier_count_as_jfloat_witness :
  0 <= 4 <= 2 ^ 24 /\ float_is_int (F32.of_int 4) 4.
Proof.
  assert (H : 0 <= 4 <= 2 ^ 24) by (simpl; lia).
  split; [exact H|].
  exact (proj1 (@inlier_count_as_jfloat 4 4 H H)).
Defined.

(** ** Accesses inside the buffers *)

Lemma tame_ret {A : Type} (len : nat) (Q : A -> Prop) (a : A) : Q a -> tame len Q (ret a).
Proof. intros Ha ds Hds. left. now exists a, ds. Qed.

Lemma tame_bind {A B : Type} (len : nat) (Q : A -> Prop) (R : B -> Prop) (c : M A)
  (k : A -> M B) :
  tame len Q c -> (forall a, Q a -> tame len R (k a)) -> tame len R (bind c k).
Proof.
  intros Hc Hk ds Hds. unfold bind.
  destruct (Hc ds Hds) as [(a & rest & -> & Ha & Hrest) | ->]; [|now right].
  cbn [obind fst snd]. now apply Hk.
Qed.

Lemma tame_weaken {A : Type} (len : nat) (Q R : A -> Prop) (c : M A) :
  (forall a, Q a -> R a) -> tame len Q c -> tame len R c.
Proof.
  intros HQR Hc ds Hds.
  destruct (Hc ds Hds) as [(a & rest & E & Ha & Hrest) | E]; [left | now right].
  exists a, rest. auto.
Qed.

Lemma tame_draw (len : nat) : tame len (fun d => (d < len)%nat) draw.
Proof.
  intros [|d ds] Hds; [now right|]. left. inversion Hds; subst. now exists d, ds.
Qed.

Lemma tame_resample (len : nat) (clash : nat -> bool) (idx : nat) :
  (idx < len)%nat -> tame len (fun i => (i < len)%nat) (resample clash idx).
Proof.
  intros Hidx ds. revert idx Hidx. induction ds as [|d ds IH]; intros idx Hidx Hds; simpl.
  - destruct (clash idx); [now right|]. left. now exists idx, [].
  - destruct (clash idx).
    + inversion Hds; subst. now apply IH.
    + left. now exists idx, (d :: ds).
Qed.

Lemma tame_sample_app (len : nat) :
  tame len (fun s => match s with Some t => inside len t | None => True end) sample_app.
Proof.
  unfold sample_app.
  eapply tame_bind; [apply tame_draw|]. intros idx1 H1.
  eapply tame_bind; [apply tame_draw|]. intros idx2 H2.
  eapply tame_bind; [apply tame_draw|]. intros idx3 H3.
  destruct (_ || _); apply tame_ret; simpl; auto.
Qed.

Lemma tame_sample_android (len : nat) : tame len (inside len) sample_android.
Proof.
  unfold sample_android.
  eapply tame_bind; [apply tame_draw|]. intros idx1 H1.
  eapply tame_bind; [apply tame_draw|]. intros idx2 H2.
  eapply tame_bind; [apply tame_draw|]. intros idx3 H3.
  eapply tame_bind; [now apply tame_resample|]. intros idx2' H2'.
  eapply tame_bind; [now apply tame_resample|]. intros idx3' H3'.
  apply tame_ret. simpl. auto.
Qed.

Lemma tame_lift {A : Type} (len : nat) (c : outcome A) :
  (exists a, c = Done a) -> tame len (fun _ => True) (lift c).
Proof. intros [a ->] ds Hds. left. now exists a, ds. Qed.

Lemma tame_iteration_app (cloud : list Point3D) (thr : float) :
  tame (length cloud) (fun _ => True) (iteration_app cloud thr).
Proof.
  unfold iteration_app. eapply tame_bind; [apply tame_sample_app|].
  intros [[[i1 i2] i3]|] Ht; [|now apply tame_ret].
  destruct Ht as (H1 & H2 & H3). apply tame_lift. now apply evaluate_app_total.
Qed.

Lemma tame_iteration_android (cloud : list Point3D) (thr : float) :
  tame (length cloud) (fun _ => True) (iteration_android cloud thr).
Proof.
  unfold iteration_android. eapply tame_bind; [apply tame_sample_android|].
  intros [[i1 i2] i3] (H1 & H2 & H3). apply tame_lift. now apply evaluate_android_total.
Qed.

Lemma tame_ransac_loop (len : nat) (round : M iteration) :
  tame len (fun _ => True) round ->
  forall n best, tame len (fun _ => True) (ransac_loop n round best).
Proof.
  intros Hr. induction n as [|n IH]; intros best; simpl.
  - now apply tame_ret.
  - eapply tame_bind; [exact Hr|]. intros it _. apply IH.
Qed.

Lemma tame_estimate_app (cloud : list Point3D) (thr : float) (minInliers maxIterations : Z) :
  tame (length cloud) (fun _ => True) (estimate_app cloud thr minInliers maxIterations).
Proof.
  unfold estimate_app. destruct (_ || _); [now apply tame_ret|].
  eapply tame_bind; [apply tame_ransac_loop, tame_iteration_app|].
  intros [bestPlane maxInliersFound] _. destruct (_ >=? _); now apply tame_ret.
Qed.

Lemma tame_estimate_android (cloud : list Point3D) (thr : float)
  (min_inliers max_iterations : Z) (buffer : list RansacPlaneResult) (max_planes : Z) :
  buffer <> [] \/ max_planes < 1 ->
  tame (length cloud) (fun _ => True)
       (estimate_android cloud thr min_inliers max_iterations buffer max_planes).
Proof.
  intros Hbuf. unfold estimate_android. destruct (_ || _); [now apply tame_ret|].
  eapply tame_bind; [apply tame_ransac_loop, tame_iteration_android|].
  intros [best_plane best_inlier_count] _.
  destruct (Z.geb_spec max_planes 1); rewrite ?andb_false_r; [|now apply tame_ret].
  destruct (_ >=? _); cbn [andb]; [|now apply tame_ret].
  eapply tame_bind; [|intros b _; now apply tame_ret].
  apply tame_lift. destruct buffer as [|old others]; [destruct Hbuf; [tauto | lia]|].
  simpl. eauto.
Qed.

(** X13. Memory safety. Let the depth buffer hold a value for every cell of
    a grid of non-negative dimensions and fewer than 2^31 cells, and let the
    generator return indices of the cloud only, as
    [std::uniform_int_distribution(0, size - 1)] does. Then findPlanesRansac
    returns normally or is still asking for draws: it never reads outside the
    depth buffer or the cloud and never throws; with three draws for each
    iteration it returns. The same holds for detect_walls_ransac when the
    output buffer has room for one record or max_planes < 1, except that its
    retry loops may ask for more draws. *)
Theorem accesses_stay_in_bounds :
  forall (grid : list float) (width height : Z) (fx fy cx cy thr : float)
         (minInliers maxIterations : Z) (buffer : list RansacPlaneResult) (max_planes : Z)
         (draws : list nat),
    0 <= width -> 0 <= height -> width * height < 2 ^ 31 -> covers grid width height ->
    ((forall cloud, build_cloud_app grid width height fx fy cx cy = Done cloud ->
                    Forall (fun d => (d < length cloud)%nat) draws) ->
     ((exists planes,
          findPlanesRansac grid width height fx fy cx cy thr minInliers maxIterations draws
          = Done planes)
      \/ findPlanesRansac grid width height fx fy cx cy thr minInliers maxIterations draws
         = Starved)
     /\ ((3 * Z.to_nat maxIterations <= length draws)%nat ->
         exists planes,
           findPlanesRansac grid width height fx fy cx cy thr minInliers maxIterations draws
           = Done planes))
    /\ ((forall cloud, build_cloud_android grid width height fx fy cx cy = Done cloud ->
                       Forall (fun d => (d < length cloud)%nat) draws) ->
        buffer <> [] \/ max_planes < 1 ->
        (exists r,
            detect_walls_ransac grid width height fx fy cx cy thr minInliers maxIterations
              buffer max_planes draws = Done r)
        \/ detect_walls_ransac grid width height fx fy cx cy thr minInliers maxIterations
             buffer max_planes draws = Starved).
Proof.
  intros grid width height fx fy cx cy thr minInliers maxIterations buffer max_planes
         draws Hw Hh Hb Hc.
  unfold findPlanesRansac, detect_walls_ransac.
  rewrite reserve_nonneg, build_cloud_app_eq, build_cloud_android_eq by assumption.
  cbn [obind]. split.
  - intros Hd. specialize (Hd _ eq_refl). split.
    + destruct (@tame_estimate_app _ thr minInliers maxIterations _ Hd)
        as [(planes & rest & -> & _) | ->]; [left; now exists planes | now right].
    + intros Hlen.
      destruct (too_few_dec (map (point_app grid width fx fy cx cy)
                               (filter (kept_app grid width) (grid_cells width height)))
                  minInliers) as [(Hf & _) | (Hn & _)].
      * rewrite estimate_app_early by assumption. cbn [obind fst]. eauto.
      * destruct (@ransac_trace_app_total _ thr _ _ Hlen Hd) as [its Htr].
        rewrite (@estimate_app_late _ _ _ _ _ _ _ Hn Htr). cbn [obind fst]. eauto.
  - intros Hd Hbuf. specialize (Hd _ eq_refl).
    destruct (@tame_estimate_android _ thr minInliers maxIterations _ _ Hbuf _ Hd)
      as [(r & rest & -> & _) | ->]; [left; now exists r | now right].
Qed.

Lemma accesses_stay_in_bounds_witness :
  0 <= 2 /\ 2 * 2 < 2 ^ 31 /\ covers flat_grid 2 2
  /\ (forall cloud,
         build_cloud_app flat_grid 2 2 (F32.of_int 4) (F32.of_int 4) (F32.of_int 2)
           (F32.of_int 2) = Done cloud ->
         Forall (fun d => (d < length cloud)%nat) [0; 3; 1]%nat)
  /\ (3 * Z.to_nat 1 <= length [0; 3; 1]%nat)%nat
  /\ (exists planes,
         findPlanesRansac flat_grid 2 2 (F32.of_int 4) (F32.of_int 4) (F32.of_int 2)
           (F32.of_int 2) f32_0_05 3 1 [0; 3; 1]%nat = Done planes)
  /\ (forall cloud,
         build_cloud_android flat_grid 2 2 (F32.of_int 4) (F32.of_int 4) (F32.of_int 2)
           (F32.of_int 2) = Done cloud ->
         Forall (fun d => (d < length cloud)%nat) [0; 3; 1]%nat)
  /\ (two_slots <> [] \/ 2 < 1)
  /\ ((exists r,
          detect_walls_ransac flat_grid 2 2 (F32.of_int 4) (F32.of_int 4) (F32.of_int 2)
            (F32.of_int 2) f32_0_05 3 1 two_slots 2 [0; 3; 1]%nat = Done r)
      \/ detect_walls_ransac flat_grid 2 2 (F32.of_int 4) (F32.of_int 4) (F32.of_int 2)
           (F32.of_int 2) f32_0_05 3 1 two_slots 2 [0; 3; 1]%nat = Starved).
Proof.
  assert (H0 : 0 <= 2) by lia.
  assert (Hb : 2 * 2 < 2 ^ 31) by (vm_compute; reflexivity).
  assert (Hc : covers flat_grid 2 2) by (unfold covers; simpl; lia).
  assert (Hd : forall cloud,
             build_cloud_app flat_grid 2 2 (F32.of_int 4) (F32.of_int 4) (F32.of_int 2)
               (F32.of_int 2) = Done cloud ->
             Forall (fun d => (d < length cloud)%nat) [0; 3; 1]%nat).
  { intros cloud H. vm_compute in H. injection H as <-.
    repeat (constructor; [simpl; lia|]). constructor. }
  assert (Hd' : forall cloud,
             build_cloud_android flat_grid 2 2 (F32.of_int 4) (F32.of_int 4) (F32.of_int 2)
               (F32.of_int 2) = Done cloud ->
             Forall (fun d => (d < length cloud)%nat) [0; 3; 1]%nat).
  { intros cloud H. vm_compute in H. injection H as <-.
    repeat (constructor; [simpl; lia|]). constructor. }
  assert (Hl : (3 * Z.to_nat 1 <= length [0; 3; 1]%nat)%nat) by (simpl; lia).
  assert (Hs : two_slots <> [] \/ 2 < 1) by (left; discriminate).
  split; [exact H0|]. split; [exact Hb|]. split; [exact Hc|]. split; [exact Hd|].
  split; [exact Hl|]. split; [|split; [exact Hd'|split; [exact Hs|]]].
  - exact (proj2 (proj1 (@accesses_stay_in_bounds flat_grid 2 2 (F32.of_int 4)
                           (F32.of_int 4) (F32.of_int 2) (F32.of_int 2) f32_0_05 3 1
                           two_slots 2 [0; 3; 1]%nat H0 H0 Hb Hc) Hd) Hl).
  - exact (proj2 (@accesses_stay_in_bounds flat_grid 2 2 (F32.of_int 4) (F32.of_int 4)
                    (F32.of_int 2) (F32.of_int 2) f32_0_05 3 1 two_slots 2 [0; 3; 1]%nat
                    H0 H0 Hb Hc) Hd' Hs).
Defined.
